(** * A shallow embedding of the research chatbot front end and of its
      research loop

    The front-end functions are translated from the TypeScript sources
    ([UploadFile.tsx], [useChatHistory.ts], and [App.tsx] as reproduced in
    the README).  The research loop itself (query generation, retrieval,
    re-ranking, reflection, loop control) lives in backend files that are
    not part of the sources at hand; its definitions are modelled from
    the specification and marked as such.  The answer synthesizer, of
    which the specification gives requirements but no mechanism, is not
    modelled. *)

From Stdlib Require Import List String Ascii Bool Arith ZArith QArith Lia Lqa.
From Stdlib Require Import Permutation Sorted.
Import ListNotations.

Set Implicit Arguments.

Local Close Scope Q_scope.
Local Open Scope string_scope.
Local Open Scope list_scope.
Local Open Scope nat_scope.

(* ================================================================= *)
(** ** JavaScript strings *)

(** A character stands for one code unit; the model covers the code units
    below 256, which is where the string literals of the sources live. *)
Module JsString.

Definition code (c : ascii) : nat := nat_of_ascii c.

(** [String.prototype.toLowerCase], on one code unit: A-Z and the
    Latin-1 capitals (all of 192..222 but the multiplication sign). *)
Definition lowerChar (c : ascii) : ascii :=
  let n := code c in
  if ((65 <=? n) && (n <=? 90))
     || ((192 <=? n) && (n <=? 222) && negb (n =? 215))
  then ascii_of_nat (n + 32)
  else c.

Fixpoint toLowerCase (s : string) : string :=
  match s with
  | EmptyString => EmptyString
  | String c s' => String (lowerChar c) (toLowerCase s')
  end.

(** [s.split(sep)] for a separator of one character: never the empty
    array, and an empty piece between two adjacent separators. *)
Fixpoint split (sep : ascii) (s : string) : list string :=
  match s with
  | EmptyString => [EmptyString]
  | String c s' =>
      if Ascii.eqb c sep then EmptyString :: split sep s'
      else match split sep s' with
           | w :: ws => String c w :: ws
           | [] => [String c EmptyString]
           end
  end.

(** [arr.join(sep)]. *)
Fixpoint join (sep : string) (ws : list string) : string :=
  match ws with
  | [] => EmptyString
  | [w] => w
  | w :: ws' => (w ++ sep ++ join sep ws')%string
  end.

(** [arr.pop()]: the last element, [undefined] (here [None]) on the
    empty array. *)
Fixpoint pop (ws : list string) : option string :=
  match ws with
  | [] => None
  | [w] => Some w
  | _ :: ws' => pop ws'
  end.

(** [x || ""] for [x] a string or [undefined]: both [undefined] and the
    empty string are falsy. *)
Definition orEmpty (x : option string) : string :=
  match x with
  | Some (String c s) => String c s
  | _ => EmptyString
  end.

(** [arr.includes(x)] on an array of strings. *)
Definition includes (ws : list string) (x : string) : bool :=
  existsb (String.eqb x) ws.

(** [arr.slice(0, n)]. *)
Definition slice0 (n : nat) (ws : list string) : list string := firstn n ws.

(** White space as [trim] sees it (WhiteSpace and LineTerminator of the
    language, below 256): TAB, LF, VT, FF, CR, SPACE, NBSP. *)
Definition isWhiteSpace (c : ascii) : bool :=
  let n := code c in
  ((9 <=? n) && (n <=? 13)) || (n =? 32) || (n =? 160).

Fixpoint trimStart (s : string) : string :=
  match s with
  | EmptyString => EmptyString
  | String c s' => if isWhiteSpace c then trimStart s' else s
  end.

(** Drops the trailing white space: a white-space character is kept only
    when something that is kept follows it. *)
Fixpoint trimEnd (s : string) : string :=
  match s with
  | EmptyString => EmptyString
  | String c s' =>
      match trimEnd s' with
      | EmptyString => if isWhiteSpace c then EmptyString
                       else String c EmptyString
      | t => String c t
      end
  end.

Definition trim (s : string) : string := trimEnd (trimStart s).

Fixpoint allWhiteSpace (s : string) : bool :=
  match s with
  | EmptyString => true
  | String c s' => isWhiteSpace c && allWhiteSpace s'
  end.

End JsString.

(* ================================================================= *)
(** ** [UploadFile.tsx]: the file-type badge *)

Module UploadFile.
Import JsString.

Definition dot : ascii := "."%char.

(** [filename.toLowerCase().split(".").pop() || ""] *)
Definition extensionOf (filename : string) : string :=
  orEmpty (pop (split dot (toLowerCase filename))).

Definition getFileType (filename : string) : string :=
  let extension := extensionOf filename in
  if includes ["pdf"] extension then "PDF"
  else if includes ["docx"; "doc"] extension then "Word"
  else if includes ["pptx"; "ppt"] extension then "PowerPoint"
  else if includes ["xlsx"; "xls"] extension then "Excel"
  else if includes ["txt"; "md"; "csv"; "json"; "xml"; "html"; "htm"; "log"]
                   extension
  then "Text"
  else "Unknown".

(** The claim's words, to compare with: the extension is what follows
    the last dot of the lowercased name, and the whole lowercased name
    when it has no dot. *)
Fixpoint hasDot (s : string) : bool :=
  match s with
  | EmptyString => false
  | String c s' => Ascii.eqb c dot || hasDot s'
  end.

Fixpoint afterLastDot (s : string) : string :=
  match s with
  | EmptyString => EmptyString
  | String c s' =>
      if hasDot s' then afterLastDot s'
      else if Ascii.eqb c dot then s' else s
  end.

Definition finalExtension (filename : string) : string :=
  afterLastDot (toLowerCase filename).

(** Every extension the function knows. *)
Definition knownExtensions : list string :=
  ["pdf"; "docx"; "doc"; "pptx"; "ppt"; "xlsx"; "xls";
   "txt"; "md"; "csv"; "json"; "xml"; "html"; "htm"; "log"].

End UploadFile.

(* ================================================================= *)
(** ** Messages and conversations, as the front end declares them *)

Module Chat.

(** [message.content] is a string or a structured value; for the latter
    the model keeps what [JSON.stringify] makes of it, [None] when it
    throws. *)
Inductive MessageContent : Type :=
| TextContent (s : string)
| StructuredContent (stringified : option string).

Record Message : Type := mkMessage {
  msg_type : string;
  msg_content : MessageContent;
  msg_id : option string
}.

Inductive Status : Type := active | archived | deleted.

Record Conversation : Type := mkConversation {
  id : string;
  title : string;
  created_at : string;
  updated_at : string;
  message_count : Z;
  status : Status;
  summary : option string
}.

End Chat.

(* ================================================================= *)
(** ** [App.tsx]: what a submission sends to the agent *)

Module App.
Import Chat.

Record SubmitPayload : Type := mkPayload {
  messages : list Message;
  initial_search_query_count : Z;
  max_research_loops : Z;
  conversation_id : option string;
  user_id : option string
}.

(** The [switch (effort)] of [handleSubmit], with the two [let]
    initialisations as the arm of every other string. *)
Definition effortSettings (effort : string) : Z * Z :=
  let initial_search_query_count := 3%Z in
  let max_research_loops := 1%Z in
  if String.eqb effort "low" then (2, 1)%Z
  else if String.eqb effort "medium" then (3, 2)%Z
  else if String.eqb effort "high" then (5, 10)%Z
  else (initial_search_query_count, max_research_loops).

(** [handleSubmit]: [thread_messages] is [thread.messages] ([None] when
    undefined), [now] is [Date.now().toString()]. *)
Definition handleSubmit
    (thread_messages : option (list Message))
    (currentConversation : option Conversation)
    (userId : option string) (now : string)
    (submittedInputValue effort : string) : SubmitPayload :=
  let '(count, loops) := effortSettings effort in
  let newMessages :=
    match thread_messages with Some ms => ms | None => [] end
    ++ [mkMessage "human" (TextContent submittedInputValue) (Some now)] in
  {| messages := newMessages;
     initial_search_query_count := count;
     max_research_loops := loops;
     conversation_id := option_map id currentConversation;
     user_id := userId |}.

End App.

(* ================================================================= *)
(** ** [useChatHistory.ts]: the chat-history hook *)

Module ChatHistory.
Import JsString Chat.

(** What a [throw] or a rejected promise carries: an [Error] with its
    message, or any other value. *)
Inductive Thrown : Type :=
| ErrorObj (message : string)
| NonError.

Inductive Body : Type :=
| NoBody
| MessageBody (type content : string)   (* {type, content, extra_data: {}} *)
| TitleBody (title : string).           (* {title} *)

Record Request : Type := mkRequest {
  req_method : string;
  req_url : string;
  req_body : Body
}.

(** A response as the hook reads it: [text()] and [json()] may reject. *)
Record Response : Type := mkResponse {
  ok : bool;
  statusText : string;
  textBody : option string;
  jsonBody : option string
}.

Inductive FetchResult : Type :=
| Rejects (e : Thrown)
| Responds (r : Response).

(** The three [useState] cells of the hook. *)
Record HookState : Type := mkHookState {
  currentConversation : option Conversation;
  isLoading : bool;
  error : option string
}.

(** The hook's state together with its surroundings: the server, the
    clock read by [new Date().toISOString()], and the requests sent. *)
Record World : Type := mkWorld {
  hook : HookState;
  server : Request -> FetchResult;
  clock : string;
  sent : list Request
}.

(** An [async] body: it returns or throws, and changes the world. *)
Inductive Outcome (A : Type) : Type :=
| Returned (a : A)
| Threw (e : Thrown).
Arguments Threw {A} e.

Definition Async (A : Type) : Type := World -> Outcome A * World.

Definition ret {A} (a : A) : Async A := fun w => (Returned a, w).

Definition throw {A} (e : Thrown) : Async A := fun w => (Threw e, w).

Definition bind {A B} (m : Async A) (k : A -> Async B) : Async B :=
  fun w => match m w with
           | (Returned a, w') => k a w'
           | (Threw e, w') => (Threw e, w')
           end.

(** [try { body } catch (err) { handler }] *)
Definition tryCatch {A} (body : Async A) (handler : Thrown -> Async A)
  : Async A :=
  fun w => match body w with
           | (Returned a, w') => (Returned a, w')
           | (Threw e, w') => handler e w'
           end.

Notation "x <- m ;; k" := (bind m (fun x => k))
  (at level 61, m at next level, right associativity).
Notation "m ;;; k" := (bind m (fun _ => k))
  (at level 61, right associativity).

Definition setHook (f : HookState -> HookState) : Async unit :=
  fun w => (Returned tt,
            {| hook := f (hook w); server := server w;
               clock := clock w; sent := sent w |}).

(** [setCurrentConversation(updater)]: the updater gets the state as it
    is when the update is applied. *)
Definition setCurrentConversation
    (updater : option Conversation -> option Conversation) : Async unit :=
  setHook (fun h => {| currentConversation := updater (currentConversation h);
                       isLoading := isLoading h; error := error h |}).

Definition setError (e : option string) : Async unit :=
  setHook (fun h => {| currentConversation := currentConversation h;
                       isLoading := isLoading h; error := e |}).

Definition fetch (r : Request) : Async Response :=
  fun w =>
    let w' := {| hook := hook w; server := server w;
                 clock := clock w; sent := sent w ++ [r] |} in
    match server w r with
    | Rejects e => (Threw e, w')
    | Responds resp => (Returned resp, w')
    end.

Definition jsonSyntaxError : Thrown := ErrorObj "Unexpected end of JSON input".
Definition bodyReadError : Thrown := ErrorObj "Failed to read the response body".
Definition stringifyError : Thrown :=
  ErrorObj "Converting circular structure to JSON".

(** [await response.text()] and [await response.json()] *)
Definition text (r : Response) : Async string :=
  match textBody r with Some s => ret s | None => throw bodyReadError end.

Definition json (r : Response) : Async string :=
  match jsonBody r with Some s => ret s | None => throw jsonSyntaxError end.

(** [typeof message.content === 'string' ? message.content
                                         : JSON.stringify(message.content)] *)
Definition contentString (m : Message) : Async string :=
  match msg_content m with
  | TextContent s => ret s
  | StructuredContent (Some s) => ret s
  | StructuredContent None => throw stringifyError
  end.

(** [err instanceof Error ? err.message : fallback] *)
Definition errorMessage (err : Thrown) (fallback : string) : string :=
  match err with ErrorObj m => m | NonError => fallback end.

Definition toISOString : Async string := fun w => (Returned (clock w), w).

(** [message_count] is a JS number, that is, a double; the counts the
    code meets are integers.  An integer is rounded to the nearest
    double, ties to the even significand: up to 2^53 in magnitude it is
    kept, beyond that only 53 significant bits are. *)
Definition roundToDouble (z : Z) : Z :=
  (let a := Z.abs z in
   if a <=? 2 ^ 53 then z
   else
     let e := Z.log2 a - 52 in
     let q := Z.shiftr a e in
     let r := Z.land a (Z.ones e) in
     let half := Z.shiftl 1 (e - 1) in
     let q' := if r <? half then q
               else if half <? r then q + 1
               else if Z.even q then q else q + 1 in
     Z.sgn z * Z.shiftl q' e)%Z.

(** [n + 1] on a JS number that holds the integer [n]. *)
Definition plusOne (n : Z) : Z := roundToDouble (n + 1)%Z.

(** [{...prev, updated_at: new Date().toISOString(),
             message_count: prev.message_count + 1}] *)
Definition withNewMessage (now : string) (p : Conversation) : Conversation :=
  {| id := id p; title := title p; created_at := created_at p;
     updated_at := now; message_count := plusOne (message_count p);
     status := status p; summary := summary p |}.

(** [{...prev, title}] *)
Definition withTitle (newTitle : string) (p : Conversation) : Conversation :=
  {| id := id p; title := newTitle; created_at := created_at p;
     updated_at := updated_at p; message_count := message_count p;
     status := status p; summary := summary p |}.

Section Callbacks.
(** What the callbacks close over: the base address and the
    [currentConversation] of the render that created them. *)
Variable API_BASE : string.
Variable capturedConversation : option Conversation.

Definition isCaptured (conversationId : string) : bool :=
  match capturedConversation with
  | Some c => String.eqb (id c) conversationId
  | None => false
  end.

Definition messagesUrl (conversationId : string) : string :=
  (API_BASE ++ "/api/chat-history/conversations/" ++ conversationId
            ++ "/messages")%string.

Definition conversationUrl (conversationId : string) : string :=
  (API_BASE ++ "/api/chat-history/conversations/" ++ conversationId)%string.

Definition saveMessage (conversationId : string) (message : Message)
  : Async unit :=
  tryCatch
    (content <- contentString message ;;
     response <- fetch (mkRequest "POST" (messagesUrl conversationId)
                          (MessageBody (msg_type message) content)) ;;
     (if negb (ok response)
      then (errorText <- text response ;;
            throw (ErrorObj ("Failed to save message: "
                             ++ statusText response)%string))
      else ret tt) ;;;
     responseData <- json response ;;
     if isCaptured conversationId
     then (now <- toISOString ;;
           setCurrentConversation (fun prev =>
             match prev with
             | Some p => Some (withNewMessage now p)
             | None => None
             end))
     else ret tt)
    (fun err => setError (Some (errorMessage err "Failed to save message"))).

Definition updateConversationTitle (conversationId newTitle : string)
  : Async unit :=
  tryCatch
    (response <- fetch (mkRequest "PUT" (conversationUrl conversationId)
                          (TitleBody newTitle)) ;;
     (if negb (ok response)
      then throw (ErrorObj ("Failed to update conversation title: "
                            ++ statusText response)%string)
      else ret tt) ;;;
     if isCaptured conversationId
     then setCurrentConversation (fun prev =>
            match prev with
            | Some p => Some (withTitle newTitle p)
            | None => None
            end)
     else ret tt)
    (fun err =>
       setError (Some (errorMessage err
                         "Failed to update conversation title")) ;;;
       throw err).

Definition space : ascii := " "%char.

(** The title [autoGenerateTitle] computes from a message. *)
Definition generatedTitle (firstMessage : string) : string :=
  let words := split space (trim firstMessage) in
  if List.length words <=? 8
  then trim firstMessage
  else (join " " (slice0 8 words) ++ "...")%string.

(** [!firstMessage || firstMessage.trim().length === 0] *)
Definition isBlank (firstMessage : string) : bool :=
  match firstMessage with
  | EmptyString => true
  | _ => String.length (trim firstMessage) =? 0
  end.

Definition autoGenerateTitle (conversationId firstMessage : string)
  : Async unit :=
  if isBlank firstMessage then ret tt
  else tryCatch
         (updateConversationTitle conversationId
                                  (generatedTitle firstMessage))
         (fun err => ret tt).

(** The request [saveMessage] sends, when the content can be sent. *)
Definition saveRequest (conversationId : string) (message : Message)
  : option Request :=
  match msg_content message with
  | TextContent s | StructuredContent (Some s) =>
      Some (mkRequest "POST" (messagesUrl conversationId)
                      (MessageBody (msg_type message) s))
  | StructuredContent None => None
  end.

(** The save succeeds: the request goes out, the server answers with
    an ok status and a body that parses. *)
Definition saveSucceeds (w : World) (conversationId : string)
    (message : Message) : bool :=
  match saveRequest conversationId message with
  | Some r =>
      match server w r with
      | Responds resp =>
          ok resp && match jsonBody resp with Some _ => true | None => false end
      | Rejects _ => false
      end
  | None => false
  end.

Definition titleRequest (conversationId newTitle : string) : Request :=
  mkRequest "PUT" (conversationUrl conversationId) (TitleBody newTitle).

(** The server accepts the new title. *)
Definition titleAccepted (w : World) (conversationId newTitle : string)
  : bool :=
  match server w (titleRequest conversationId newTitle) with
  | Responds resp => ok resp
  | Rejects _ => false
  end.

End Callbacks.

End ChatHistory.

(* ================================================================= *)
(** ** The research loop *)

(** The backend files of the agent ([graph.py], [reranker.py],
    [configuration.py]) are not among the sources; the research loop is
    modelled from the specification, section by section.  The external
    collaborators (the reasoning calls, the search client, the embedder and
    the vector index) are arbitrary functions gathered in [Services]. *)
Module Research.
Import JsString.

(** *** Data model (specification, section 3) *)

Inductive SourceType : Type := web | document.

(** Modelled from the spec: the evidence item of section 3; its
    declaration (the agent state of the missing [graph.py]) is not among
    the sources. *)
Record EvidenceItem : Type := mkEvidence {
  sourceType : SourceType;
  id : string;                 (* URL for web, chunk-id for document *)
  text : string;
  rawScore : Q;                (* similarity or search rank *)
  rerankScore : option Q;      (* populated by the reranker *)
  sourceLabel : string
}.

Definition SourceId : Type := (SourceType * string)%type.

(** Modelled from the spec: the source identity by which the evidence
    pool is deduplicated (URL for web, chunk-id for document); the merge
    of the retrieval nodes in [graph.py] is missing. *)
Definition identity (e : EvidenceItem) : SourceId := (sourceType e, id e).

Definition sourceTypeEqb (a b : SourceType) : bool :=
  match a, b with
  | web, web | document, document => true
  | _, _ => false
  end.

Definition sameId (a b : SourceId) : bool :=
  sourceTypeEqb (fst a) (fst b) && String.eqb (snd a) (snd b).

Definition knownId (seen : list SourceId) (x : SourceId) : bool :=
  existsb (sameId x) seen.

Definition SourceId_eq_dec (a b : SourceId) : {a = b} + {a <> b}.
Proof.
  decide equality; [apply string_dec | decide equality].
Defined.

(** How many entries of a pool come from the source [x]. *)
Definition occurrences (x : SourceId) (pool : list EvidenceItem) : nat :=
  count_occ SourceId_eq_dec (map identity pool) x.

Inductive Strategy : Type := pure | hybrid.

(** Modelled from the spec: the configuration surface of section 6 (the
    part with a stated behaviour), captured at loop start; the class of
    [configuration.py] is missing. *)
Record Config : Type := mkConfig {
  initialQueryCount : nat;
  maxLoops : nat;
  rerankingStrategy : Strategy;
  rerankingTopK : nat;
  vectorTopK : nat;
  vectorScoreThreshold : Q
}.

(** Modelled from the spec: the stated defaults, those of the missing
    [configuration.py]; [maxLoops] has no single default, it comes from
    the effort tier. *)
Definition defaultConfig (loops : nat) : Config :=
  {| initialQueryCount := 3;
     maxLoops := loops;
     rerankingStrategy := hybrid;
     rerankingTopK := 5;
     vectorTopK := 10;
     vectorScoreThreshold := 3 # 10 |}.

(** *** Deduplication (section 4.2) *)

(** Modelled from the spec: the deduplication of the missing retrieval
    nodes: a candidate batch is deduplicated against what was seen (the
    pool, then the batch itself); a duplicate is dropped, the first
    occurrence stays. *)
Fixpoint dedupe (seen : list SourceId) (batch : list EvidenceItem)
  : list EvidenceItem :=
  match batch with
  | [] => []
  | e :: rest =>
      if knownId seen (identity e) then dedupe seen rest
      else e :: dedupe (identity e :: seen) rest
  end.

Definition freshCandidates (pool batch : list EvidenceItem)
  : list EvidenceItem :=
  dedupe (map identity pool) batch.

(** *** Relevance reranker (section 4.3) *)

Definition w1 : Q := 3 # 10.
Definition w2 : Q := 7 # 10.

(** Modelled from the spec: the hybrid combination of the two
    normalized components ([HybridReranker] of the missing
    [reranker.py]). *)
Definition hybridScore (normalizedRawScore modelScore : Q) : Q :=
  (w1 * normalizedRawScore + w2 * modelScore)%Q.

(** The paired query/candidate relevance model ([None]: no score, for
    instance a failed call) and the normalization of the raw score within
    a batch. *)
Record Scorer : Type := mkScorer {
  modelScore : string -> EvidenceItem -> option Q;
  normalizeRaw : list EvidenceItem -> EvidenceItem -> Q
}.

(** Modelled from the spec: the score of one candidate under a strategy
    (the two rerankers of the missing [reranker.py]); without a model
    score the candidate keeps its raw score. *)
Definition scoreOf (sc : Scorer) (strategy : Strategy) (query : string)
    (batch : list EvidenceItem) (e : EvidenceItem) : Q :=
  match modelScore sc query e with
  | None => rawScore e
  | Some m =>
      match strategy with
      | pure => m
      | hybrid => hybridScore (normalizeRaw sc batch e) m
      end
  end.

(** Stable insertion by descending key: [x], which was seen before the
    elements of [l], goes in front of the first element whose key is not
    above its own. *)
Fixpoint insertDesc (key : EvidenceItem -> Q) (x : EvidenceItem)
    (l : list EvidenceItem) : list EvidenceItem :=
  match l with
  | [] => [x]
  | y :: l' =>
      if Qle_bool (key y) (key x) then x :: y :: l'
      else y :: insertDesc key x l'
  end.

Fixpoint sortDesc (key : EvidenceItem -> Q) (l : list EvidenceItem)
  : list EvidenceItem :=
  match l with
  | [] => []
  | x :: l' => insertDesc key x (sortDesc key l')
  end.

(** Descending order: [b] may follow [a] when its key is not above. *)
Definition notBelow (key : EvidenceItem -> Q) (a b : EvidenceItem) : Prop :=
  (key b <= key a)%Q.

(** The candidates that tie at a score [v]. *)
Definition tiedAt (key : EvidenceItem -> Q) (v : Q) (e : EvidenceItem)
  : bool :=
  Qeq_bool (key e) v.

Definition withRerankScore (s : Q) (e : EvidenceItem) : EvidenceItem :=
  {| sourceType := sourceType e; id := id e; text := text e;
     rawScore := rawScore e; rerankScore := Some s;
     sourceLabel := sourceLabel e |}.

(** Modelled from the spec: the reranker of the missing [reranker.py]:
    it populates [rerankScore] and reorders the batch by it, descending,
    first-seen first among ties. *)
Definition rerank (sc : Scorer) (strategy : Strategy) (query : string)
    (batch : list EvidenceItem) : list EvidenceItem :=
  let score := scoreOf sc strategy query batch in
  map (fun e => withRerankScore (score e) e) (sortDesc score batch).

(** The key the output is ordered by. *)
Definition rerankKey (e : EvidenceItem) : Q :=
  match rerankScore e with Some s => s | None => rawScore e end.

(** Modelled from the spec: only the top N of the reranked candidates
    survive into the pool (the retrieval node of the missing
    [graph.py]). *)
Definition survivors (cfg : Config) (sc : Scorer) (query : string)
    (pool batch : list EvidenceItem) : list EvidenceItem :=
  firstn (rerankingTopK cfg)
    (rerank sc (rerankingStrategy cfg) query (freshCandidates pool batch)).

(** Modelled from the spec: the pool update of an iteration (the state
    update of the retrieval node of the missing [graph.py]): the
    survivors of the batch are appended to the append-only pool. *)
Definition absorb (cfg : Config) (sc : Scorer) (query : string)
    (pool batch : list EvidenceItem) : list EvidenceItem :=
  pool ++ survivors cfg sc query pool batch.

(** A sequence of pool updates, from the first batch to the last. *)
Definition absorbAll (cfg : Config) (sc : Scorer) (query : string)
    (pool : list EvidenceItem) (batches : list (list EvidenceItem))
  : list EvidenceItem :=
  fold_left (absorb cfg sc query) batches pool.

(** *** Query generator (section 4.1) *)

(** Queries are compared trimmed and without regard to case. *)
Definition normalizedQuery (q : string) : string := toLowerCase (trim q).

(** Modelled from the spec: the usable queries of a reasoning call's
    output (the query node of the missing [graph.py]): trimmed, non-empty, and new with respect to the queries
    already seen (those issued in the session, then the earlier ones of
    the same output). *)
Fixpoint usableQueries (seen raw : list string) : list string :=
  match raw with
  | [] => []
  | q :: rest =>
      let t := trim q in
      if String.eqb t EmptyString || includes seen (toLowerCase t)
      then usableQueries seen rest
      else t :: usableQueries (toLowerCase t :: seen) rest
  end.

(** Modelled from the spec: the query generator (the query node of the
    missing [graph.py]).  [call] is the outcome
    of the generation call ([None]: it failed), [count] the number of
    queries asked for.  With no usable query the raw question is the
    single query. *)
Definition generateQueries (question : string) (issued : list string)
    (count : nat) (call : option (list string)) : list string :=
  match call with
  | None => [question]
  | Some raw =>
      match firstn count (usableQueries (map normalizedQuery issued) raw) with
      | [] => [question]
      | qs => qs
      end
  end.

(** *** Retrieval fan-out (section 4.2) *)

(** Modelled from the spec: what the search client and the vector index
    return (section 6). *)
Record WebResult : Type := mkWebResult {
  url : string;
  pageTitle : string;
  snippet : string
}.

Record ChunkMatch : Type := mkChunkMatch {
  chunkId : string;
  score : Q;
  chunkText : string;
  filename : string;
  position : nat
}.

(** Modelled from the spec: the states of the controller (section 4.5). *)
Inductive Phase : Type := GENERATING | RETRIEVING | REFLECTING | FINALIZING.

(** Modelled from the spec: the output of the reflection engine
    (section 4.4). *)
Record Reflection : Type := mkReflection {
  r_isSufficient : bool;
  r_knowledgeGap : option string;
  r_followUpQueries : list string
}.

Record ChatMessage : Type := mkChatMessage {
  role : string;
  content : string
}.

(** The external collaborators.  Calls made inside the loop take the
    loop count, so that the same question may be answered differently
    from one iteration to the next; [None] is a failed call. *)
Record Services : Type := mkServices {
  generationCall : string -> option string -> nat -> option (list string);
  webSearch : nat -> string -> option (list WebResult);
  embed : string -> list Q;
  vectorQuery : nat -> list Q -> nat -> Q -> option (list ChunkMatch);
  scorer : Scorer;
  reflectionCall : nat -> string -> list EvidenceItem -> option Reflection;
  cancelRequested : Phase -> nat -> bool
}.

Definition webResultCap : nat := 10.

Fixpoint webEvidence (rank : nat) (rs : list WebResult) : list EvidenceItem :=
  match rs with
  | [] => []
  | r :: rs' =>
      {| sourceType := web; id := url r; text := snippet r;
         rawScore := inject_Z (Z.of_nat rank); rerankScore := None;
         sourceLabel := pageTitle r |} :: webEvidence (S rank) rs'
  end.

Definition chunkEvidence (m : ChunkMatch) : EvidenceItem :=
  {| sourceType := document; id := chunkId m; text := chunkText m;
     rawScore := score m; rerankScore := None;
     sourceLabel := filename m |}.

(** Modelled from the spec: web retrieval for one query (the web
    research node of the missing [graph.py]); a failed call contributes
    nothing. *)
Definition webRetrieval (env : Services) (loop : nat) (query : string)
  : list EvidenceItem :=
  match webSearch env loop query with
  | Some rs => webEvidence 1 (firstn webResultCap rs)
  | None => []
  end.

(** Modelled from the spec: vector retrieval for one query (the search
    node of the missing [graph.py]): the embedded query goes to the index
    with the configured k and threshold. *)
Definition vectorRetrieval (env : Services) (cfg : Config) (loop : nat)
    (query : string) : list EvidenceItem :=
  match vectorQuery env loop (embed env query)
                    (vectorTopK cfg) (vectorScoreThreshold cfg) with
  | Some ms => map chunkEvidence ms
  | None => []
  end.

(** Modelled from the spec: the candidate batch of an iteration, all
    queries together (the fan-out of the missing [graph.py]). *)
Definition fanOut (env : Services) (cfg : Config) (loop : nat)
    (queries : list string) : list EvidenceItem :=
  flat_map (fun q => webRetrieval env loop q ++ vectorRetrieval env cfg loop q)
           queries.

(** *** Loop controller (sections 3 and 4.5) *)

(** Modelled from the spec: the research state of section 3 (the agent
    state of the missing [graph.py]), with the controller's phase and the
    queries issued so far. *)
Record ResearchState : Type := mkState {
  phase : Phase;
  conversation : list ChatMessage;
  activeQueries : list string;
  issuedQueries : list string;
  loopCount : nat;
  config : Config;
  evidencePool : list EvidenceItem;
  knowledgeGap : option string;
  isSufficient : bool
}.

(** The active user question: the last entry of the conversation. *)
Definition question (s : ResearchState) : string :=
  content (last (conversation s) (mkChatMessage "user" EmptyString)).

Definition initialState (cfg : Config) (conv : list ChatMessage)
  : ResearchState :=
  {| phase := GENERATING; conversation := conv; activeQueries := [];
     issuedQueries := []; loopCount := 0; config := cfg;
     evidencePool := []; knowledgeGap := None; isSufficient := false |}.

Definition setPhase (p : Phase) (s : ResearchState) : ResearchState :=
  {| phase := p; conversation := conversation s;
     activeQueries := activeQueries s; issuedQueries := issuedQueries s;
     loopCount := loopCount s; config := config s;
     evidencePool := evidencePool s; knowledgeGap := knowledgeGap s;
     isSufficient := isSufficient s |}.

Definition genericGap : string := "insufficient evidence".

(** Modelled from the spec: the reflection node of the missing
    [graph.py] (section 4.4), which reflects on the whole pool; a failed
    call counts as not sufficient and keeps the previous gap, or a generic
    one; a sufficient verdict clears the gap. *)
Definition reflect (env : Services) (s : ResearchState) : Reflection :=
  match reflectionCall env (loopCount s) (question s) (evidencePool s) with
  | Some r =>
      if r_isSufficient r
      then mkReflection true None (r_followUpQueries r)
      else r
  | None =>
      mkReflection false
        (Some (match knowledgeGap s with Some g => g | None => genericGap end))
        []
  end.

(** Modelled from the spec: [GENERATING -> RETRIEVING] (missing:
    [graph.py]); the generator's queries become the active ones. *)
Definition generating (env : Services) (s : ResearchState) : ResearchState :=
  let count := initialQueryCount (config s) in
  {| phase := RETRIEVING; conversation := conversation s;
     activeQueries :=
       generateQueries (question s) (issuedQueries s) count
         (generationCall env (question s) (knowledgeGap s) count);
     issuedQueries := issuedQueries s;
     loopCount := loopCount s; config := config s;
     evidencePool := evidencePool s; knowledgeGap := knowledgeGap s;
     isSufficient := isSufficient s |}.

(** Modelled from the spec: [RETRIEVING -> REFLECTING] (missing:
    [graph.py]); the batch of the fan-out is deduplicated, reranked with
    the user's question as the query, cut and appended to the pool. *)
Definition retrieving (env : Services) (s : ResearchState) : ResearchState :=
  {| phase := REFLECTING; conversation := conversation s;
     activeQueries := activeQueries s;
     issuedQueries := issuedQueries s ++ activeQueries s;
     loopCount := loopCount s; config := config s;
     evidencePool :=
       absorb (config s) (scorer env) (question s) (evidencePool s)
             (fanOut env (config s) (loopCount s) (activeQueries s));
     knowledgeGap := knowledgeGap s;
     isSufficient := isSufficient s |}.

(** Modelled from the spec: the two transitions out of [REFLECTING]
    (missing: [graph.py]): to [FINALIZING] on a sufficient verdict or an
    exhausted budget, otherwise back to [RETRIEVING] with the follow-up
    queries that are new to the session and one more loop counted. *)
Definition reflecting (env : Services) (s : ResearchState) : ResearchState :=
  let r := reflect env s in
  if r_isSufficient r || (maxLoops (config s) <=? loopCount s + 1)
  then {| phase := FINALIZING; conversation := conversation s;
          activeQueries := activeQueries s;
          issuedQueries := issuedQueries s;
          loopCount := loopCount s; config := config s;
          evidencePool := evidencePool s;
          knowledgeGap := r_knowledgeGap r;
          isSufficient := r_isSufficient r |}
  else {| phase := RETRIEVING; conversation := conversation s;
          activeQueries :=
            usableQueries (map normalizedQuery (issuedQueries s))
                          (r_followUpQueries r);
          issuedQueries := issuedQueries s;
          loopCount := loopCount s + 1; config := config s;
          evidencePool := evidencePool s;
          knowledgeGap := r_knowledgeGap r;
          isSufficient := r_isSufficient r |}.

(** Modelled from the spec: one transition of the controller (the graph
    of the missing [graph.py]).  A
    cancellation seen at a suspension point (after generation, after
    retrieval, after reflection) goes straight to [FINALIZING] and keeps
    what was gathered. *)
Definition step (env : Services) (s : ResearchState) : ResearchState :=
  match phase s with
  | GENERATING => generating env s
  | RETRIEVING =>
      if cancelRequested env RETRIEVING (loopCount s)
      then setPhase FINALIZING s else retrieving env s
  | REFLECTING =>
      if cancelRequested env REFLECTING (loopCount s)
      then setPhase FINALIZING s else reflecting env s
  | FINALIZING => s
  end.

Fixpoint run (env : Services) (n : nat) (s : ResearchState) : ResearchState :=
  match n with
  | 0 => s
  | S n' => run env n' (step env s)
  end.

(** The states a session goes through in [n] transitions. *)
Fixpoint trace (env : Services) (n : nat) (s : ResearchState)
  : list ResearchState :=
  match n with
  | 0 => [s]
  | S n' => s :: trace env n' (step env s)
  end.

Definition isReflecting (s : ResearchState) : bool :=
  match phase s with REFLECTING => true | _ => false end.

(** An iteration is complete when its retrieval has been merged and the
    controller reflects on it. *)
Definition iterations (states : list ResearchState) : nat :=
  List.length (filter isReflecting states).

(** Transitions that always suffice for a session. *)
Definition sessionBound (cfg : Config) : nat :=
  1 + 2 * (maxLoops cfg + 1).

Definition session (env : Services) (cfg : Config) (conv : list ChatMessage)
  : ResearchState :=
  run env (sessionBound cfg) (initialState cfg conv).

(** What a session still has ahead of it: [roundsLeft] bounds the
    iterations to come, [stepsLeft] the transitions. *)
Definition roundsLeft (s : ResearchState) : nat :=
  match phase s with
  | FINALIZING => 0
  | _ => Nat.max 1 (maxLoops (config s)) - loopCount s
  end.

Definition stepsLeft (s : ResearchState) : nat :=
  match phase s with
  | GENERATING => 1 + 2 * roundsLeft s
  | RETRIEVING => 2 * roundsLeft s
  | REFLECTING => 2 * roundsLeft s - 1
  | FINALIZING => 0
  end.

(** The loop count is within the budget, and strictly below it (or 0)
    while the session is not finished. *)
Definition withinBudget (s : ResearchState) : Prop :=
  loopCount s <= maxLoops (config s)
  /\ (phase s <> FINALIZING ->
      loopCount s < Nat.max 1 (maxLoops (config s))).

End Research.

(* ================================================================= *)
(** ** Sample data *)

Module Samples.
Import Chat ChatHistory.

Definition base : string := "http://localhost:2024".

Definition freshConversation : Conversation :=
  {| id := "c1"; title := "New Conversation";
     created_at := "2025-01-01T00:00:00.000Z";
     updated_at := "2025-01-01T00:00:00.000Z";
     message_count := 0; status := active; summary := None |}.

(** The fresh conversation with one more message and nothing else
    changed. *)
Definition countedOnly : Conversation :=
  {| id := "c1"; title := "New Conversation";
     created_at := "2025-01-01T00:00:00.000Z";
     updated_at := "2025-01-01T00:00:00.000Z";
     message_count := 1; status := active; summary := None |}.

(** Another conversation, with two messages already. *)
Definition olderConversation : Conversation :=
  {| id := "c7"; title := "Solar power";
     created_at := "2024-12-24T18:00:00.000Z";
     updated_at := "2024-12-24T18:05:00.000Z";
     message_count := 2; status := active; summary := None |}.

Definition humanMessage : Message :=
  mkMessage "human" (TextContent "What is reranking?") (Some "1700000000000").

Definition okResponse : Response :=
  mkResponse true "OK" (Some "{}") (Some "{}").

Definition serverDown : Response :=
  mkResponse false "Service Unavailable" (Some "down") None.

Definition worldWith (answer : FetchResult) : World :=
  {| hook := {| currentConversation := Some freshConversation;
                isLoading := false; error := None |};
     server := fun _ => answer;
     clock := "2025-01-02T09:30:00.000Z";
     sent := [] |}.

(** A browser whose hook holds [current] and whose server always gives
    the same answer. *)
Definition worldHolding (current : option Conversation)
    (answer : FetchResult) : World :=
  {| hook := {| currentConversation := current;
                isLoading := false; error := None |};
     server := fun _ => answer;
     clock := "2025-01-02T09:30:00.000Z";
     sent := [] |}.

(** A deployment in which every external call fails. *)
Definition offline : Research.Services :=
  {| Research.generationCall := fun _ _ _ => None;
     Research.webSearch := fun _ _ => None;
     Research.embed := fun _ => [];
     Research.vectorQuery := fun _ _ _ _ => None;
     Research.scorer :=
       {| Research.modelScore := fun _ _ => None;
          Research.normalizeRaw := fun _ e => Research.rawScore e |};
     Research.reflectionCall := fun _ _ _ => None;
     Research.cancelRequested := fun _ _ => false |}.

(** A deployment whose web search finds the same five pages for every
    query and whose index holds one chunk that matches every query; the
    relevance model prefers the pages. *)
Definition fivePages : list Research.WebResult :=
  [Research.mkWebResult "https://example.org/1" "One" "...";
   Research.mkWebResult "https://example.org/2" "Two" "...";
   Research.mkWebResult "https://example.org/3" "Three" "...";
   Research.mkWebResult "https://example.org/4" "Four" "...";
   Research.mkWebResult "https://example.org/5" "Five" "..."].

Definition crowded : Research.Services :=
  {| Research.generationCall :=
       fun _ _ _ => Some ["solar capacity 2024"; "wind capacity 2024"];
     Research.webSearch := fun _ _ => Some fivePages;
     Research.embed := fun _ => [];
     Research.vectorQuery :=
       fun _ _ _ _ =>
         Some [Research.mkChunkMatch "chunk-7" (1 # 2)%Q "..." "report.pdf" 0];
     Research.scorer :=
       {| Research.modelScore :=
            fun _ e => match Research.sourceType e with
                       | Research.web => Some (9 # 10)%Q
                       | Research.document => Some (1 # 10)%Q
                       end;
          Research.normalizeRaw := fun _ _ => (1 # 2)%Q |};
     Research.reflectionCall := fun _ _ _ => None;
     Research.cancelRequested := fun _ _ => false |}.

Definition userTurn : list Research.ChatMessage :=
  [Research.mkChatMessage "user"
     "What is renewable energy capacity growth in 2024?"].

Definition chunk (name : string) (similarity : Q) : Research.EvidenceItem :=
  {| Research.sourceType := Research.document; Research.id := name;
     Research.text := "..."; Research.rawScore := similarity;
     Research.rerankScore := None; Research.sourceLabel := "report.pdf" |}.

Definition page (address : string) (rank : Q) : Research.EvidenceItem :=
  {| Research.sourceType := Research.web; Research.id := address;
     Research.text := "..."; Research.rawScore := rank;
     Research.rerankScore := None; Research.sourceLabel := "example.org" |}.

(** A relevance model that finds every candidate equally relevant, and
    raw scores that are already normalized. *)
Definition evenScorer : Research.Scorer :=
  {| Research.modelScore := fun _ _ => Some (1 # 2)%Q;
     Research.normalizeRaw := fun _ e => Research.rawScore e |}.

Definition mixedBatch : list Research.EvidenceItem :=
  [chunk "chunk-7" (1 # 2)%Q; page "https://example.org/a" (9 # 10)%Q;
   chunk "chunk-2" (1 # 2)%Q].

End Samples.

From Stdlib Require Import DecimalString.

(* ================================================================= *)
(** ** [UploadFile.tsx]: the uploader component *)

Module FileUploader.
Import JsString UploadFile.

(** The [switch (fileType)] of [getFileTypeColor]; the [default] arm is
    the last [else]. *)
Definition getFileTypeColor (fileType : string) : string :=
  if String.eqb fileType "PDF" then "bg-red-100 text-red-800"
  else if String.eqb fileType "Word" then "bg-blue-100 text-blue-800"
  else if String.eqb fileType "PowerPoint" then "bg-orange-100 text-orange-800"
  else if String.eqb fileType "Excel" then "bg-green-100 text-green-800"
  else if String.eqb fileType "Text" then "bg-gray-100 text-gray-800"
  else "bg-gray-100 text-gray-800".

(** What the component reads of a [File]. *)
Record File : Type := mkFile {
  name : string;
  size : Z;
  type : string
}.

Inductive UploadStatus : Type := idle | uploading | success | error.

Record UploadResponse : Type := mkUploadResponse {
  message : string;
  filename : string;
  original_filename : string;
  file_url : string;
  file_size : Z
}.

(** The four [useState] cells of [FileUploader]. *)
Record State : Type := mkState {
  files : list File;
  status : UploadStatus;
  uploadProgress : Z;
  uploadResult : option UploadResponse
}.

Definition initial : State :=
  {| files := []; status := idle; uploadProgress := 0; uploadResult := None |}.

Definition setFiles (fs : list File) (st : State) : State :=
  {| files := fs; status := status st; uploadProgress := uploadProgress st;
     uploadResult := uploadResult st |}.

Definition setStatus (s : UploadStatus) (st : State) : State :=
  {| files := files st; status := s; uploadProgress := uploadProgress st;
     uploadResult := uploadResult st |}.

Definition setUploadProgress (p : Z) (st : State) : State :=
  {| files := files st; status := status st; uploadProgress := p;
     uploadResult := uploadResult st |}.

Definition setUploadResult (r : UploadResponse) (st : State) : State :=
  {| files := files st; status := status st;
     uploadProgress := uploadProgress st; uploadResult := Some r |}.

(** [arr.filter((x, i) => keep(x, i))], the index counted from [i]. *)
Fixpoint filterIndexed {A : Type} (keep : A -> nat -> bool) (i : nat)
    (l : list A) : list A :=
  match l with
  | [] => []
  | x :: l' =>
      if keep x i then x :: filterIndexed keep (S i) l'
      else filterIndexed keep (S i) l'
  end.

(** [handleFileChange]: [targetFiles] is [e.target.files] ([None] when it
    is null), already as the array [Array.from] makes of it. *)
Definition handleFileChange (targetFiles : option (list File)) (st : State)
  : State :=
  match targetFiles with
  | Some selectedFiles => setFiles selectedFiles st
  | None => st
  end.

(** [removeFile]: [files.filter((_, i) => i !== index)] *)
Definition removeFile (index : nat) (st : State) : State :=
  setFiles (filterIndexed (fun _ i => negb (i =? index)) 0 (files st)) st.

(** How [axios.post] ends: with the response data, or with an error (of
    axios or not: the two differ in what is logged only). *)
Inductive PostResult : Type :=
| PostResolves (data : UploadResponse)
| PostRejects.

(** A posted request: the address and the entries of the form data. *)
Record Post : Type := mkPost {
  post_url : string;
  post_form : list (string * File)
}.

(** [files.forEach((file) => formData.append("files", file))] *)
Definition formDataOf (fs : list File) : list (string * File) :=
  map (fun file => ("files", file)) fs.

(** The [onUploadProgress] callback stores a percentage; the percentage
    itself ([Math.round((loaded * 100) / total)], or 0 without a total) is
    computed in floating point and is taken as given. *)
Definition onUploadProgress (percent : Z) (st : State) : State :=
  setUploadProgress percent st.

(** [handleFileUpload], from the click to the end of the [try]/[catch]:
    [progress] lists the percentages reported while the request is under
    way, [result] is how the request ends.  The state while the request is
    under way is [underWay]. *)
Definition underWay (progress : list Z) (st : State) : State :=
  fold_left (fun s p => onUploadProgress p s) progress
            (setUploadProgress 0 (setStatus uploading st)).

Definition handleFileUpload (result : PostResult) (progress : list Z)
    (st : State) : State * list Post :=
  match files st with
  | [] => (st, [])
  | _ :: _ =>
      let st1 := underWay progress st in
      (match result with
       | PostResolves data =>
           setUploadProgress 100 (setStatus success (setUploadResult data st1))
       | PostRejects =>
           setUploadProgress 0 (setStatus error st1)
       end,
       [mkPost "http://127.0.0.1:2024/uploadfile/" (formDataOf (files st))])
  end.

End FileUploader.

(* ================================================================= *)
(** ** [InputForm.tsx]: the question box *)

Module InputForm.
Import JsString.

(** The three [useState] cells of [InputForm]. *)
Record State : Type := mkState {
  internalInputValue : string;
  effort : string;
  isSaving : bool
}.

Definition initial : State :=
  {| internalInputValue := ""; effort := "medium"; isSaving := false |}.

(** [!internalInputValue.trim()]: the empty string is the falsy one. *)
Definition blank (value : string) : bool :=
  match trim value with
  | EmptyString => true
  | String _ _ => false
  end.

(** [handleInternalSubmit]: the call of [onSubmit], if any, and the new
    state. *)
Definition handleInternalSubmit (st : State)
  : option (string * string) * State :=
  if blank (internalInputValue st) then (None, st)
  else (Some (internalInputValue st, effort st),
        {| internalInputValue := ""; effort := effort st;
           isSaving := isSaving st |}).

Definition isSubmitDisabled (isLoading : bool) (st : State) : bool :=
  blank (internalInputValue st) || isLoading.

Record KeyEvent : Type := mkKeyEvent {
  key : string;
  ctrlKey : bool;
  metaKey : bool
}.

(** [handleKeyDown]: whether the default was prevented, the call of
    [onSubmit], if any, and the new state. *)
Definition handleKeyDown (e : KeyEvent) (st : State)
  : bool * option (string * string) * State :=
  if String.eqb (key e) "Enter" && (ctrlKey e || metaKey e)
  then let '(call, st') := handleInternalSubmit st in (true, call, st')
  else (false, None, st).

(** A click on the Search button, which is [disabled] by
    [isSubmitDisabled]: a disabled button submits nothing. *)
Definition clickSearch (isLoading : bool) (st : State)
  : option (string * string) * State :=
  if isSubmitDisabled isLoading st then (None, st)
  else handleInternalSubmit st.

End InputForm.

(* ================================================================= *)
(** ** [useChatHistory.ts]: the other callbacks of the hook *)

Module ChatHistoryRest.
Import JsString Chat ChatHistory.

(** [MessageData], without the [metadata] that the hook never reads. *)
Record MessageData : Type := mkMessageData {
  md_id : string;
  md_type : string;
  md_content : string
}.

Definition setIsLoading (b : bool) : Async unit :=
  setHook (fun h => {| currentConversation := currentConversation h;
                       isLoading := b; error := error h |}).

(** [try { body } finally { cleanup }] *)
Definition tryFinally {A} (body : Async A) (cleanup : Async unit) : Async A :=
  fun w => match body w with
           | (outcome, w') =>
               match cleanup w' with
               | (Returned _, w'') => (outcome, w'')
               | (Threw e, w'') => (Threw e, w'')
               end
           end.

(** A string that may be [undefined], where it is tested for truth: the
    empty string is falsy too. *)
Definition truthy (x : option string) : option string :=
  match x with
  | Some (String c s) => Some (String c s)
  | _ => None
  end.

Definition get (url : string) : Request := mkRequest "GET" url NoBody.

(** The [TypeError] of [messages.map(...)] on a body that cannot be
    mapped; the wording is the engine's. *)
Definition mapTypeError : Thrown := ErrorObj "messages.map is not a function".

(** [{id: msg.id, type: msg.type, content: msg.content}] *)
Definition toLangGraph (msg : MessageData) : Message :=
  mkMessage (md_type msg) (TextContent (md_content msg)) (Some (md_id msg)).

(** What a call leaves behind when the updates it queued are applied
    after it: the outcome of its promise, the world, and whether an
    updater threw while React applied it. *)
Definition Rendered (A : Type) : Type := World -> Outcome A * World * bool.

Section Callbacks.
(** What the callbacks close over. *)
Variable API_BASE : string.
Variable capturedConversation : option Conversation.
Variable userId : option string.

(** A parsed response body is used at the type the code declares for it,
    unchecked.  Where the code only stores or returns the body, its view
    at that type is total ([readConversation], [readConversations]).
    Where the code reads into the body, the view is partial:
    [readMessages] is [None] when [messages.map(...)] throws, the body
    being no array or holding a [null] entry; [readSavedAt], which is
    [result.conversation.updated_at], is [None] when [result] has no
    [conversation] to read the date from.  [toQueryString] is the
    platform's [URLSearchParams.prototype.toString]. *)
Variable readConversation : string -> Conversation.
Variable readMessages : string -> option (list MessageData).
Variable readConversations : string -> list Conversation.
Variable readSavedAt : string -> option string.
Variable toQueryString : list (string * string) -> string.

Definition messagesPageUrl (conversationId : string) : string :=
  (messagesUrl API_BASE conversationId ++ "?limit=200")%string.

Definition loadConversation (conversationId : string)
  : Async (list Message) :=
  setIsLoading true ;;;
  setError None ;;;
  tryFinally
    (tryCatch
       (conversationResponse <-
          fetch (get (conversationUrl API_BASE conversationId)) ;;
        (if negb (ok conversationResponse)
         then throw (ErrorObj ("Failed to load conversation: "
                               ++ statusText conversationResponse)%string)
         else ret tt) ;;;
        conversation <- json conversationResponse ;;
        setCurrentConversation
          (fun _ => Some (readConversation conversation)) ;;;
        messagesResponse <- fetch (get (messagesPageUrl conversationId)) ;;
        (if negb (ok messagesResponse)
         then throw (ErrorObj ("Failed to load messages: "
                               ++ statusText messagesResponse)%string)
         else ret tt) ;;;
        messages <- json messagesResponse ;;
        match readMessages messages with
        | Some rows => ret (map toLangGraph rows)
        | None => throw mapTypeError
        end)
       (fun err =>
          setError (Some (errorMessage err "Failed to load conversation")) ;;;
          throw err))
    (setIsLoading false).

Definition saveUrl (conversationId : string) : string :=
  (conversationUrl API_BASE conversationId ++ "/save")%string.

(** [{...prev, updated_at: result.conversation.updated_at}] *)
Definition withUpdatedAt (at_ : string) (p : Conversation) : Conversation :=
  {| id := id p; title := title p; created_at := created_at p;
     updated_at := at_; message_count := message_count p;
     status := status p; summary := summary p |}.

(** The awaited part of [saveConversation].  It resolves with the parsed
    answer when it has queued the update of the current conversation,
    that is, when the conversation of the callback's render has the given
    id. *)
Definition saveConversationCall (conversationId : string)
  : Async (option string) :=
  tryCatch
    (response <- fetch (mkRequest "POST" (saveUrl conversationId) NoBody) ;;
     (if negb (ok response)
      then (errorText <- text response ;;
            throw (ErrorObj ("Failed to save conversation: "
                             ++ statusText response)%string))
      else ret tt) ;;;
     result <- json response ;;
     if isCaptured capturedConversation conversationId
     then ret (Some result)
     else ret None)
    (fun err =>
       setError (Some (errorMessage err "Failed to save conversation")) ;;;
       throw err).

(** The queued updater,
    [prev => prev ? {...prev, updated_at: result.conversation.updated_at}
                  : null];
    the outer [None]: it throws. *)
Definition savedUpdater (result : string) (prev : option Conversation)
  : option (option Conversation) :=
  match prev with
  | Some p =>
      match readSavedAt result with
      | Some at_ => Some (Some (withUpdatedAt at_ p))
      | None => None
      end
  | None => Some None
  end.

(** [saveConversation].  The updater reads the answer when React applies
    it, after the promise has resolved and outside the [try]: if it
    throws, the call has resolved all the same, the update is lost and
    the render fails ([true] in the last component). *)
Definition saveConversation (conversationId : string) : Rendered unit :=
  fun w =>
    match saveConversationCall conversationId w with
    | (Returned (Some result), w') =>
        match savedUpdater result (currentConversation (hook w')) with
        | Some c =>
            (Returned tt, snd (setCurrentConversation (fun _ => c) w'), false)
        | None => (Returned tt, w', true)
        end
    | (Returned None, w') => (Returned tt, w', false)
    | (Threw e, w') => (Threw e, w', false)
    end.

(** The parameters [getConversations] appends, in order. *)
Definition listParams : list (string * string) :=
  match truthy userId with
  | Some u => [("user_id", u)]
  | None => []
  end ++ [("limit", "50")].

Definition listUrl : string :=
  (API_BASE ++ "/api/chat-history/conversations?"
            ++ toQueryString listParams)%string.

Definition getConversations : Async (list Conversation) :=
  tryCatch
    (response <- fetch (get listUrl) ;;
     (if negb (ok response)
      then throw (ErrorObj ("Failed to get conversations: "
                            ++ statusText response)%string)
      else ret tt) ;;;
     data <- json response ;;
     ret (readConversations data))
    (fun err =>
       setError (Some (errorMessage err "Failed to get conversations")) ;;;
       throw err).

(** The body of an ok response to [r], when it parses. *)
Definition okBody (w : World) (r : Request) : option string :=
  match server w r with
  | Responds resp => if ok resp then jsonBody resp else None
  | Rejects _ => None
  end.

End Callbacks.

End ChatHistoryRest.

(* ================================================================= *)
(** ** [InputForm.tsx]: the Save button *)

Module SaveButton.
Import Chat ChatHistory ChatHistoryRest.

(** The state of the form while the save is awaited. *)
Definition saving (st : InputForm.State) : InputForm.State :=
  {| InputForm.internalInputValue := InputForm.internalInputValue st;
     InputForm.effort := InputForm.effort st;
     InputForm.isSaving := true |}.

(** [handleSaveConversation], to the end of its [finally]:
    [onSaveConversation] and [currentConversationId] are the optional
    props; a rejection of the callback is caught and logged.  The last
    component tells whether the render that follows fails on an updater
    the callback queued, which the handler cannot catch. *)
Definition handleSaveConversation
    (onSaveConversation : option (string -> Rendered unit))
    (currentConversationId : option string)
    (st : InputForm.State) (w : World) : InputForm.State * World * bool :=
  match onSaveConversation, truthy currentConversationId with
  | Some save, Some conversationId =>
      let '(_, w', renderThrows) := save conversationId w in
      ({| InputForm.internalInputValue := InputForm.internalInputValue st;
          InputForm.effort := InputForm.effort st;
          InputForm.isSaving := false |},
       w', renderThrows)
  | _, _ => (st, w, false)
  end.

End SaveButton.

(* ================================================================= *)
(** ** [useChatHistory.ts]: creating a conversation *)

(** [createConversation] sends a body of its own shape, so the requests of
    the front end as a whole are those of the callbacks above and this
    one; the callbacks above run unchanged in the wider world ([lift]). *)
Module Client.
Import JsString Chat.

Inductive Body : Type :=
| HookBody (b : ChatHistory.Body)
| NewConversationBody (title : string) (user_id : option string).
                                   (* {title, user_id, extra_data: {}} *)

Record Request : Type := mkRequest {
  req_method : string;
  req_url : string;
  req_body : Body
}.

Definition widen (r : ChatHistory.Request) : Request :=
  {| req_method := ChatHistory.req_method r;
     req_url := ChatHistory.req_url r;
     req_body := HookBody (ChatHistory.req_body r) |}.

Record World : Type := mkWorld {
  hook : ChatHistory.HookState;
  server : Request -> ChatHistory.FetchResult;
  clock : string;
  sent : list Request
}.

Definition Async (A : Type) : Type := World -> ChatHistory.Outcome A * World.

Definition ret {A} (a : A) : Async A := fun w => (ChatHistory.Returned a, w).

Definition throw {A} (e : ChatHistory.Thrown) : Async A :=
  fun w => (ChatHistory.Threw e, w).

Definition bind {A B} (m : Async A) (k : A -> Async B) : Async B :=
  fun w => match m w with
           | (ChatHistory.Returned a, w') => k a w'
           | (ChatHistory.Threw e, w') => (ChatHistory.Threw e, w')
           end.

Definition tryCatch {A} (body : Async A)
    (handler : ChatHistory.Thrown -> Async A) : Async A :=
  fun w => match body w with
           | (ChatHistory.Returned a, w') => (ChatHistory.Returned a, w')
           | (ChatHistory.Threw e, w') => handler e w'
           end.

Definition tryFinally {A} (body : Async A) (cleanup : Async unit) : Async A :=
  fun w => match body w with
           | (outcome, w') =>
               match cleanup w' with
               | (ChatHistory.Returned _, w'') => (outcome, w'')
               | (ChatHistory.Threw e, w'') => (ChatHistory.Threw e, w'')
               end
           end.

Notation "x <- m ;; k" := (bind m (fun x => k))
  (at level 61, m at next level, right associativity).
Notation "m ;;; k" := (bind m (fun _ => k))
  (at level 61, right associativity).

Definition setHook (f : ChatHistory.HookState -> ChatHistory.HookState)
  : Async unit :=
  fun w => (ChatHistory.Returned tt,
            {| hook := f (hook w); server := server w;
               clock := clock w; sent := sent w |}).

Definition setCurrentConversation (c : option Conversation) : Async unit :=
  setHook (fun h => {| ChatHistory.currentConversation := c;
                       ChatHistory.isLoading := ChatHistory.isLoading h;
                       ChatHistory.error := ChatHistory.error h |}).

Definition setError (e : option string) : Async unit :=
  setHook (fun h => {| ChatHistory.currentConversation :=
                         ChatHistory.currentConversation h;
                       ChatHistory.isLoading := ChatHistory.isLoading h;
                       ChatHistory.error := e |}).

Definition setIsLoading (b : bool) : Async unit :=
  setHook (fun h => {| ChatHistory.currentConversation :=
                         ChatHistory.currentConversation h;
                       ChatHistory.isLoading := b;
                       ChatHistory.error := ChatHistory.error h |}).

Definition fetch (r : Request) : Async ChatHistory.Response :=
  fun w =>
    let w' := {| hook := hook w; server := server w;
                 clock := clock w; sent := sent w ++ [r] |} in
    match server w r with
    | ChatHistory.Rejects e => (ChatHistory.Threw e, w')
    | ChatHistory.Responds resp => (ChatHistory.Returned resp, w')
    end.

Definition text (r : ChatHistory.Response) : Async string :=
  match ChatHistory.textBody r with
  | Some s => ret s
  | None => throw ChatHistory.bodyReadError
  end.

Definition json (r : ChatHistory.Response) : Async string :=
  match ChatHistory.jsonBody r with
  | Some s => ret s
  | None => throw ChatHistory.jsonSyntaxError
  end.

(** The world as a callback of the hook sees it. *)
Definition narrow (w : World) : ChatHistory.World :=
  {| ChatHistory.hook := hook w;
     ChatHistory.server := fun r => server w (widen r);
     ChatHistory.clock := clock w;
     ChatHistory.sent := [] |}.

(** A callback of the hook, run in the wider world. *)
Definition lift {A} (m : ChatHistory.Async A) : Async A :=
  fun w =>
    let r := m (narrow w) in
    (fst r,
     {| hook := ChatHistory.hook (snd r); server := server w;
        clock := clock w;
        sent := sent w ++ map widen (ChatHistory.sent (snd r)) |}).

Section Callbacks.
Variable API_BASE : string.
Variable userId : option string.
Variable readConversation : string -> Conversation.

Definition conversationsUrl : string :=
  (API_BASE ++ "/api/chat-history/conversations")%string.

Definition createRequest (title : string) : Request :=
  mkRequest "POST" conversationsUrl (NewConversationBody title userId).

(** [createConversation]; its parameter defaults to ["New Conversation"]
    when it is not given. *)
Definition createConversation (givenTitle : option string)
  : Async Conversation :=
  let title := match givenTitle with
               | Some t => t
               | None => "New Conversation"
               end in
  setIsLoading true ;;;
  setError None ;;;
  tryFinally
    (tryCatch
       (response <- fetch (createRequest title) ;;
        (if negb (ChatHistory.ok response)
         then (errorText <- text response ;;
               throw (ChatHistory.ErrorObj
                        ("Failed to create conversation: "
                         ++ ChatHistory.statusText response)%string))
         else ret tt) ;;;
        conversation <- json response ;;
        setCurrentConversation (Some (readConversation conversation)) ;;;
        ret (readConversation conversation))
       (fun err =>
          setError (Some (ChatHistory.errorMessage err
                            "Failed to create conversation")) ;;;
          throw err))
    (setIsLoading false).

(** The effect that initializes the hook: [currentConversation] is the
    one of the render the effect belongs to. *)
Definition initializeConversation (currentConversation : option Conversation)
  : Async unit :=
  match currentConversation with
  | None => tryCatch (createConversation None ;;; ret tt) (fun _ => ret tt)
  | Some _ => ret tt
  end.

(** The body of an ok response to [r], when it parses. *)
Definition okBody (w : World) (r : Request) : option string :=
  match server w r with
  | ChatHistory.Responds resp =>
      if ChatHistory.ok resp then ChatHistory.jsonBody resp else None
  | ChatHistory.Rejects _ => None
  end.

End Callbacks.

End Client.

(* ================================================================= *)
(** ** [App.tsx]: the activity timeline, the effects and the handlers *)

Module AppShell.
Import JsString Chat.

Record ProcessedEvent : Type := mkEvent {
  ev_title : string;
  ev_data : string
}.

(** A gathered source, of which only the label is read; the label may be
    missing. *)
Record Source : Type := mkSource {
  label : option string
}.

(** An update event of the stream, as [onUpdateEvent] reads it: each key
    may be absent ([None]), and so may the field read under it. *)
Record UpdateEvent : Type := mkUpdateEvent {
  generate_query : option (option (list string));   (* .search_query *)
  web_research : option (option (list Source));     (* .sources_gathered *)
  reflection : option (option string);              (* .knowledge_gap *)
  finalize_answer : bool;
  rag_search : option (option (list string))        (* .rag_results *)
}.

(** [x || fallback] on strings. *)
Definition orElse (x : string) (fallback : string) : string :=
  match x with
  | EmptyString => fallback
  | _ => x
  end.

(** [sources.map((s) => s.label).filter(Boolean)] *)
Definition truthyLabels (sources : list Source) : list string :=
  flat_map (fun s => match label s with
                     | Some (String c l) => [String c l]
                     | _ => []
                     end) sources.

(** [[...new Set(labels)]]: the first occurrences, in order. *)
Fixpoint unique (seen labels : list string) : list string :=
  match labels with
  | [] => []
  | l :: rest =>
      if includes seen l then unique seen rest
      else l :: unique (l :: seen) rest
  end.

Definition exampleLabels (sources : list Source) : list string :=
  slice0 3 (unique [] (truthyLabels sources)).

(** A length in a template string. *)
Definition showNat (n : nat) : string :=
  NilZero.string_of_uint (Nat.to_uint n).

(** The event [onUpdateEvent] makes of an update, if any, and whether it
    raises the flag [hasFinalizeEventOccurredRef]. *)
Definition processedEventOf (event : UpdateEvent)
  : option ProcessedEvent * bool :=
  match generate_query event with
  | Some search_query =>
      (Some (mkEvent "Generating Search Queries"
               (orElse (match search_query with
                        | Some qs => join ", " qs
                        | None => ""
                        end) "")), false)
  | None =>
  match web_research event with
  | Some sources_gathered =>
      let sources := match sources_gathered with
                     | Some l => l
                     | None => []
                     end in
      (Some (mkEvent "Web Research"
               ("Gathered " ++ showNat (List.length sources)
                ++ " sources. Related to: "
                ++ orElse (join ", " (exampleLabels sources)) "N/A"
                ++ ".")%string), false)
  | None =>
  match reflection event with
  | Some knowledge_gap =>
      (Some (mkEvent "Reflection"
               ("Knowledge gap identified: "
                ++ orElse (match knowledge_gap with
                           | Some g => g
                           | None => ""
                           end) "N/A")%string), false)
  | None =>
  if finalize_answer event
  then (Some (mkEvent "Finalizing Answer"
                "Research complete, generating final response"), true)
  else
  match rag_search event with
  | Some rag_results =>
      (Some (mkEvent "RAG Search"
               ("Found "
                ++ showNat (match rag_results with
                            | Some l => List.length l
                            | None => 0
                            end)
                ++ " relevant documents from knowledge base")%string), false)
  | None => (None, false)
  end end end end.

(** An update with none of the keys [onUpdateEvent] looks for. *)
Definition noKey (event : UpdateEvent) : Prop :=
  generate_query event = None /\ web_research event = None
  /\ reflection event = None /\ finalize_answer event = false
  /\ rag_search event = None.

(** The state of [App] that the code below works on: three [useState]
    cells, the ref, and the submissions made to the thread. *)
Record State : Type := mkState {
  processedEventsTimeline : list ProcessedEvent;
  historicalActivities : string -> option (list ProcessedEvent);
  hasFinalizeEventOccurred : bool;
  appError : option string;
  submitted : list App.SubmitPayload
}.

Definition noActivities : string -> option (list ProcessedEvent) :=
  fun _ => None.

Definition initial : State :=
  {| processedEventsTimeline := []; historicalActivities := noActivities;
     hasFinalizeEventOccurred := false; appError := None; submitted := [] |}.

(** [onUpdateEvent] *)
Definition onUpdateEvent (event : UpdateEvent) (st : State) : State :=
  let '(processedEvent, finalize) := processedEventOf event in
  {| processedEventsTimeline :=
       match processedEvent with
       | Some e => processedEventsTimeline st ++ [e]
       | None => processedEventsTimeline st
       end;
     historicalActivities := historicalActivities st;
     hasFinalizeEventOccurred :=
       if finalize then true else hasFinalizeEventOccurred st;
     appError := appError st;
     submitted := submitted st |}.

(** [{...prev, [key]: value}] *)
Definition withActivities (key : string) (value : list ProcessedEvent)
    (prev : string -> option (list ProcessedEvent))
  : string -> option (list ProcessedEvent) :=
  fun k => if String.eqb k key then Some value else prev k.

(** [thread.messages[thread.messages.length - 1]] *)
Definition lastMessage (messages : list Message) : option Message :=
  last (map Some messages) None.

(** The id under which the activities of a finished answer are kept:
    [lastMessage && lastMessage.type === "ai" && lastMessage.id]. *)
Definition answerId (messages : list Message) : option string :=
  match lastMessage messages with
  | Some m =>
      if String.eqb (msg_type m) "ai"
      then ChatHistoryRest.truthy (msg_id m)
      else None
  | None => None
  end.

(** The effect that files the timeline under the finished answer. *)
Definition finalizeEffect (isLoading : bool) (messages : list Message)
    (st : State) : State :=
  if hasFinalizeEventOccurred st && negb isLoading
     && negb (List.length messages =? 0)
  then {| processedEventsTimeline := [];
          historicalActivities :=
            match answerId messages with
            | Some key =>
                withActivities key (processedEventsTimeline st)
                               (historicalActivities st)
            | None => historicalActivities st
            end;
          hasFinalizeEventOccurred := false;
          appError := appError st;
          submitted := submitted st |}
  else st.

Section Handlers.
Variable API_BASE : string.
Variable userId : string.
Variable readConversation : string -> Conversation.
Variable readMessages : string -> option (list ChatHistoryRest.MessageData).

(** What the handlers and effects close over: the conversation of the
    render they belong to. *)
Variable currentConversation : option Conversation.

Definition isText (m : Message) : option string :=
  match msg_content m with
  | TextContent s => Some s
  | StructuredContent _ => None
  end.

(** One run of the effect that saves the last message.  The save and
    the title generation are started one after the other and not awaited;
    they are completed here in the order they are started. *)
Definition saveMessagesEffect (messages : list Message)
  : Client.Async unit :=
  match currentConversation, lastMessage messages with
  | Some conversation, Some last =>
      match ChatHistoryRest.truthy (msg_id last) with
      | Some _ =>
          Client.bind
            (Client.tryCatch
               (Client.lift
                  (ChatHistory.saveMessage API_BASE currentConversation
                     (id conversation) last))
               (fun _ => Client.ret tt))
            (fun _ =>
               match isText last with
               | Some content =>
                   if String.eqb (title conversation) "New Conversation"
                      && String.eqb (msg_type last) "human"
                   then Client.lift
                          (ChatHistory.autoGenerateTitle API_BASE
                             currentConversation (id conversation) content)
                   else Client.ret tt
               | None => Client.ret tt
               end)
      | None => Client.ret tt
      end
  | None, Some _ =>
      Client.tryCatch
        (Client.bind
           (Client.createConversation API_BASE (Some userId)
              readConversation None)
           (fun _ => Client.ret tt))
        (fun _ => Client.ret tt)
  | _, None => Client.ret tt
  end.

(** What the effect is expected to send for a last message [m] of the
    conversation [c]: the save, when the content can be sent, and the
    title update, when the conversation still has its initial title and
    [m] is a human message of text that is not blank. *)
Definition savePart (c : Conversation) (m : Message)
  : list ChatHistory.Request :=
  match ChatHistory.saveRequest API_BASE (id c) m with
  | Some q => [q]
  | None => []
  end.

Definition titlePart (c : Conversation) (m : Message)
  : list ChatHistory.Request :=
  match isText m with
  | Some content =>
      if String.eqb (title c) "New Conversation"
         && String.eqb (msg_type m) "human"
         && negb (allWhiteSpace content)
      then [ChatHistory.titleRequest API_BASE (id c)
              (ChatHistory.generatedTitle content)]
      else []
  | None => []
  end.

Definition submission (messages : list Message)
    (conversationId : option string) : App.SubmitPayload :=
  {| App.messages := messages;
     App.initial_search_query_count := 3;
     App.max_research_loops := 1;
     App.conversation_id := conversationId;
     App.user_id := Some userId |}.

Definition resetAfterSubmit (p : App.SubmitPayload) (st : State) : State :=
  {| processedEventsTimeline := [];
     historicalActivities := noActivities;
     hasFinalizeEventOccurred := hasFinalizeEventOccurred st;
     appError := appError st;
     submitted := submitted st ++ [p] |}.

Definition setAppError (e : string) (st : State) : State :=
  {| processedEventsTimeline := processedEventsTimeline st;
     historicalActivities := historicalActivities st;
     hasFinalizeEventOccurred := hasFinalizeEventOccurred st;
     appError := Some e;
     submitted := submitted st |}.

(** [handleSelectConversation] *)
Definition handleSelectConversation (conversationId : string)
    (st : State) (w : Client.World) : State * Client.World :=
  match Client.lift
          (ChatHistoryRest.loadConversation API_BASE readConversation
             readMessages conversationId) w with
  | (ChatHistory.Returned messages, w') =>
      (resetAfterSubmit (submission messages (Some conversationId)) st, w')
  | (ChatHistory.Threw _, w') =>
      (setAppError "Failed to load conversation" st, w')
  end.

(** [handleCreateConversation]: the id it submits is read from the
    [chatHistory] of its own render. *)
Definition handleCreateConversation (st : State) (w : Client.World)
  : State * Client.World :=
  match Client.createConversation API_BASE (Some userId) readConversation
          None w with
  | (ChatHistory.Returned _, w') =>
      (resetAfterSubmit
         (submission [] (option_map id currentConversation)) st, w')
  | (ChatHistory.Threw _, w') =>
      (setAppError "Failed to create conversation" st, w')
  end.

End Handlers.

(** The effect depends on [chatHistory], an object the hook builds anew
    at every render, so it runs after every render, also after the
    renders its own state changes cause.  [saveMessagesRuns n]: [n]
    renders in a row over the same messages, each run with the
    conversation of its own render and completed before the next
    render. *)
Fixpoint saveMessagesRuns (API_BASE userId : string)
    (readConversation : string -> Conversation) (n : nat)
    (messages : list Message) (w : Client.World) : Client.World :=
  match n with
  | 0 => w
  | S k =>
      saveMessagesRuns API_BASE userId readConversation k messages
        (snd (saveMessagesEffect API_BASE userId readConversation
                (ChatHistory.currentConversation (Client.hook w))
                messages w))
  end.

(** The saves of messages of a conversation among the requests sent. *)
Definition isSaveTo (API_BASE conversationId : string) (r : Client.Request)
  : bool :=
  String.eqb (Client.req_method r) "POST"
  && String.eqb (Client.req_url r)
       (ChatHistory.messagesUrl API_BASE conversationId).

Definition savesTo (API_BASE conversationId : string)
    (requests : list Client.Request) : nat :=
  List.length (filter (isSaveTo API_BASE conversationId) requests).

End AppShell.

(* ================================================================= *)
(** ** [ConversationList.tsx]: the side bar *)

Module ConversationList.
Import JsString Chat ChatHistory.

(** What the list state holds: the rows of an array of conversations,
    or a parsed body that is no such array, which [setConversations]
    stores as it comes. *)
Inductive Listing : Type :=
| Rows (rows : list Conversation)
| Unchecked (data : string).

(** The four [useState] cells of [ConversationList]. *)
Record State : Type := mkState {
  conversations : Listing;
  searchQuery : string;
  loading : bool;
  showArchived : bool
}.

Definition initial : State :=
  {| conversations := Rows []; searchQuery := ""; loading := false;
     showArchived := false |}.

Definition isActive (conv : Conversation) : bool :=
  match status conv with
  | active => true
  | _ => false
  end.

Section Component.
Variable API_BASE : string.
Variable userId : option string.
Variable currentConversationId : option string.

(** The parsed body read as the array of conversations the code takes
    it for: [None] when it is not one, so that [data.filter(...)] throws
    (no [filter] to call, or a [null] entry whose [status] cannot be
    read).  [toQueryString] is the platform's
    [URLSearchParams.prototype.toString]. *)
Variable readConversations : string -> option (list Conversation).
Variable toQueryString : list (string * string) -> string.

(** The server: its answer to a request may depend on the requests it has
    received before. *)
Variable server : list Request -> Request -> FetchResult.

Definition listParams (st : State) : list (string * string) :=
  match ChatHistoryRest.truthy userId with
  | Some u => [("user_id", u)]
  | None => []
  end
  ++ match searchQuery st with
     | EmptyString => []
     | q => [("search", q)]
     end
  ++ [("limit", "50")].

Definition listRequest (st : State) : Request :=
  mkRequest "GET"
    (API_BASE ++ "/api/chat-history/conversations?"
              ++ toQueryString (listParams st))%string
    NoBody.

Definition setLoading (b : bool) (st : State) : State :=
  {| conversations := conversations st; searchQuery := searchQuery st;
     loading := b; showArchived := showArchived st |}.

Definition setConversations (l : Listing) (st : State) : State :=
  {| conversations := l; searchQuery := searchQuery st;
     loading := loading st; showArchived := showArchived st |}.

(** [fetchConversations]: [log] holds the requests sent so far; the
    result is the state at the end of the [finally] and the longer log.
    With the archive filter on the parsed body is stored unread; with it
    off the body is filtered, which throws into the [catch] when it is no
    array of conversations. *)
Definition fetchConversations (log : list Request) (st : State)
  : State * list Request :=
  let log' := log ++ [listRequest st] in
  let unchanged := (setLoading false (setLoading true st), log') in
  match server log (listRequest st) with
  | Responds response =>
      if ok response
      then match jsonBody response with
           | Some data =>
               if showArchived st
               then (setLoading false
                       (setConversations
                          (match readConversations data with
                           | Some rows => Rows rows
                           | None => Unchecked data
                           end)
                          (setLoading true st)),
                     log')
               else match readConversations data with
                    | Some rows =>
                        (setLoading false
                           (setConversations (Rows (filter isActive rows))
                              (setLoading true st)),
                         log')
                    | None => unchanged
                    end
           | None => unchanged
           end
      else unchanged
  | Rejects _ => unchanged
  end.

(** The body the server answers with, when it answers ok and the body
    parses. *)
Definition listedBy (log : list Request) (st : State) : option string :=
  match server log (listRequest st) with
  | Responds response => if ok response then jsonBody response else None
  | Rejects _ => None
  end.

Definition deleteRequest (conversationId : string) (archiveOnly : bool)
  : Request :=
  mkRequest "DELETE"
    (conversationUrl API_BASE conversationId
     ++ (if archiveOnly then "?archive_only=true" else ""))%string
    NoBody.

(** Whether the server answers [r] with an ok status. *)
Definition accepted (log : list Request) (r : Request) : bool :=
  match server log r with
  | Responds response => ok response
  | Rejects _ => false
  end.

(** [archiveConversation] *)
Definition archiveConversation (conversationId : string)
    (log : list Request) (st : State) : State * list Request :=
  let request := deleteRequest conversationId true in
  if accepted log request
  then fetchConversations (log ++ [request]) st
  else (st, log ++ [request]).

(** [deleteConversation]: [confirmed] is the answer to [confirm(...)];
    the third component tells whether [onCreateConversation] is called. *)
Definition deleteConversation (confirmed : bool) (conversationId : string)
    (log : list Request) (st : State) : State * list Request * bool :=
  if negb confirmed then (st, log, false)
  else
    let request := deleteRequest conversationId false in
    if accepted log request
    then (fetchConversations (log ++ [request]) st,
          match currentConversationId with
          | Some current => String.eqb conversationId current
          | None => false
          end)
    else (st, log ++ [request], false).

End Component.

End ConversationList.


(* ================================================================= *)
(** ** Sample data for the front end *)

Module FrontSamples.
Import JsString Chat.

Definition stored : Conversation :=
  {| id := "c7"; title := "Solar power";
     created_at := "2025-02-10T10:00:00.000Z";
     updated_at := "2025-02-11T16:45:00.000Z";
     message_count := 2; status := active; summary := None |}.

Definition shelved : Conversation :=
  {| id := "c3"; title := "Wind power";
     created_at := "2024-12-01T08:00:00.000Z";
     updated_at := "2024-12-01T08:05:00.000Z";
     message_count := 4; status := archived; summary := None |}.

(** JSON text. *)
Definition quoted (s : string) : string :=
  (String "034"%char s ++ String "034"%char "")%string.

Definition member (key value : string) : string :=
  (quoted key ++ ":" ++ value)%string.

Definition object (members : list string) : string :=
  ("{" ++ join "," members ++ "}")%string.

Definition array (items : list string) : string :=
  ("[" ++ join "," items ++ "]")%string.

Definition statusName (s : Status) : string :=
  match s with
  | active => "active"
  | archived => "archived"
  | deleted => "deleted"
  end.

Definition conversationJson (c : Conversation) : string :=
  object [member "id" (quoted (id c)); member "title" (quoted (title c));
          member "created_at" (quoted (created_at c));
          member "updated_at" (quoted (updated_at c));
          member "message_count"
            (NilZero.string_of_uint (Nat.to_uint (Z.to_nat (message_count c))));
          member "status" (quoted (statusName (status c)))].

Definition storedMessages : list ChatHistoryRest.MessageData :=
  [ChatHistoryRest.mkMessageData "m1" "human"
     "How much solar power was added?";
   ChatHistoryRest.mkMessageData "m2" "ai" "About 450 GW."].

Definition messageJson (m : ChatHistoryRest.MessageData) : string :=
  object [member "id" (quoted (ChatHistoryRest.md_id m));
          member "type" (quoted (ChatHistoryRest.md_type m));
          member "content" (quoted (ChatHistoryRest.md_content m))].

Definition conversationBody : string := conversationJson stored.
Definition messagesBody : string := array (map messageJson storedMessages).
Definition listBody : string :=
  array [conversationJson stored; conversationJson shelved].
Definition savedBody : string :=
  object [member "success" "true";
          member "conversation"
            (object [member "updated_at"
                       (quoted "2025-03-01T08:00:00.000Z")])].

(** The views of the sample bodies; every other body, [{}] among them,
    is none of the arrays or answers the code reaches into. *)
Definition readConversation (_ : string) : Conversation := stored.

Definition readMessages (body : string)
  : option (list ChatHistoryRest.MessageData) :=
  if String.eqb body messagesBody then Some storedMessages else None.

Definition readConversations (body : string) : option (list Conversation) :=
  if String.eqb body listBody then Some [stored; shelved] else None.

Definition readSavedAt (body : string) : option string :=
  if String.eqb body savedBody then Some "2025-03-01T08:00:00.000Z"%string
  else None.

(** A query string without escaping, enough for plain keys and values. *)
Definition plainQueryString (params : list (string * string)) : string :=
  join "&" (map (fun p => (fst p ++ "=" ++ snd p)%string) params).

Definition jsonResponse (body : string) : ChatHistory.Response :=
  ChatHistory.mkResponse true "OK" (Some body) (Some body).

(** A server that holds the conversation [stored] and its messages. *)
Definition library (r : ChatHistory.Request) : ChatHistory.FetchResult :=
  let url := ChatHistory.req_url r in
  if String.eqb url (ChatHistory.conversationUrl Samples.base "c7")
  then ChatHistory.Responds (jsonResponse conversationBody)
  else if String.eqb url (ChatHistoryRest.messagesPageUrl Samples.base "c7")
  then ChatHistory.Responds (jsonResponse messagesBody)
  else if String.eqb url (ChatHistoryRest.saveUrl Samples.base "c7")
  then ChatHistory.Responds (jsonResponse savedBody)
  else ChatHistory.Responds Samples.okResponse.

Definition worldOn (current : option Conversation)
    (server : ChatHistory.Request -> ChatHistory.FetchResult)
  : ChatHistory.World :=
  {| ChatHistory.hook := {| ChatHistory.currentConversation := current;
                            ChatHistory.isLoading := false;
                            ChatHistory.error := None |};
     ChatHistory.server := server;
     ChatHistory.clock := "2025-01-02T09:30:00.000Z";
     ChatHistory.sent := [] |}.

Definition browser (current : option Conversation)
    (answer : ChatHistory.FetchResult) : Client.World :=
  {| Client.hook := {| ChatHistory.currentConversation := current;
                       ChatHistory.isLoading := false;
                       ChatHistory.error := None |};
     Client.server := fun _ => answer;
     Client.clock := "2025-01-02T09:30:00.000Z";
     Client.sent := [] |}.

(** A browser in front of [library]; a request with a body of another
    shape is accepted with an empty object. *)
Definition browserAt (current : option Conversation) : Client.World :=
  {| Client.hook := {| ChatHistory.currentConversation := current;
                       ChatHistory.isLoading := false;
                       ChatHistory.error := None |};
     Client.server :=
       fun r => match Client.req_body r with
                | Client.HookBody b =>
                    library (ChatHistory.mkRequest (Client.req_method r)
                               (Client.req_url r) b)
                | Client.NewConversationBody _ _ =>
                    ChatHistory.Responds Samples.okResponse
                end;
     Client.clock := "2025-01-02T09:30:00.000Z";
     Client.sent := [] |}.

(** A list server that answers every request with the two sample
    conversations, whatever came before, and one that answers with an
    empty object. *)
Definition steady (_ : list ChatHistory.Request) (_ : ChatHistory.Request)
  : ChatHistory.FetchResult :=
  ChatHistory.Responds (jsonResponse listBody).

Definition confused (_ : list ChatHistory.Request)
    (_ : ChatHistory.Request) : ChatHistory.FetchResult :=
  ChatHistory.Responds Samples.okResponse.

End FrontSamples.
(* ================================================================= *)
(** * Properties *)

(** ** Strings *)

Section JsStringFacts.
Import JsString.

Lemma split_not_nil (sep : ascii) (s : string) : split sep s <> [].
Proof.
  destruct s as [|c s]; simpl; [discriminate|].
  destruct (Ascii.eqb c sep); [discriminate|].
  destruct (split sep s); discriminate.
Qed.

Lemma pop_cons (w : string) (ws : list string) :
  ws <> [] -> pop (w :: ws) = pop ws.
Proof. destruct ws; [congruence | reflexivity]. Qed.

Lemma lowerChar_idempotent (c : ascii) : lowerChar (lowerChar c) = lowerChar c.
Proof.
  destruct c as [[] [] [] [] [] [] [] []]; reflexivity.
Qed.

Lemma toLowerCase_idempotent (s : string) :
  toLowerCase (toLowerCase s) = toLowerCase s.
Proof.
  induction s as [|c s IH]; simpl; [reflexivity|].
  now rewrite lowerChar_idempotent, IH.
Qed.

Lemma trimEnd_empty_iff (s : string) :
  trimEnd s = EmptyString <-> allWhiteSpace s = true.
Proof.
  induction s as [|c s IH]; simpl; [tauto|].
  destruct (trimEnd s) eqn:E.
  - destruct (isWhiteSpace c); simpl.
    + split; [intros _; now apply IH | reflexivity].
    + split; discriminate.
  - split; [discriminate|].
    intros H. apply andb_true_iff in H as [_ H].
    apply IH in H. discriminate.
Qed.

Lemma allWhiteSpace_trimStart (s : string) :
  allWhiteSpace (trimStart s) = allWhiteSpace s.
Proof.
  induction s as [|c s IH]; simpl; [reflexivity|].
  destruct (isWhiteSpace c) eqn:E; simpl; [exact IH | now rewrite E].
Qed.

Lemma trim_empty_iff (s : string) :
  trim s = EmptyString <-> allWhiteSpace s = true.
Proof.
  unfold trim. rewrite trimEnd_empty_iff. now rewrite allWhiteSpace_trimStart.
Qed.

End JsStringFacts.

(** ** The file-type badge *)

Section UploadFileFacts.
Import JsString UploadFile.

Lemma split_without_dot (s : string) :
  hasDot s = false -> split dot s = [s].
Proof.
  induction s as [|c s IH]; simpl; [reflexivity|].
  intros H. apply orb_false_iff in H as [Hc Hs].
  rewrite Hc, (IH Hs). reflexivity.
Qed.

Lemma pop_split_step (c : ascii) (s : string) :
  pop (split dot (String c s)) =
  if hasDot s then pop (split dot s)
  else if Ascii.eqb c dot then Some s else Some (String c s).
Proof.
  simpl. destruct (hasDot s) eqn:Hs.
  - destruct (Ascii.eqb c dot).
    + apply pop_cons, split_not_nil.
    + destruct (split dot s) as [|w ws] eqn:E.
      * now apply split_not_nil in E.
      * destruct ws as [|w' ws'].
        -- exfalso. clear -Hs E. revert w E.
           induction s as [|d s IH]; intros w E; simpl in *; [discriminate|].
           destruct (Ascii.eqb d dot); simpl in *.
           ++ inversion E as [[E1 E2]]. now apply split_not_nil in E2.
           ++ destruct (split dot s) as [|v vs] eqn:E'.
              ** now apply split_not_nil in E'.
              ** inversion E; subst. eapply IH; eauto.
        -- reflexivity.
  - rewrite (split_without_dot _ Hs).
    destruct (Ascii.eqb c dot); reflexivity.
Qed.

Lemma extension_is_after_last_dot (s : string) :
  orEmpty (pop (split dot s)) = afterLastDot s.
Proof.
  induction s as [|c s IH]; [reflexivity|].
  rewrite pop_split_step. simpl afterLastDot.
  destruct (hasDot s); [exact IH|].
  destruct (Ascii.eqb c dot); [|reflexivity].
  destruct s; reflexivity.
Qed.

Lemma afterLastDot_without_dot (s : string) :
  hasDot s = false -> afterLastDot s = s.
Proof.
  destruct s as [|c s]; simpl; [reflexivity|].
  intros H. apply orb_false_iff in H as [Hc Hs]. now rewrite Hs, Hc.
Qed.

Ltac split_on_extension ext :=
  repeat match goal with
    | |- context [String.eqb ext ?lit] =>
        destruct (String.eqb_spec ext lit) as [->|]; simpl
    end.

(** C10: [getFileType] is a function of the lowercased final extension
    alone (what follows the last dot, and the whole name when it has no
    dot); it answers PDF, Word, PowerPoint, Excel or Text exactly on the
    listed extensions and Unknown on everything else, and two names that
    differ only in letter case get the same answer. *)
Theorem getFileType_classifies_by_extension (filename : string) :
  let ext := finalExtension filename in
  extensionOf filename = ext
  /\ (hasDot filename = false -> ext = toLowerCase filename)
  /\ (getFileType filename = "PDF" <-> ext = "pdf")
  /\ (getFileType filename = "Word" <-> ext = "docx" \/ ext = "doc")
  /\ (getFileType filename = "PowerPoint" <-> ext = "pptx" \/ ext = "ppt")
  /\ (getFileType filename = "Excel" <-> ext = "xlsx" \/ ext = "xls")
  /\ (getFileType filename = "Text" <->
      In ext ["txt"; "md"; "csv"; "json"; "xml"; "html"; "htm"; "log"])
  /\ (getFileType filename = "Unknown" <-> ~ In ext knownExtensions)
  /\ getFileType (toLowerCase filename) = getFileType filename
  /\ (forall other, toLowerCase other = toLowerCase filename ->
                    getFileType other = getFileType filename).
Proof.
  intros ext.
  assert (Hext : extensionOf filename = ext)
    by apply extension_is_after_last_dot.
  split; [exact Hext|].
  split.
  { intros H. unfold ext, finalExtension.
    apply afterLastDot_without_dot.
    clear -H. induction filename as [|c s IH]; simpl in *; [reflexivity|].
    apply orb_false_iff in H as [Hc Hs].
    rewrite (IH Hs), orb_false_r.
    revert Hc. unfold dot.
    destruct c as [[] [] [] [] [] [] [] []]; simpl;
      first [discriminate | reflexivity]. }
  assert (Hcase : getFileType (toLowerCase filename) = getFileType filename).
  { unfold getFileType, extensionOf.
    now rewrite toLowerCase_idempotent. }
  assert (Hother : forall other, toLowerCase other = toLowerCase filename ->
                                 getFileType other = getFileType filename).
  { intros other H. unfold getFileType, extensionOf. now rewrite H. }
  repeat match goal with |- _ /\ _ => split end;
    try assumption;
    unfold getFileType, includes, knownExtensions; rewrite Hext;
    clear; generalize ext as e; intros e; simpl existsb;
    split_on_extension e;
    simpl; intuition (try discriminate; try congruence).
Qed.

End UploadFileFacts.

Lemma getFileType_classifies_by_extension_witness :
  UploadFile.getFileType "Annual.Report.PDF" = "PDF"
  /\ UploadFile.getFileType "README" = "Unknown"
  /\ UploadFile.getFileType "notes.MD" = UploadFile.getFileType "NOTES.md".
Proof.
  pose proof (getFileType_classifies_by_extension "Annual.Report.PDF") as H1.
  pose proof (getFileType_classifies_by_extension "README") as H2.
  pose proof (getFileType_classifies_by_extension "NOTES.md") as H3.
  cbv zeta in H1, H2, H3.
  destruct H1 as (_ & _ & H1 & _).
  destruct H2 as (_ & _ & _ & _ & _ & _ & _ & H2 & _).
  destruct H3 as (_ & _ & _ & _ & _ & _ & _ & _ & _ & H3).
  split; [apply H1; reflexivity|].
  split; [apply H2; vm_compute; intuition discriminate|].
  apply H3. reflexivity.
Defined.

(** ** The submitted configuration *)

Section AppFacts.
Import Chat App.
Local Open Scope Z_scope.

(** C7: [handleSubmit] sends (2, 1) for the low effort, (3, 2) for
    medium and (5, 10) for high; every other effort keeps the initial
    (3, 1), so 3 is the default query count; whatever the effort, the
    query count sent is within [2,5] and the loop budget within [1,10].
    The core's own default query count is 3 as well. *)
Theorem handleSubmit_effort_configuration :
  effortSettings "low" = (2, 1)
  /\ effortSettings "medium" = (3, 2)
  /\ effortSettings "high" = (5, 10)
  /\ (forall effort,
        effort <> "low"%string -> effort <> "medium"%string ->
        effort <> "high"%string -> effortSettings effort = (3, 1))
  /\ (forall thread_messages conversation userId now input effort,
        let p := handleSubmit thread_messages conversation userId now
                              input effort in
        (initial_search_query_count p, max_research_loops p)
          = effortSettings effort
        /\ 2 <= initial_search_query_count p <= 5
        /\ 1 <= max_research_loops p <= 10)
  /\ (forall loops,
        Research.initialQueryCount (Research.defaultConfig loops) = 3%nat).
Proof.
  repeat match goal with |- _ /\ _ => split end; try reflexivity.
  - intros effort Hl Hm Hh. unfold effortSettings.
    apply String.eqb_neq in Hl, Hm, Hh. now rewrite Hl, Hm, Hh.
  - intros tm conv uid now input effort. unfold handleSubmit, effortSettings.
    destruct (String.eqb effort "low");
      [|destruct (String.eqb effort "medium");
        [|destruct (String.eqb effort "high")]];
      cbn; repeat split; try reflexivity; lia.
Qed.

Lemma handleSubmit_effort_configuration_witness :
  effortSettings "extreme" = (3, 1)
  /\ max_research_loops
       (handleSubmit None None None "1700000000000" "What is RAG?" "high")
     = 10.
Proof.
  destruct handleSubmit_effort_configuration as (_ & _ & _ & Hd & Hp & _).
  split.
  - apply Hd; discriminate.
  - specialize (Hp None None None "1700000000000"%string
                   "What is RAG?"%string "high"%string).
    cbv zeta in Hp. destruct Hp as (Heq & _).
    change (effortSettings "high") with (5, 10) in Heq.
    now inversion Heq.
Defined.

End AppFacts.

(** ** The chat-history hook *)

Section ChatHistoryFacts.
Import JsString Chat ChatHistory.
Local Open Scope Z_scope.

Ltac run_async :=
  unfold saveMessage, updateConversationTitle, tryCatch, bind, ret, throw,
    fetch, text, json, contentString, toISOString, setCurrentConversation,
    setError, setHook, saveSucceeds, saveRequest, titleAccepted,
    titleRequest in *.

Lemma saveMessage_cases (base : string) (captured : option Conversation)
    (cid : string) (msg : Message) (w : World) :
  let r := saveMessage base captured cid msg w in
  fst r = Returned tt
  /\ isLoading (hook (snd r)) = isLoading (hook w)
  /\ (if saveSucceeds base w cid msg
      then error (hook (snd r)) = error (hook w)
           /\ currentConversation (hook (snd r)) =
                (if isCaptured captured cid
                 then option_map (withNewMessage (clock w))
                                 (currentConversation (hook w))
                 else currentConversation (hook w))
      else (exists m, error (hook (snd r)) = Some m)
           /\ currentConversation (hook (snd r))
              = currentConversation (hook w)).
Proof.
  run_async.
  destruct msg as [ty [s | [s |]] mid]; simpl;
    try (repeat split; eauto; fail);
    match goal with
    | |- context [server w ?req] => destruct (server w req) as [e | resp]
    end; simpl;
    try (repeat split; eauto; fail);
    destruct resp as [[] st [tb |] [jb |]]; simpl;
    try (repeat split; eauto; fail);
    destruct (isCaptured captured cid); simpl;
    repeat split; eauto;
    destruct (currentConversation (hook w)); reflexivity.
Qed.

Lemma plusOne_exact (n : Z) :
  - 2 ^ 53 <= n < 2 ^ 53 -> plusOne n = n + 1.
Proof.
  unfold plusOne, roundToDouble. cbv zeta.
  change (2 ^ 53) with 9007199254740992. intros H.
  destruct (Z.leb_spec (Z.abs (n + 1)) 9007199254740992);
    [reflexivity | lia].
Qed.

(** C9 (amended): [saveMessage] always resolves.  A failure (content that
    cannot be serialised, a rejected request, a status that is not ok, a
    body that cannot be read) is recorded in the hook's error state and
    leaves the conversation as it was.  On success the guard is on the
    conversation the callback was created with: when that one has the
    given id, the conversation in the hook's state at that moment,
    whichever it is, gets [message_count + 1] (the sum of JS numbers:
    exactly one more below 2^53) and [updated_at] set to the current
    time, its other fields unchanged; otherwise the conversation state is
    unchanged.  For the callback of the current render, below 2^53, the
    count goes up by one exactly when the ids are equal. *)
Theorem saveMessage_resolves_and_counts (base : string)
    (captured : option Conversation) (cid : string) (msg : Message)
    (w : World) :
  let r := saveMessage base captured cid msg w in
  let w' := snd r in
  fst r = Returned tt
  /\ isLoading (hook w') = isLoading (hook w)
  /\ (saveSucceeds base w cid msg = false ->
      (exists m, error (hook w') = Some m)
      /\ currentConversation (hook w') = currentConversation (hook w))
  /\ (saveSucceeds base w cid msg = true ->
      error (hook w') = error (hook w)
      /\ (isCaptured captured cid = false ->
          currentConversation (hook w') = currentConversation (hook w))
      /\ (isCaptured captured cid = true ->
          forall c, currentConversation (hook w) = Some c ->
          exists c',
            currentConversation (hook w') = Some c'
            /\ message_count c' = plusOne (message_count c)
            /\ (- 2 ^ 53 <= message_count c < 2 ^ 53 ->
                message_count c' = message_count c + 1)
            /\ updated_at c' = clock w
            /\ id c' = id c /\ title c' = title c
            /\ created_at c' = created_at c
            /\ status c' = status c /\ summary c' = summary c)
      /\ (currentConversation (hook w) = None ->
          currentConversation (hook w') = None))
  /\ (saveSucceeds base w cid msg = true ->
      forall c, currentConversation (hook w) = Some c -> captured = Some c ->
      - 2 ^ 53 <= message_count c < 2 ^ 53 ->
      exists c',
        currentConversation (hook w') = Some c'
        /\ (message_count c' = message_count c + 1 <-> id c = cid)
        /\ (id c <> cid -> c' = c)).
Proof.
  intros r w'. subst w'.
  destruct (saveMessage_cases base captured cid msg w)
    as (Hres & Hload & Hcase).
  fold r in Hres, Hload, Hcase.
  split; [exact Hres|]. split; [exact Hload|].
  destruct (saveSucceeds base w cid msg).
  - destruct Hcase as [Herr Hconv].
    split; [discriminate|]. split.
    + intros _. split; [exact Herr|]. split; [|split].
      * intros Hcap. now rewrite Hcap in Hconv.
      * intros Hcap c Hc. rewrite Hcap, Hc in Hconv. simpl in Hconv.
        exists (withNewMessage (clock w) c). simpl.
        repeat split; auto. apply plusOne_exact.
      * intros Hn. rewrite Hconv, Hn. now destruct (isCaptured captured cid).
    + intros _ c Hc Hcap Hsafe. rewrite Hconv, Hc. subst captured. simpl.
      destruct (String.eqb_spec (id c) cid) as [Heq | Hne]; simpl.
      * exists (withNewMessage (clock w) c). simpl.
        rewrite (plusOne_exact Hsafe). repeat split; auto; tauto.
      * exists c. repeat split; auto; try tauto; lia.
  - split; [auto|]. split; discriminate.
Qed.

(** Counterexample to C9 as stated: a successful save of a message of the
    current conversation also rewrites [updated_at], so the count is not
    the only conversation state that changes. *)
Lemma saveMessage_also_touches_updated_at :
  let w := Samples.worldWith (Responds Samples.okResponse) in
  let r := saveMessage Samples.base (Some Samples.freshConversation)
                       "c1" Samples.humanMessage w in
  saveSucceeds Samples.base w "c1" Samples.humanMessage = true
  /\ fst r = Returned tt
  /\ currentConversation (hook (snd r)) <> Some Samples.countedOnly
  /\ option_map message_count (currentConversation (hook (snd r))) = Some 1
  /\ option_map updated_at (currentConversation (hook w))
     = Some "2025-01-01T00:00:00.000Z"%string
  /\ option_map updated_at (currentConversation (hook (snd r)))
     = Some "2025-01-02T09:30:00.000Z"%string
  /\ option_map updated_at (currentConversation (hook (snd r)))
     <> option_map updated_at (currentConversation (hook w)).
Proof.
  cbv zeta. repeat split; try reflexivity; vm_compute; discriminate.
Qed.

Lemma saveMessage_resolves_and_counts_witness :
  let down := Samples.worldWith (Responds Samples.serverDown) in
  let failed := saveMessage Samples.base (Some Samples.freshConversation)
                  "c1" Samples.humanMessage down in
  let stale := Samples.worldHolding (Some Samples.olderConversation)
                 (Responds Samples.okResponse) in
  let saved := saveMessage Samples.base (Some Samples.freshConversation)
                 "c1" Samples.humanMessage stale in
  (fst failed = Returned tt
   /\ (exists m, error (hook (snd failed)) = Some m)
   /\ currentConversation (hook (snd failed))
      = currentConversation (hook down))
  /\ (exists c', currentConversation (hook (snd saved)) = Some c'
                 /\ id c' = "c7"%string /\ message_count c' = 3).
Proof.
  cbv zeta. split.
  - pose proof (saveMessage_resolves_and_counts Samples.base
                  (Some Samples.freshConversation) "c1" Samples.humanMessage
                  (Samples.worldWith (Responds Samples.serverDown))) as H.
    cbv zeta in H. destruct H as (Hres & _ & Hfail & _).
    split; [exact Hres|]. apply Hfail. reflexivity.
  - pose proof (saveMessage_resolves_and_counts Samples.base
                  (Some Samples.freshConversation) "c1" Samples.humanMessage
                  (Samples.worldHolding (Some Samples.olderConversation)
                     (Responds Samples.okResponse))) as H.
    cbv zeta in H. destruct H as (_ & _ & _ & Hok & _).
    destruct (Hok eq_refl) as (_ & _ & Hcap & _).
    destruct (Hcap eq_refl Samples.olderConversation eq_refl)
      as (c' & Hc & _ & Hcount & _ & Hid & _).
    exists c'. split; [exact Hc|]. split; [exact Hid|].
    rewrite Hcount; [reflexivity | vm_compute; split; [discriminate | reflexivity]].
Defined.

Lemma isBlank_allWhiteSpace (s : string) : isBlank s = allWhiteSpace s.
Proof.
  destruct s as [|c s]; [reflexivity|].
  unfold isBlank.
  destruct (allWhiteSpace (String c s)) eqn:E.
  - apply trim_empty_iff in E. now rewrite E.
  - destruct (trim (String c s)) eqn:T; [|reflexivity].
    apply trim_empty_iff in T. congruence.
Qed.

(** C8: on a message that is empty or all white space
    [autoGenerateTitle] returns at once: nothing is sent and nothing
    changes.  On any other message it sends exactly one title update for
    the given conversation, whose title is the trimmed message when that
    splits at spaces into at most 8 words, and otherwise its first 8
    words joined by single spaces and followed by three dots; the
    accepted title becomes the title of the current conversation when
    that is the one updated; the call itself never rejects. *)
Theorem autoGenerateTitle_first_eight_words (base : string)
    (captured : option Conversation) (cid firstMessage : string)
    (w : World) :
  let t := trim firstMessage in
  let words := split space t in
  let newTitle :=
    if (List.length words <=? 8)%nat then t
    else (join " " (firstn 8 words) ++ "...")%string in
  let r := autoGenerateTitle base captured cid firstMessage w in
  let w' := snd r in
  fst r = Returned tt
  /\ (allWhiteSpace firstMessage = true -> w' = w)
  /\ (allWhiteSpace firstMessage = false ->
      sent w' = sent w ++ [titleRequest base cid newTitle]
      /\ (titleAccepted base w cid newTitle = true ->
          currentConversation (hook w') =
            (if isCaptured captured cid
             then option_map (withTitle newTitle)
                             (currentConversation (hook w))
             else currentConversation (hook w)))
      /\ (titleAccepted base w cid newTitle = false ->
          currentConversation (hook w') = currentConversation (hook w))).
Proof.
  intros t words newTitle r w'. subst w' r.
  unfold autoGenerateTitle. rewrite isBlank_allWhiteSpace.
  destruct (allWhiteSpace firstMessage).
  - simpl. repeat split; auto; discriminate.
  - change (generatedTitle firstMessage) with newTitle.
    generalize newTitle as ttl. clear. intros ttl.
    run_async. simpl.
    match goal with
    | |- context [server w ?req] => destruct (server w req) as [e | resp]
    end; simpl.
    + repeat split; auto; discriminate.
    + destruct resp as [[] st tb jb]; simpl.
      * destruct (isCaptured captured cid); simpl;
          repeat split; auto; try discriminate;
          destruct (currentConversation (hook w)); reflexivity.
      * repeat split; auto; discriminate.
Qed.

Lemma autoGenerateTitle_first_eight_words_witness :
  let w := Samples.worldWith (Responds Samples.okResponse) in
  let r := autoGenerateTitle Samples.base (Some Samples.freshConversation)
             "c1" "  how do solar panels and wind farms compare on cost per megawatt  " w in
  option_map title (currentConversation (hook (snd r)))
    = Some "how do solar panels and wind farms compare..."%string
  /\ snd (autoGenerateTitle Samples.base (Some Samples.freshConversation)
            "c1" "   " w) = w.
Proof.
  cbv zeta.
  pose proof (autoGenerateTitle_first_eight_words Samples.base
                (Some Samples.freshConversation) "c1"
                "  how do solar panels and wind farms compare on cost per megawatt  "
                (Samples.worldWith (Responds Samples.okResponse))) as H.
  pose proof (autoGenerateTitle_first_eight_words Samples.base
                (Some Samples.freshConversation) "c1" "   "
                (Samples.worldWith (Responds Samples.okResponse))) as Hb.
  cbv zeta in H, Hb.
  destruct H as (_ & _ & H). destruct Hb as (_ & Hb & _).
  split.
  - destruct (H eq_refl) as (_ & Hok & _).
    rewrite (Hok eq_refl). reflexivity.
  - apply Hb. reflexivity.
Defined.

End ChatHistoryFacts.

(** ** The evidence pool *)

Section EvidenceFacts.
Import Research.

Lemma sameId_eq (a b : SourceId) : sameId a b = true <-> a = b.
Proof.
  destruct a as [ta ia], b as [tb ib]. unfold sameId. simpl.
  rewrite andb_true_iff, String.eqb_eq.
  destruct ta, tb; simpl; split;
    first [ intros [H1 H2]; (discriminate || congruence)
          | intros H; inversion H; auto ].
Qed.

Lemma knownId_In (seen : list SourceId) (x : SourceId) :
  knownId seen x = true <-> In x seen.
Proof.
  unfold knownId. rewrite existsb_exists. split.
  - intros (y & Hy & E). apply sameId_eq in E. now subst.
  - intros H. exists x. split; [exact H | now apply sameId_eq].
Qed.

Lemma dedupe_In (seen : list SourceId) (batch : list EvidenceItem)
    (e : EvidenceItem) :
  In e (dedupe seen batch) -> In e batch /\ ~ In (identity e) seen.
Proof.
  revert seen. induction batch as [|b rest IH]; intros seen; simpl; [tauto|].
  destruct (knownId seen (identity b)) eqn:K.
  - intros H. apply IH in H. tauto.
  - intros [<- | H].
    + split; [now left|]. intros Hin. apply knownId_In in Hin. congruence.
    + apply IH in H as [H1 H2]. split; [now right|].
      intros Hin. apply H2. now right.
Qed.

Lemma dedupe_NoDup (seen : list SourceId) (batch : list EvidenceItem) :
  NoDup (map identity (dedupe seen batch)).
Proof.
  revert seen. induction batch as [|b rest IH]; intros seen; simpl;
    [constructor|].
  destruct (knownId seen (identity b)); [apply IH|].
  simpl. constructor; [|apply IH].
  intros Hin. apply in_map_iff in Hin as (e & He & Hin).
  apply dedupe_In in Hin as [_ Hin]. apply Hin. left. congruence.
Qed.

Lemma dedupe_covers (seen : list SourceId) (batch : list EvidenceItem)
    (e : EvidenceItem) :
  In e batch ->
  In (identity e) seen \/ In (identity e) (map identity (dedupe seen batch)).
Proof.
  revert seen. induction batch as [|b rest IH]; intros seen; simpl; [tauto|].
  intros [<- | H].
  - destruct (knownId seen (identity b)) eqn:K.
    + left. now apply knownId_In.
    + right. now left.
  - destruct (knownId seen (identity b)) eqn:K.
    + now apply IH.
    + destruct (IH (identity b :: seen) H) as [[E | Hs] | Hd].
      * right. left. exact E.
      * now left.
      * right. now right.
Qed.

Lemma dedupe_all_known (seen : list SourceId) (batch : list EvidenceItem) :
  (forall e, In e batch -> In (identity e) seen) -> dedupe seen batch = [].
Proof.
  induction batch as [|b rest IH]; intros H; simpl; [reflexivity|].
  assert (K : knownId seen (identity b) = true)
    by (apply knownId_In, H; now left).
  rewrite K. apply IH. intros e He. apply H. now right.
Qed.

Lemma NoDup_firstn {A : Type} (n : nat) (l : list A) :
  NoDup l -> NoDup (firstn n l).
Proof.
  revert n. induction l as [|a l IH]; intros [|n] H; simpl;
    try constructor.
  - inversion H as [|? ? Ha Hl]; subst. intros Hin. apply Ha.
    clear -Hin. revert n Hin. induction l as [|b l IH]; intros [|n]; simpl;
      try tauto.
    intros [-> | H]; [now left | right; eauto].
  - inversion H; subst. now apply IH.
Qed.

Lemma firstn_incl {A : Type} (n : nat) (l : list A) (x : A) :
  In x (firstn n l) -> In x l.
Proof.
  revert n. induction l as [|a l IH]; intros [|n]; simpl; try tauto.
  intros [-> | H]; [now left | right; eauto].
Qed.

(** *** Sorting *)

Section Sorting.
Variable key : EvidenceItem -> Q.

Lemma insertDesc_perm (x : EvidenceItem) (l : list EvidenceItem) :
  Permutation (insertDesc key x l) (x :: l).
Proof.
  induction l as [|y l IH]; simpl; [reflexivity|].
  destruct (Qle_bool (key y) (key x)); [reflexivity|].
  rewrite IH. apply perm_swap.
Qed.

Lemma sortDesc_perm (l : list EvidenceItem) :
  Permutation (sortDesc key l) l.
Proof.
  induction l as [|x l IH]; simpl; [reflexivity|].
  rewrite insertDesc_perm. now constructor.
Qed.

Lemma insertDesc_sorted (x : EvidenceItem) (l : list EvidenceItem) :
  StronglySorted (notBelow key) l -> StronglySorted (notBelow key) (insertDesc key x l).
Proof.
  induction l as [|y l IH]; intros Hs; simpl.
  - repeat constructor.
  - inversion Hs as [|? ? Hl Hy]; subst.
    destruct (Qle_bool (key y) (key x)) eqn:E.
    + apply Qle_bool_iff in E.
      constructor; [exact Hs|].
      constructor; [exact E|].
      eapply Forall_impl; [|exact Hy].
      intros z Hz. unfold notBelow in *. eapply Qle_trans; eauto.
    + assert (Hlt : (key x < key y)%Q).
      { apply Qnot_le_lt. intros H. apply Qle_bool_iff in H. congruence. }
      constructor; [now apply IH|].
      apply Forall_forall. intros z Hz.
      apply (Permutation_in _ (insertDesc_perm x l)) in Hz.
      destruct Hz as [<- | Hz].
      * now apply Qlt_le_weak.
      * rewrite Forall_forall in Hy. now apply Hy.
Qed.

Lemma sortDesc_sorted (l : list EvidenceItem) :
  StronglySorted (notBelow key) (sortDesc key l).
Proof.
  induction l as [|x l IH]; simpl; [constructor|].
  now apply insertDesc_sorted.
Qed.

Lemma insertDesc_stable (v : Q) (x : EvidenceItem)
    (l : list EvidenceItem) :
  filter (tiedAt key v) (insertDesc key x l) = filter (tiedAt key v) (x :: l).
Proof.
  induction l as [|y l IH]; [reflexivity|].
  simpl insertDesc.
  destruct (Qle_bool (key y) (key x)) eqn:E; [reflexivity|].
  assert (Hlt : (key x < key y)%Q).
  { apply Qnot_le_lt. intros H. apply Qle_bool_iff in H. congruence. }
  change (filter (tiedAt key v) (y :: insertDesc key x l))
    with (if tiedAt key v y then y :: filter (tiedAt key v) (insertDesc key x l)
          else filter (tiedAt key v) (insertDesc key x l)).
  rewrite IH. simpl.
  destruct (tiedAt key v x) eqn:Tx, (tiedAt key v y) eqn:Ty; try reflexivity.
  exfalso. unfold tiedAt in *.
  apply Qeq_bool_iff in Tx, Ty.
  apply (Qlt_not_eq _ _ Hlt). now rewrite Tx, Ty.
Qed.

Lemma sortDesc_stable (v : Q) (l : list EvidenceItem) :
  filter (tiedAt key v) (sortDesc key l) = filter (tiedAt key v) l.
Proof.
  induction l as [|x l IH]; [reflexivity|].
  simpl sortDesc. rewrite insertDesc_stable. simpl. now rewrite IH.
Qed.

End Sorting.

End EvidenceFacts.

(** ** The reranker *)

Section RerankFacts.
Import Research.
Local Open Scope Q_scope.

Variable sc : Scorer.
Variable strategy : Strategy.
Variable query : string.

Lemma identity_withRerankScore (s : Q) (e : EvidenceItem) :
  identity (withRerankScore s e) = identity e.
Proof. reflexivity. Qed.

Lemma rerank_identities (batch : list EvidenceItem) :
  Permutation (map identity (rerank sc strategy query batch))
              (map identity batch).
Proof.
  unfold rerank. rewrite map_map. simpl.
  apply Permutation_map, sortDesc_perm.
Qed.

Lemma rerank_perm (batch : list EvidenceItem) :
  Permutation
    (rerank sc strategy query batch)
    (map (fun e => withRerankScore (scoreOf sc strategy query batch e) e)
         batch).
Proof. unfold rerank. apply Permutation_map, sortDesc_perm. Qed.

Lemma rerank_sorted (batch : list EvidenceItem) :
  StronglySorted (notBelow rerankKey) (rerank sc strategy query batch).
Proof.
  unfold rerank.
  generalize (sortDesc_sorted (scoreOf sc strategy query batch) batch).
  generalize (sortDesc (scoreOf sc strategy query batch) batch) as l.
  induction l as [|x l IH]; intros Hs; simpl; [constructor|].
  inversion Hs as [|? ? Hl Hx]; subst.
  constructor; [now apply IH|].
  apply Forall_forall. intros z Hz.
  apply in_map_iff in Hz as (y & <- & Hy).
  rewrite Forall_forall in Hx. exact (Hx y Hy).
Qed.

Lemma rerank_stable (batch : list EvidenceItem) (v : Q) :
  filter (tiedAt rerankKey v) (rerank sc strategy query batch)
  = filter (tiedAt rerankKey v)
      (map (fun e => withRerankScore (scoreOf sc strategy query batch e) e)
           batch).
Proof.
  unfold rerank. rewrite !filter_map_swap. f_equal.
  apply (sortDesc_stable (scoreOf sc strategy query batch) v batch).
Qed.

Lemma sorted_later_not_above (key : EvidenceItem -> Q)
    (before : list EvidenceItem) (a : EvidenceItem)
    (after : list EvidenceItem) (b : EvidenceItem) :
  StronglySorted (notBelow key) (before ++ a :: after) ->
  In b after -> key b <= key a.
Proof.
  induction before as [|x before IH]; simpl; intros Hs Hb.
  - inversion Hs as [|? ? _ Ha]; subst.
    rewrite Forall_forall in Ha. exact (Ha b Hb).
  - inversion Hs; subst. now apply IH.
Qed.

Lemma rerank_length (batch : list EvidenceItem) :
  List.length (rerank sc strategy query batch) = List.length batch.
Proof.
  unfold rerank. rewrite length_map.
  apply Permutation_length, sortDesc_perm.
Qed.

End RerankFacts.

Section HybridFacts.
Import Research.
Local Open Scope Q_scope.

Lemma hybridScore_range (n m : Q) :
  0 <= n <= 1 -> 0 <= m <= 1 -> 0 <= hybridScore n m <= 1.
Proof. unfold hybridScore, w1, w2. intros Hn Hm. split; lra. Qed.

(** C3: on a batch whose normalized raw scores and model scores are all
    within [0,1], the hybrid reranker gives every candidate the score
    0.3 * normalizedRawScore + 0.7 * modelScore, which is within [0,1];
    its output holds exactly the candidates of the batch, each with that
    score stored, in descending order of the score (a later element
    never has a higher score, and has a strictly lower one unless the two
    tie), and the candidates that tie at a score come in the order the
    batch had them. *)
Theorem hybrid_rerank_scores_and_order (sc : Scorer) (query : string)
    (batch : list EvidenceItem) :
  (forall e, In e batch ->
     0 <= normalizeRaw sc batch e <= 1
     /\ exists m, modelScore sc query e = Some m /\ 0 <= m <= 1) ->
  let score := scoreOf sc hybrid query batch in
  let scored := map (fun e => withRerankScore (score e) e) batch in
  let out := rerank sc hybrid query batch in
  (forall e, In e batch ->
     exists m, modelScore sc query e = Some m
               /\ score e = (3 # 10) * normalizeRaw sc batch e + (7 # 10) * m
               /\ 0 <= score e <= 1)
  /\ Permutation out scored
  /\ (forall o, In o out ->
        exists s, rerankScore o = Some s /\ 0 <= s <= 1)
  /\ StronglySorted (fun a b => rerankKey b <= rerankKey a) out
  /\ (forall before a between b after,
        out = before ++ a :: between ++ b :: after ->
        ~ rerankKey a == rerankKey b -> rerankKey b < rerankKey a)
  /\ (forall v, filter (fun e => Qeq_bool (rerankKey e) v) out
                = filter (fun e => Qeq_bool (rerankKey e) v) scored).
Proof.
  intros H score scored out.
  assert (Hscore : forall e, In e batch ->
            exists m, modelScore sc query e = Some m
              /\ score e = (3 # 10) * normalizeRaw sc batch e + (7 # 10) * m
              /\ 0 <= score e <= 1).
  { intros e He. destruct (H e He) as (Hn & m & Hm & Hr).
    exists m. split; [exact Hm|].
    unfold score, scoreOf. rewrite Hm.
    split; [reflexivity | now apply hybridScore_range]. }
  split; [exact Hscore|].
  split; [apply rerank_perm|].
  split.
  { intros o Ho.
    apply (Permutation_in _ (rerank_perm sc hybrid query batch)) in Ho.
    apply in_map_iff in Ho as (e & <- & He).
    destruct (Hscore e He) as (m & _ & _ & Hr).
    exists (score e). split; [reflexivity | exact Hr]. }
  split; [apply rerank_sorted|].
  split; [|apply rerank_stable].
  intros before a between b after Hout Hneq.
  assert (Hle : rerankKey b <= rerankKey a).
  { apply (@sorted_later_not_above rerankKey before a
             (between ++ b :: after) b).
    - rewrite <- Hout. apply rerank_sorted.
    - apply in_or_app. right. now left. }
  apply Qle_lteq in Hle as [Hlt | Heq]; [exact Hlt|].
  exfalso. apply Hneq. now symmetry.
Qed.

End HybridFacts.

(** ** Absorbing a batch into the pool *)

Section AbsorbFacts.
Import Research.

Variable cfg : Config.
Variable sc : Scorer.
Variable query : string.

Lemma survivors_NoDup (pool batch : list EvidenceItem) :
  NoDup (map identity (survivors cfg sc query pool batch)).
Proof.
  unfold survivors. rewrite <- firstn_map. apply NoDup_firstn.
  eapply Permutation_NoDup.
  - symmetry. apply rerank_identities.
  - apply dedupe_NoDup.
Qed.

Lemma survivors_fresh (pool batch : list EvidenceItem) (x : SourceId) :
  In x (map identity (survivors cfg sc query pool batch)) ->
  In x (map identity (freshCandidates pool batch)).
Proof.
  unfold survivors. rewrite <- firstn_map. intros H.
  apply firstn_incl in H.
  eapply Permutation_in; [apply rerank_identities | exact H].
Qed.

Lemma survivors_length (pool batch : list EvidenceItem) :
  List.length (survivors cfg sc query pool batch) <= rerankingTopK cfg.
Proof. apply firstn_le_length. Qed.

Lemma absorb_NoDup (pool batch : list EvidenceItem) :
  NoDup (map identity pool) ->
  NoDup (map identity (absorb cfg sc query pool batch)).
Proof.
  intros Hp. unfold absorb. rewrite map_app.
  apply NoDup_app; [exact Hp | apply survivors_NoDup|].
  intros x Hx Hs. apply survivors_fresh in Hs.
  apply in_map_iff in Hs as (e & <- & He).
  now apply dedupe_In in He as [_ He].
Qed.

Lemma absorb_all_known (pool batch : list EvidenceItem) :
  (forall e, In e batch -> In (identity e) (map identity pool)) ->
  absorb cfg sc query pool batch = pool.
Proof.
  intros H. unfold absorb, survivors, freshCandidates.
  rewrite (dedupe_all_known _ _ H). unfold rerank. simpl.
  rewrite firstn_nil. apply app_nil_r.
Qed.

Lemma absorbAll_NoDup (batches : list (list EvidenceItem))
    (pool : list EvidenceItem) :
  NoDup (map identity pool) ->
  NoDup (map identity (absorbAll cfg sc query pool batches)).
Proof.
  unfold absorbAll. revert pool.
  induction batches as [|b bs IH]; intros pool H; simpl; [exact H|].
  apply IH. now apply absorb_NoDup.
Qed.

Lemma absorb_occurrences (pool batch : list EvidenceItem) (x : SourceId) :
  NoDup (map identity pool) ->
  occurrences x (absorb cfg sc query pool batch) <= 1
  /\ (occurrences x (absorb cfg sc query pool batch) = 1 <->
      In x (map identity pool)
      \/ In x (map identity (survivors cfg sc query pool batch))).
Proof.
  intros Hp. pose proof (absorb_NoDup pool batch Hp) as Hnd.
  unfold occurrences. split.
  - now apply (proj1 (NoDup_count_occ SourceId_eq_dec _)).
  - split.
    + intros H1.
      assert (Hin : In x (map identity (absorb cfg sc query pool batch))).
      { apply (count_occ_In SourceId_eq_dec). rewrite H1. lia. }
      unfold absorb in Hin. rewrite map_app in Hin.
      now apply in_app_or in Hin.
    + intros Hin.
      apply (proj1 (NoDup_count_occ' SourceId_eq_dec _)); [exact Hnd|].
      unfold absorb. rewrite map_app. now apply in_or_app.
Qed.

Lemma absorb_nothing (pool : list EvidenceItem) :
  absorb cfg sc query pool [] = pool.
Proof. apply absorb_all_known. intros e []. Qed.

End AbsorbFacts.

(** ** The controller *)

Section ControllerFacts.
Import Research.

Variable env : Services.

Lemma run_step (n : nat) (s : ResearchState) :
  run env (S n) s = step env (run env n s).
Proof.
  revert s. induction n as [|n IH]; intros s; [reflexivity|].
  change (run env (S (S n)) s) with (run env (S n) (step env s)).
  now rewrite IH.
Qed.

Lemma run_invariant (P : ResearchState -> Prop) :
  (forall s, P s -> P (step env s)) ->
  forall n s, P s -> P (run env n s).
Proof.
  intros Hstep n. induction n as [|n IH]; intros s Hs; simpl; auto.
Qed.

Lemma step_pool (s : ResearchState) :
  evidencePool (step env s) = evidencePool s
  \/ evidencePool (step env s)
     = absorb (config s) (scorer env) (question s) (evidencePool s)
             (fanOut env (config s) (loopCount s) (activeQueries s)).
Proof.
  unfold step.
  destruct (phase s); simpl; auto.
  - destruct (cancelRequested env RETRIEVING (loopCount s)); simpl; auto.
  - destruct (cancelRequested env REFLECTING (loopCount s)); simpl; auto.
    unfold reflecting.
    destruct (r_isSufficient (reflect env s)
              || (maxLoops (config s) <=? loopCount s + 1)); simpl; auto.
Qed.

Lemma step_config (s : ResearchState) : config (step env s) = config s.
Proof.
  unfold step.
  destruct (phase s); simpl; auto.
  - destruct (cancelRequested env RETRIEVING (loopCount s)); reflexivity.
  - destruct (cancelRequested env REFLECTING (loopCount s)); simpl; auto.
    unfold reflecting.
    destruct (r_isSufficient (reflect env s)
              || (maxLoops (config s) <=? loopCount s + 1)); reflexivity.
Qed.

Lemma run_config (n : nat) (s : ResearchState) :
  config (run env n s) = config s.
Proof.
  revert s. induction n as [|n IH]; intros s; simpl; [reflexivity|].
  now rewrite IH, step_config.
Qed.

Lemma step_pool_NoDup (s : ResearchState) :
  NoDup (map identity (evidencePool s)) ->
  NoDup (map identity (evidencePool (step env s))).
Proof.
  intros H. destruct (step_pool s) as [-> | ->]; [exact H|].
  now apply absorb_NoDup.
Qed.

Lemma run_pool_NoDup (n : nat) (cfg : Config) (conv : list ChatMessage) :
  NoDup (map identity (evidencePool (run env n (initialState cfg conv)))).
Proof.
  apply (run_invariant (fun s => NoDup (map identity (evidencePool s)))).
  - apply step_pool_NoDup.
  - simpl. constructor.
Qed.

End ControllerFacts.

Section PoolClaims.
Import Research.

(** C2 (amended): a pool update whose items all have a source identity
    that is already in the pool leaves the pool as it is; whatever the
    sequence of updates, and in every state a session reaches, no two
    entries of the pool have the same source identity.  A chunk that two
    queries both retrieved is in the pool at most once after the update:
    once exactly when it was there before or is among the top N kept
    after re-ranking, which it is whenever the fresh candidates of the
    iteration are no more than N, and not at all otherwise. *)
Theorem evidence_pool_deduplicated :
  (forall cfg sc query pool batch,
      (forall e, In e batch -> In (identity e) (map identity pool)) ->
      absorb cfg sc query pool batch = pool)
  /\ (forall cfg sc query batches,
      NoDup (map identity (absorbAll cfg sc query [] batches)))
  /\ (forall env cfg conv n x,
      NoDup (map identity (evidencePool (run env n (initialState cfg conv))))
      /\ occurrences x (evidencePool (run env n (initialState cfg conv))) <= 1)
  /\ (forall cfg sc query pool firstQueryHits secondQueryHits chunk,
      NoDup (map identity pool) ->
      In chunk firstQueryHits -> In chunk secondQueryHits ->
      let batch := firstQueryHits ++ secondQueryHits in
      let after := absorb cfg sc query pool batch in
      occurrences (identity chunk) after <= 1
      /\ (occurrences (identity chunk) after = 1 <->
          In (identity chunk) (map identity pool)
          \/ In (identity chunk)
                (map identity (survivors cfg sc query pool batch)))
      /\ (occurrences (identity chunk) after = 0 <->
          ~ (In (identity chunk) (map identity pool)
             \/ In (identity chunk)
                   (map identity (survivors cfg sc query pool batch))))
      /\ (List.length (freshCandidates pool batch) <= rerankingTopK cfg ->
          occurrences (identity chunk) after = 1)).
Proof.
  split; [intros; now apply absorb_all_known|].
  split; [intros; apply absorbAll_NoDup; constructor|].
  split.
  { intros env cfg conv n x.
    pose proof (run_pool_NoDup env n cfg conv) as H.
    split; [exact H|]. unfold occurrences.
    now apply (proj1 (NoDup_count_occ SourceId_eq_dec _)). }
  intros cfg sc query pool r1 r2 chunk Hp H1 _ batch after.
  destruct (absorb_occurrences cfg sc query pool batch (identity chunk) Hp)
    as (Hle & Hiff).
  fold after in Hle, Hiff.
  split; [exact Hle|]. split; [exact Hiff|].
  split.
  { split; intros H.
    - rewrite <- Hiff. lia.
    - rewrite <- Hiff in H. lia. }
  intros Hall. apply Hiff.
  unfold survivors.
  rewrite firstn_all2 by (now rewrite rerank_length).
  destruct (dedupe_covers (map identity pool) batch chunk) as [H | H].
  - apply in_or_app. now left.
  - now left.
  - right. eapply Permutation_in; [symmetry; apply rerank_identities|].
    exact H.
Qed.

(** Counterexample to C2 as stated: both queries of a session retrieve
    the same chunk, five pages outrank it, and with the default top 5 the
    chunk is not in the pool at all, so not exactly once. *)
Lemma chunk_of_two_queries_outranked :
  let cfg := defaultConfig 1 in
  let final := session Samples.crowded cfg Samples.userTurn in
  let chunk := (document, "chunk-7"%string) in
  activeQueries final = ["solar capacity 2024"; "wind capacity 2024"]%string
  /\ In chunk (map identity
                 (vectorRetrieval Samples.crowded cfg 0 "solar capacity 2024"))
  /\ In chunk (map identity
                 (vectorRetrieval Samples.crowded cfg 0 "wind capacity 2024"))
  /\ phase final = FINALIZING
  /\ List.length (evidencePool final) = 5
  /\ occurrences chunk (evidencePool final) = 0
  /\ occurrences chunk (evidencePool final) <> 1.
Proof.
  cbv zeta. split; [reflexivity|].
  split; [simpl; auto|]. split; [simpl; auto|].
  split; [reflexivity|]. split; [reflexivity|].
  split; [reflexivity | vm_compute; discriminate].
Qed.

(** C6: with the default configuration the vector index is asked for
    the 10 nearest chunks at a similarity threshold of 0.3, and 5
    candidates are kept after re-ranking; in every configuration an
    iteration appends to the pool the first [rerankingTopK] candidates of
    the reranked batch, hence at most [rerankingTopK] items, and no
    transition of the controller makes the pool grow by more. *)
Theorem retrieval_defaults_and_top_n :
  (forall loops,
      vectorTopK (defaultConfig loops) = 10
      /\ vectorScoreThreshold (defaultConfig loops) = (3 # 10)%Q
      /\ rerankingTopK (defaultConfig loops) = 5)
  /\ (forall env loops loop query,
      vectorRetrieval env (defaultConfig loops) loop query
      = match vectorQuery env loop (embed env query) 10 (3 # 10)%Q with
        | Some matches => map chunkEvidence matches
        | None => []
        end)
  /\ (forall cfg sc query pool batch,
      absorb cfg sc query pool batch
      = pool ++ firstn (rerankingTopK cfg)
                  (rerank sc (rerankingStrategy cfg) query
                          (freshCandidates pool batch))
      /\ List.length (absorb cfg sc query pool batch)
         <= List.length pool + rerankingTopK cfg)
  /\ (forall env s,
      exists appended,
        evidencePool (step env s) = evidencePool s ++ appended
        /\ List.length appended <= rerankingTopK (config s)).
Proof.
  split; [intros; repeat split|].
  split; [reflexivity|].
  split.
  { intros cfg sc query pool batch. split; [reflexivity|].
    unfold absorb. rewrite length_app.
    pose proof (survivors_length cfg sc query pool batch). lia. }
  intros env s. destruct (step_pool env s) as [E | E]; rewrite E.
  - exists []. split; [now rewrite app_nil_r | simpl; lia].
  - eexists. split; [reflexivity | apply survivors_length].
Qed.

End PoolClaims.

(** ** Termination of the loop *)

Section LoopFacts.
Import Research.
Local Arguments Nat.max : simpl never.

Variable env : Services.

Ltac step_cases s :=
  unfold step, withinBudget, stepsLeft, roundsLeft, reflecting, retrieving,
    generating, setPhase in *;
  destruct (phase s) eqn:Hphase; simpl in *;
  try destruct (cancelRequested env RETRIEVING (loopCount s)); simpl in *;
  try destruct (cancelRequested env REFLECTING (loopCount s)); simpl in *;
  try destruct (r_isSufficient (reflect env s)) eqn:Hsuff; simpl in *;
  try destruct (maxLoops (config s) <=? loopCount s + 1) eqn:Hbudget;
  simpl in *;
  try rewrite Hphase in *; simpl in *;
  try match goal with
      | H : (_ <=? _) = true |- _ => apply Nat.leb_le in H
      | H : (_ <=? _) = false |- _ => apply Nat.leb_gt in H
      end.

Lemma initial_withinBudget (cfg : Config) (conv : list ChatMessage) :
  withinBudget (initialState cfg conv).
Proof. unfold withinBudget. simpl. lia. Qed.

Lemma step_withinBudget (s : ResearchState) :
  withinBudget s -> withinBudget (step env s).
Proof.
  intros [H1 H2].
  step_cases s; split; intros; try congruence; try lia;
    try (assert (loopCount s < Nat.max 1 (maxLoops (config s)))
           by (apply H2; discriminate); lia).
Qed.

Lemma run_withinBudget (n : nat) (s : ResearchState) :
  withinBudget s -> withinBudget (run env n s).
Proof. apply run_invariant, step_withinBudget. Qed.

Lemma step_stepsLeft (s : ResearchState) :
  withinBudget s -> stepsLeft (step env s) <= stepsLeft s - 1.
Proof.
  intros [H1 H2].
  step_cases s; try lia;
    try (assert (loopCount s < Nat.max 1 (maxLoops (config s)))
           by (apply H2; discriminate); lia).
Qed.

Lemma run_stepsLeft (n : nat) (s : ResearchState) :
  withinBudget s -> stepsLeft (run env n s) <= stepsLeft s - n.
Proof.
  revert s. induction n as [|n IH]; intros s H; simpl; [lia|].
  pose proof (IH _ (step_withinBudget H)).
  pose proof (step_stepsLeft H). lia.
Qed.

Lemma stepsLeft_zero (s : ResearchState) :
  withinBudget s -> stepsLeft s = 0 -> phase s = FINALIZING.
Proof.
  intros [H1 H2] H0. unfold stepsLeft, roundsLeft in H0.
  destruct (phase s) eqn:Hphase; try reflexivity;
    assert (loopCount s < Nat.max 1 (maxLoops (config s)))
      by (apply H2; discriminate); lia.
Qed.

Lemma stepsLeft_initial (cfg : Config) (conv : list ChatMessage) :
  stepsLeft (initialState cfg conv) <= sessionBound cfg.
Proof. unfold stepsLeft, roundsLeft, sessionBound. simpl. lia. Qed.

Lemma run_reaches_finalizing (cfg : Config) (conv : list ChatMessage)
    (n : nat) :
  sessionBound cfg <= n ->
  phase (run env n (initialState cfg conv)) = FINALIZING.
Proof.
  intros Hn.
  apply stepsLeft_zero.
  - apply run_withinBudget, initial_withinBudget.
  - pose proof (run_stepsLeft n (initial_withinBudget cfg conv)).
    pose proof (stepsLeft_initial cfg conv). lia.
Qed.

Lemma trace_iterations (n : nat) (s : ResearchState) :
  withinBudget s -> iterations (trace env n s) <= roundsLeft s.
Proof.
  revert s. induction n as [|n IH]; intros s H.
  - destruct H as [H1 H2]. unfold iterations, isReflecting, roundsLeft.
    simpl. destruct (phase s); simpl; try lia.
    assert (loopCount s < Nat.max 1 (maxLoops (config s)))
      by (apply H2; discriminate). lia.
  - pose proof (IH _ (step_withinBudget H)) as Hrest.
    change (iterations (trace env (S n) s))
      with (List.length (filter isReflecting (s :: trace env n (step env s)))).
    simpl filter. unfold iterations in Hrest.
    revert Hrest. generalize (filter isReflecting (trace env n (step env s))).
    intros rest Hrest.
    destruct H as [H1 H2]. unfold isReflecting.
    step_cases s; try lia;
      try (assert (loopCount s < Nat.max 1 (maxLoops (config s)))
             by (apply H2; discriminate); lia).
Qed.

Lemma reflecting_finalizes (s : ResearchState) :
  phase s = REFLECTING ->
  r_isSufficient (reflect env s) = true
  \/ isSufficient (step env s) = true
  \/ maxLoops (config s) <= loopCount s + 1 ->
  phase (step env s) = FINALIZING.
Proof.
  intros Hp H. unfold step. rewrite Hp.
  destruct (cancelRequested env REFLECTING (loopCount s)) eqn:Hc;
    [reflexivity|].
  unfold step in H. rewrite Hp, Hc in H. unfold reflecting in *.
  destruct (r_isSufficient (reflect env s)) eqn:Hs; simpl in *;
    [reflexivity|].
  destruct (maxLoops (config s) <=? loopCount s + 1) eqn:Hb; simpl in *;
    [reflexivity|].
  apply Nat.leb_gt in Hb.
  destruct H as [H | [H | H]]; try discriminate. lia.
Qed.

End LoopFacts.

Section LoopClaims.
Import Research.
Local Arguments Nat.max : simpl never.

(** C1: in every state a session reaches the loop count is at most
    [maxLoops] (and the configuration is the one it started with); the
    session is in [FINALIZING] after [sessionBound] transitions and stays
    there, having completed at most [maxLoops + 1] iterations, whatever
    the reflection calls answer; and from [REFLECTING], a sufficient
    verdict or an exhausted budget ([loopCount + 1 >= maxLoops]) leads to
    [FINALIZING], which is terminal. *)
Theorem loop_budget_and_termination (env : Services) (cfg : Config)
    (conv : list ChatMessage) :
  (forall n,
      loopCount (run env n (initialState cfg conv)) <= maxLoops cfg
      /\ config (run env n (initialState cfg conv)) = cfg)
  /\ (forall n, sessionBound cfg <= n ->
                phase (run env n (initialState cfg conv)) = FINALIZING)
  /\ phase (session env cfg conv) = FINALIZING
  /\ (forall n,
      iterations (trace env n (initialState cfg conv)) <= maxLoops cfg + 1)
  /\ (forall s,
      phase s = REFLECTING ->
      r_isSufficient (reflect env s) = true
      \/ isSufficient (step env s) = true
      \/ maxLoops (config s) <= loopCount s + 1 ->
      phase (step env s) = FINALIZING)
  /\ (forall s, phase s = FINALIZING -> step env s = s).
Proof.
  split.
  { intros n.
    pose proof (run_withinBudget env n (initial_withinBudget cfg conv))
      as [H _].
    rewrite run_config in *. simpl in *. split; [exact H | reflexivity]. }
  split; [intros n Hn; now apply run_reaches_finalizing|].
  split; [apply run_reaches_finalizing; constructor|].
  split.
  { intros n.
    pose proof (trace_iterations env n (initial_withinBudget cfg conv)) as H.
    unfold roundsLeft in H. simpl in H. lia. }
  split; [intros s; apply reflecting_finalizes|].
  intros s H. unfold step. now rewrite H.
Qed.

Lemma loop_budget_and_termination_witness :
  let s := run Samples.offline 2
               (initialState (defaultConfig 1) Samples.userTurn) in
  phase s = REFLECTING /\ phase (step Samples.offline s) = FINALIZING.
Proof.
  cbv zeta.
  destruct (loop_budget_and_termination Samples.offline (defaultConfig 1)
              Samples.userTurn) as (_ & _ & _ & _ & H & _).
  split; [reflexivity|].
  apply H; [reflexivity|].
  right. right. vm_compute. constructor.
Defined.

End LoopClaims.

(** ** The query generator *)

Section GeneratorFacts.
Import JsString Research.

Lemma includes_In (seen : list string) (x : string) :
  includes seen x = true <-> In x seen.
Proof.
  unfold includes. rewrite existsb_exists. split.
  - intros (y & Hy & E). apply String.eqb_eq in E. now subst.
  - intros H. exists x. split; [exact H | apply String.eqb_refl].
Qed.

Lemma usableQueries_In (seen raw : list string) (q : string) :
  In q (usableQueries seen raw) ->
  q <> EmptyString /\ ~ In (toLowerCase q) seen
  /\ exists r, In r raw /\ q = trim r.
Proof.
  revert seen. induction raw as [|r raw IH]; intros seen; simpl; [tauto|].
  destruct (String.eqb_spec (trim r) EmptyString) as [E | E]; simpl.
  - intros H. destruct (IH _ H) as (H1 & H2 & r' & Hr & Hq).
    repeat split; auto. exists r'. auto.
  - destruct (includes seen (toLowerCase (trim r))) eqn:K.
    + intros H. destruct (IH _ H) as (H1 & H2 & r' & Hr & Hq).
      repeat split; auto. exists r'. auto.
    + intros [<- | H].
      * repeat split; auto.
        -- intros Hin. apply includes_In in Hin. congruence.
        -- exists r. auto.
      * destruct (IH _ H) as (H1 & H2 & r' & Hr & Hq).
        repeat split; auto.
        -- intros Hin. apply H2. now right.
        -- exists r'. auto.
Qed.

Lemma usableQueries_distinct (seen raw : list string) :
  NoDup (map toLowerCase (usableQueries seen raw)).
Proof.
  revert seen. induction raw as [|r raw IH]; intros seen; simpl;
    [constructor|].
  destruct (String.eqb (trim r) EmptyString
            || includes seen (toLowerCase (trim r))); [apply IH|].
  simpl. constructor; [|apply IH].
  intros Hin. apply in_map_iff in Hin as (q & Hq & Hin).
  apply usableQueries_In in Hin as (_ & Hin & _).
  apply Hin. left. congruence.
Qed.

End GeneratorFacts.

(** ** Worked instances *)

Section Instances.
Import Research.

Lemma evidence_pool_deduplicated_witness :
  let cfg := defaultConfig 1 in
  let pool := [Samples.chunk "chunk-7" (1 # 2)%Q;
               Samples.page "https://example.org/a" (9 # 10)%Q] in
  absorb cfg Samples.evenScorer "solar" pool
         [Samples.chunk "chunk-7" (3 # 4)%Q] = pool
  /\ occurrences (Research.document, "chunk-7"%string)
       (absorb cfg Samples.evenScorer "solar"
          [Samples.page "https://example.org/a" (9 # 10)%Q]
          ([Samples.chunk "chunk-7" (1 # 2)%Q]
           ++ [Samples.chunk "chunk-2" (1 # 4)%Q;
               Samples.chunk "chunk-7" (1 # 2)%Q])) = 1.
Proof.
  destruct evidence_pool_deduplicated as (Hidem & _ & _ & Honce).
  split.
  - apply Hidem. intros e [<- | []]. simpl. auto.
  - apply (Honce (defaultConfig 1) Samples.evenScorer "solar"%string
                 [Samples.page "https://example.org/a" (9 # 10)%Q]
                 [Samples.chunk "chunk-7" (1 # 2)%Q]
                 [Samples.chunk "chunk-2" (1 # 4)%Q;
                  Samples.chunk "chunk-7" (1 # 2)%Q]
                 (Samples.chunk "chunk-7" (1 # 2)%Q)).
    + simpl. repeat constructor. simpl. tauto.
    + simpl. auto.
    + simpl. auto.
    + vm_compute. lia.
Defined.

Lemma hybrid_rerank_scores_and_order_witness :
  let out := rerank Samples.evenScorer hybrid "solar capacity"
                    Samples.mixedBatch in
  map id out = ["https://example.org/a"; "chunk-7"; "chunk-2"]
  /\ (forall o, In o out ->
        exists s, rerankScore o = Some s /\ (0 <= s <= 1)%Q).
Proof.
  cbv zeta. split; [reflexivity|].
  refine (proj1 (proj2 (proj2
    (hybrid_rerank_scores_and_order Samples.evenScorer "solar capacity"
       Samples.mixedBatch _)))).
  intros e He. simpl in He.
  destruct He as [<- | [<- | [<- | []]]]; simpl;
    (split; [split; discriminate|]);
    exists (1 # 2)%Q; (split; [reflexivity | split; discriminate]).
Defined.

End Instances.

(* ================================================================= *)
(** * Further properties of the front end *)

(** ** The uploader component *)

Section FileUploaderFacts.
Import JsString UploadFile FileUploader.

Lemma toLowerCase_append (a b : string) :
  toLowerCase (a ++ b) = (toLowerCase a ++ toLowerCase b)%string.
Proof.
  induction a as [|c a IH]; simpl; [reflexivity | now rewrite IH].
Qed.

Lemma lowerChar_dot (c : ascii) :
  Ascii.eqb (lowerChar c) dot = Ascii.eqb c dot.
Proof. destruct c as [[] [] [] [] [] [] [] []]; reflexivity. Qed.

Lemma hasDot_toLowerCase (s : string) : hasDot (toLowerCase s) = hasDot s.
Proof.
  induction s as [|c s IH]; simpl; [reflexivity|].
  now rewrite lowerChar_dot, IH.
Qed.

Lemma hasDot_append_dot (a b : string) :
  hasDot (a ++ String dot b) = true.
Proof.
  induction a as [|c a IH]; simpl; [reflexivity|].
  rewrite IH. apply orb_true_r.
Qed.

Lemma afterLastDot_append (a e : string) :
  hasDot e = false -> afterLastDot (a ++ String dot e) = e.
Proof.
  intros He. induction a as [|c a IH]; simpl.
  - now rewrite He.
  - now rewrite hasDot_append_dot.
Qed.

Lemma extensionOf_append (base ext : string) :
  hasDot ext = false ->
  extensionOf (base ++ String dot ext) = toLowerCase ext.
Proof.
  intros He. unfold extensionOf.
  rewrite extension_is_after_last_dot, toLowerCase_append. simpl.
  change (lowerChar dot) with dot.
  apply afterLastDot_append. now rewrite hasDot_toLowerCase.
Qed.

Lemma extensionOf_without_dot (ext : string) :
  hasDot ext = false -> extensionOf ext = toLowerCase ext.
Proof.
  intros He. unfold extensionOf. rewrite extension_is_after_last_dot.
  apply afterLastDot_without_dot. now rewrite hasDot_toLowerCase.
Qed.

(** X1: only what follows the last dot of a file name counts: whatever
    comes before it (a base name, earlier dots), a name that ends with a
    dot-free [ext] after a dot is classified as [ext] alone is; a name
    that ends with a dot is Unknown. *)
Theorem getFileType_ignores_what_precedes_the_last_dot
    (base ext : string) :
  hasDot ext = false ->
  extensionOf (base ++ ("." ++ ext)) = toLowerCase ext
  /\ getFileType (base ++ ("." ++ ext)) = getFileType ext
  /\ getFileType (base ++ ".") = "Unknown".
Proof.
  intros He.
  pose proof (extensionOf_append base ext He) as E1.
  pose proof (extensionOf_without_dot ext He) as E2.
  split; [exact E1|]. split.
  - unfold getFileType.
    change (base ++ ("." ++ ext))%string with (base ++ String dot ext)%string.
    now rewrite E1, E2.
  - unfold getFileType.
    change (base ++ ".")%string with (base ++ String dot "")%string.
    now rewrite (extensionOf_append base "" eq_refl).
Qed.

Lemma getFileType_ignores_what_precedes_the_last_dot_witness :
  getFileType "backup.2024.tar.PDF" = getFileType "PDF"
  /\ getFileType "notes." = "Unknown".
Proof.
  destruct (getFileType_ignores_what_precedes_the_last_dot
              "backup.2024.tar" "PDF" eq_refl) as (_ & H & _).
  destruct (getFileType_ignores_what_precedes_the_last_dot
              "notes" "" eq_refl) as (_ & _ & H').
  split; [exact H | exact H'].
Defined.

Lemma getFileType_values (filename : string) :
  In (getFileType filename)
     ["PDF"; "Word"; "PowerPoint"; "Excel"; "Text"; "Unknown"].
Proof.
  unfold getFileType.
  repeat match goal with
         | |- context [if ?b then _ else _] => destruct b
         end; simpl; tauto.
Qed.

(** X2: the colour of a badge tells PDF, Word, PowerPoint and Excel files
    apart from each other and from the rest, but not a text file from an
    unknown one: two files get the same colour exactly when they get the
    same type, or when each is Text or Unknown. *)
Theorem badge_colour_separates_types_except_text_and_unknown
    (f g : string) :
  getFileTypeColor (getFileType f) = getFileTypeColor (getFileType g)
  <-> (getFileType f = getFileType g
       \/ (In (getFileType f) ["Text"; "Unknown"]
           /\ In (getFileType g) ["Text"; "Unknown"])).
Proof.
  pose proof (getFileType_values f) as Hf.
  pose proof (getFileType_values g) as Hg.
  revert Hf Hg.
  generalize (getFileType f) as a. generalize (getFileType g) as b.
  intros b a Ha Hb. simpl in Ha, Hb.
  destruct Ha as [<- | [<- | [<- | [<- | [<- | [<- | []]]]]]];
    destruct Hb as [<- | [<- | [<- | [<- | [<- | [<- | []]]]]]];
    vm_compute; split; intros H;
    first [ discriminate H
          | left; reflexivity
          | right; split; tauto
          | reflexivity
          | (destruct H as [H | [[H | [H | []]] [H' | [H' | []]]]];
             discriminate) ].
Qed.

Lemma filterIndexed_remove {A : Type} (index k : nat) (l : list A) :
  filterIndexed (fun _ i => negb (i =? index)) k l
  = if index <? k then l
    else firstn (index - k) l ++ skipn (S (index - k)) l.
Proof.
  revert k. induction l as [|x l IH]; intros k; simpl.
  - destruct (index <? k); [reflexivity|].
    now rewrite firstn_nil.
  - rewrite IH.
    destruct (Nat.eqb_spec k index) as [-> | Hne]; simpl.
    + rewrite Nat.sub_diag. simpl.
      assert (H : (index <? S index) = true) by (apply Nat.ltb_lt; lia).
      rewrite H. now rewrite Nat.ltb_irrefl.
    + destruct (index <? k) eqn:Hk.
      * apply Nat.ltb_lt in Hk.
        assert (H : (index <? S k) = true) by (apply Nat.ltb_lt; lia).
        now rewrite H.
      * apply Nat.ltb_ge in Hk.
        assert (H : (index <? S k) = false) by (apply Nat.ltb_ge; lia).
        rewrite H.
        replace (index - k) with (S (index - S k)) by lia.
        reflexivity.
Qed.

(** X3: [removeFile] drops the file at the given position and nothing
    else: the files before it and after it stay, in order; with a position
    past the end the selection is unchanged; the other state of the
    component is never touched. *)
Theorem removeFile_drops_one_position (index : nat) (st : State) :
  files (removeFile index st)
  = firstn index (files st) ++ skipn (S index) (files st)
  /\ (index < List.length (files st) ->
      S (List.length (files (removeFile index st))) = List.length (files st))
  /\ (List.length (files st) <= index -> removeFile index st = st)
  /\ (forall j, j < index ->
        nth_error (files (removeFile index st)) j = nth_error (files st) j)
  /\ (forall j, index <= j ->
        nth_error (files (removeFile index st)) j
        = nth_error (files st) (S j))
  /\ status (removeFile index st) = status st
  /\ uploadProgress (removeFile index st) = uploadProgress st
  /\ uploadResult (removeFile index st) = uploadResult st.
Proof.
  assert (E : files (removeFile index st)
              = firstn index (files st) ++ skipn (S index) (files st)).
  { unfold removeFile. cbn [files setFiles]. rewrite filterIndexed_remove.
    change (index <? 0) with false. cbv iota.
    now rewrite Nat.sub_0_r. }
  split; [exact E|].
  split.
  { intros Hlt. rewrite E, length_app, length_firstn, length_skipn. lia. }
  split.
  { intros Hge. destruct st as [fs s p r]. unfold removeFile, setFiles.
    cbn [files status uploadProgress uploadResult] in *. f_equal.
    rewrite filterIndexed_remove.
    change (index <? 0) with false. cbv iota.
    rewrite Nat.sub_0_r, firstn_all2 by exact Hge.
    rewrite skipn_all2 by lia. apply app_nil_r. }
  split.
  { intros j Hj. rewrite E.
    destruct (Nat.lt_ge_cases index (List.length (files st))) as [Hl | Hl].
    - rewrite nth_error_app1 by (rewrite length_firstn; lia).
      rewrite nth_error_firstn.
      apply Nat.ltb_lt in Hj. now rewrite Hj.
    - rewrite firstn_all2 by exact Hl. rewrite skipn_all2 by lia.
      now rewrite app_nil_r. }
  split.
  { intros j Hj. rewrite E.
    destruct (Nat.lt_ge_cases index (List.length (files st))) as [Hl | Hl].
    - rewrite nth_error_app2 by (rewrite length_firstn; lia).
      rewrite length_firstn, nth_error_skipn.
      f_equal. lia.
    - rewrite firstn_all2 by exact Hl. rewrite skipn_all2 by lia.
      rewrite app_nil_r.
      transitivity (@None File);
        [|symmetry]; apply nth_error_None; lia. }
  repeat split.
Qed.

Lemma removeFile_drops_one_position_witness :
  let a := mkFile "a.pdf" 10 "application/pdf" in
  let b := mkFile "b.docx" 20 "" in
  let c := mkFile "c.txt" 30 "text/plain" in
  files (removeFile 1 (setFiles [a; b; c] initial)) = [a; c]
  /\ removeFile 3 (setFiles [a; b; c] initial) = setFiles [a; b; c] initial.
Proof.
  cbv zeta.
  pose proof (removeFile_drops_one_position 1
                (setFiles [mkFile "a.pdf" 10 "application/pdf";
                           mkFile "b.docx" 20 ""; mkFile "c.txt" 30 "text/plain"]
                          initial)) as H1.
  pose proof (removeFile_drops_one_position 3
                (setFiles [mkFile "a.pdf" 10 "application/pdf";
                           mkFile "b.docx" 20 ""; mkFile "c.txt" 30 "text/plain"]
                          initial)) as H3.
  destruct H1 as (H1 & _). destruct H3 as (_ & _ & H3 & _).
  split; [exact H1|]. apply H3. simpl. lia.
Defined.

Lemma underWay_keeps (progress : list Z) (st : State) :
  files (underWay progress st) = files st
  /\ status (underWay progress st) = uploading
  /\ uploadResult (underWay progress st) = uploadResult st.
Proof.
  unfold underWay.
  assert (H : forall s,
             files (fold_left (fun s p => onUploadProgress p s) progress s)
             = files s
             /\ status (fold_left (fun s p => onUploadProgress p s) progress s)
                = status s
             /\ uploadResult
                  (fold_left (fun s p => onUploadProgress p s) progress s)
                = uploadResult s).
  { induction progress as [|p ps IH]; intros s; simpl; [tauto|].
    destruct (IH (onUploadProgress p s)) as (H1 & H2 & H3).
    rewrite H1, H2, H3. repeat split. }
  destruct (H (setUploadProgress 0 (setStatus uploading st))) as (H1 & H2 & H3).
  rewrite H1, H2, H3. repeat split.
Qed.

(** X4: [handleFileUpload] with nothing selected does nothing at all.
    Otherwise it posts one request whose form data holds the selected
    files, in order, each under the field [files]; while the request is
    under way the status is [uploading]; when it ends the status is
    [success] with the progress at 100 and the response stored, or [error]
    with the progress at 0 and the stored response of an earlier upload
    left as it was, whatever progress was reported in between; the
    selection is kept in both cases. *)
Theorem handleFileUpload_outcome (result : PostResult) (progress : list Z)
    (st : State) :
  let st' := fst (handleFileUpload result progress st) in
  let posts := snd (handleFileUpload result progress st) in
  (files st = [] -> st' = st /\ posts = [])
  /\ (files st <> [] ->
      posts = [mkPost "http://127.0.0.1:2024/uploadfile/"
                      (map (fun file => ("files"%string, file)) (files st))]
      /\ status (underWay progress st) = uploading
      /\ files st' = files st
      /\ match result with
         | PostResolves data =>
             status st' = success /\ uploadProgress st' = 100%Z
             /\ uploadResult st' = Some data
         | PostRejects =>
             status st' = error /\ uploadProgress st' = 0%Z
             /\ uploadResult st' = uploadResult st
         end).
Proof.
  intros st' posts. subst st' posts. unfold handleFileUpload.
  destruct (underWay_keeps progress st) as (Hf & Hs & Hr).
  destruct (files st) as [|f fs] eqn:E.
  - split; [auto | congruence].
  - split; [discriminate|]. intros _.
    split; [reflexivity|]. split; [exact Hs|].
    destruct result; simpl; rewrite ?Hf, ?Hr; repeat split.
Qed.

Lemma handleFileUpload_outcome_witness :
  let st := setFiles [mkFile "a.pdf" 10 "application/pdf"] initial in
  status (fst (handleFileUpload PostRejects [10%Z; 55%Z] st)) = error
  /\ handleFileUpload PostRejects [] initial = (initial, []).
Proof.
  cbv zeta.
  pose proof (handleFileUpload_outcome PostRejects [10%Z; 55%Z]
                (setFiles [mkFile "a.pdf" 10 "application/pdf"] initial))
    as H.
  pose proof (handleFileUpload_outcome PostRejects [] initial) as H0.
  cbv zeta in H, H0. destruct H as [_ H]. destruct H0 as [H0 _].
  split.
  - destruct H as (_ & _ & _ & H & _); [discriminate | exact H].
  - destruct (H0 eq_refl) as [E1 E2].
    rewrite (surjective_pairing (handleFileUpload PostRejects [] initial)).
    now rewrite E1, E2.
Defined.

End FileUploaderFacts.

(** ** The question box *)

Section InputFormFacts.
Import JsString InputForm.

Lemma blank_allWhiteSpace (value : string) :
  blank value = allWhiteSpace value.
Proof.
  unfold blank. destruct (allWhiteSpace value) eqn:E.
  - apply trim_empty_iff in E. now rewrite E.
  - destruct (trim value) eqn:T; [|reflexivity].
    apply trim_empty_iff in T. congruence.
Qed.

(** X5: a question that is empty or all white space is never submitted,
    by the button or by the keyboard, and the box keeps it.  Any other
    question is passed to [onSubmit] as typed (not trimmed) with the
    selected effort, and the box is cleared.  Ctrl+Enter and Cmd+Enter
    submit it also while a search is loading, when the button is
    disabled. *)
Theorem question_box_submits_non_blank_input (st : State) (e : KeyEvent) :
  (allWhiteSpace (internalInputValue st) = true ->
   handleInternalSubmit st = (None, st)
   /\ snd (fst (handleKeyDown e st)) = None
   /\ snd (handleKeyDown e st) = st
   /\ (forall isLoading, clickSearch isLoading st = (None, st)))
  /\ (allWhiteSpace (internalInputValue st) = false ->
      let cleared := {| internalInputValue := ""; effort := effort st;
                        isSaving := isSaving st |} in
      handleInternalSubmit st
      = (Some (internalInputValue st, effort st), cleared)
      /\ clickSearch false st = handleInternalSubmit st
      /\ clickSearch true st = (None, st)
      /\ isSubmitDisabled true st = true
      /\ (key e = "Enter"%string -> ctrlKey e = true \/ metaKey e = true ->
          handleKeyDown e st
          = (true, Some (internalInputValue st, effort st), cleared))
      /\ (key e <> "Enter"%string \/ (ctrlKey e = false /\ metaKey e = false) ->
          handleKeyDown e st = (false, None, st))).
Proof.
  unfold handleKeyDown, clickSearch, isSubmitDisabled, handleInternalSubmit.
  rewrite blank_allWhiteSpace.
  split; intros Hb; rewrite Hb; simpl.
  - split; [reflexivity|].
    destruct (String.eqb (key e) "Enter" && (ctrlKey e || metaKey e));
      repeat split.
  - split; [reflexivity|]. split; [reflexivity|].
    split; [reflexivity|]. split; [reflexivity|].
    split.
    + intros Hk Hm. apply String.eqb_eq in Hk. rewrite Hk.
      destruct Hm as [-> | ->]; simpl; rewrite ?orb_true_r; reflexivity.
    + intros [Hk | [-> ->]].
      * apply String.eqb_neq in Hk. now rewrite Hk.
      * now rewrite andb_false_r.
Qed.

Lemma question_box_submits_non_blank_input_witness :
  let st := {| internalInputValue := " what is RAG? "; effort := "high";
               isSaving := false |} in
  fst (handleInternalSubmit st) = Some (" what is RAG? ", "high")%string
  /\ handleInternalSubmit initial = (None, initial).
Proof.
  cbv zeta.
  pose proof (question_box_submits_non_blank_input
                {| internalInputValue := " what is RAG? "; effort := "high";
                   isSaving := false |}
                (mkKeyEvent "a" false false)) as [_ H].
  pose proof (question_box_submits_non_blank_input initial
                (mkKeyEvent "a" false false)) as [H0 _].
  split.
  - destruct (H eq_refl) as (E & _). now rewrite E.
  - now destruct (H0 eq_refl) as (E & _).
Defined.

End InputFormFacts.

(** ** The other callbacks of the hook *)

Section ChatHistoryRestFacts.
Import JsString Chat ChatHistory ChatHistoryRest.
Local Open Scope Z_scope.

Ltac run_hook :=
  unfold loadConversation, saveConversation, getConversations,
    saveMessage, updateConversationTitle, autoGenerateTitle,
    tryFinally, tryCatch, bind, ret, throw, fetch, text, json,
    contentString, toISOString, setCurrentConversation, setError,
    setIsLoading, setHook, okBody, saveSucceeds, saveRequest,
    titleAccepted, titleRequest in *.

Ltac answer_of w req :=
  let resp := fresh "resp" in
  destruct (server w req) as [? | resp];
  [| destruct resp as [[] ? [?|] [?|]]]; cbn in *.

(** X6: [loadConversation] always ends with the loading flag down.  When
    the conversation itself cannot be fetched, the messages are not asked
    for, the current conversation stays, the error is recorded and the
    call rejects.  When it can, it becomes the current conversation at
    once: if the messages then fail to load, or load as something that is
    no array of messages, the call rejects and records the error, but the
    current conversation has already changed; if they load as an array,
    the call returns them in order, each with its id, type and text, and
    the error state is clear. *)
Theorem loadConversation_outcome (base : string)
    (readConversation : string -> Conversation)
    (readMessages : string -> option (list MessageData)) (cid : string)
    (w : World) :
  let first := get (conversationUrl base cid) in
  let second := get (messagesPageUrl base cid) in
  let r := loadConversation base readConversation readMessages cid w in
  let w' := snd r in
  isLoading (hook w') = false
  /\ (okBody w first = None ->
      (exists e, fst r = Threw e)
      /\ sent w' = sent w ++ [first]
      /\ currentConversation (hook w') = currentConversation (hook w)
      /\ exists m, error (hook w') = Some m)
  /\ (forall body, okBody w first = Some body ->
      currentConversation (hook w') = Some (readConversation body)
      /\ sent w' = sent w ++ [first; second]
      /\ (okBody w second = None ->
          (exists e, fst r = Threw e) /\ exists m, error (hook w') = Some m)
      /\ (forall body2, okBody w second = Some body2 ->
          (readMessages body2 = None ->
           (exists e, fst r = Threw e)
           /\ exists m, error (hook w') = Some m)
          /\ (forall rows, readMessages body2 = Some rows ->
              fst r = Returned (map toLangGraph rows)
              /\ error (hook w') = None))).
Proof.
  cbv zeta. run_hook. cbn.
  answer_of w (get (conversationUrl base cid));
    try (split; [reflexivity|]; split;
         [ intros _; repeat split; eauto
         | intros body Hb; discriminate Hb ]; fail).
  all: rewrite <- app_assoc; cbn.
  all: answer_of w (get (messagesPageUrl base cid)).
  all: try match goal with
           | |- context [match ?x with Some _ => _ | None => _ end] =>
               destruct x as [rows|] eqn:Hrows; cbn
           end.
  all: split; [reflexivity|]; split; [intros Hb; discriminate Hb|].
  all: intros body Hb; inversion Hb; subst.
  all: split; [reflexivity|]; split; [reflexivity|]; split;
    [ intros Hn; first [discriminate Hn | split; eauto]
    | intros body2 Hb2;
      first [ discriminate Hb2
            | inversion Hb2; subst; split;
              [ intros Hn; first [congruence | split; eauto]
              | intros rows' Hr; first [congruence | idtac];
                rewrite Hrows in Hr; inversion Hr; subst;
                split; reflexivity ] ] ].
Qed.

Lemma loadConversation_outcome_witness :
  let w := FrontSamples.worldOn None FrontSamples.library in
  let r := loadConversation Samples.base FrontSamples.readConversation
             FrontSamples.readMessages "c7" w in
  let broken := loadConversation Samples.base FrontSamples.readConversation
                  FrontSamples.readMessages "c7"
                  (Samples.worldWith (Responds Samples.okResponse)) in
  (fst r = Returned (map toLangGraph FrontSamples.storedMessages)
   /\ currentConversation (hook (snd r)) = Some FrontSamples.stored
   /\ isLoading (hook (snd r)) = false)
  /\ ((exists e, fst broken = Threw e)
      /\ exists m, error (hook (snd broken)) = Some m).
Proof.
  cbv zeta. split.
  - pose proof (loadConversation_outcome Samples.base
                  FrontSamples.readConversation FrontSamples.readMessages
                  "c7" (FrontSamples.worldOn None FrontSamples.library)) as H.
    cbv zeta in H. destruct H as (H0 & _ & H).
    destruct (H FrontSamples.conversationBody eq_refl) as (H1 & _ & _ & H4).
    destruct (H4 FrontSamples.messagesBody eq_refl) as (_ & H5).
    destruct (H5 FrontSamples.storedMessages eq_refl) as (H6 & _).
    split; [exact H6|]. split; [exact H1 | exact H0].
  - pose proof (loadConversation_outcome Samples.base
                  FrontSamples.readConversation FrontSamples.readMessages
                  "c7" (Samples.worldWith (Responds Samples.okResponse)))
      as H.
    cbv zeta in H. destruct H as (_ & _ & H).
    destruct (H "{}"%string eq_refl) as (_ & _ & _ & H4).
    destruct (H4 "{}"%string eq_refl) as (H5 & _).
    exact (H5 eq_refl).
Defined.

Lemma saveMessage_effect (base : string) (captured : option Conversation)
    (cid : string) (msg : Message) (w : World) :
  let r := saveMessage base captured cid msg w in
  fst r = Returned tt
  /\ server (snd r) = server w
  /\ clock (snd r) = clock w
  /\ currentConversation (hook (snd r))
     = (if saveSucceeds base w cid msg && isCaptured captured cid
        then option_map (withNewMessage (clock w))
                        (currentConversation (hook w))
        else currentConversation (hook w)).
Proof.
  cbv zeta. run_hook.
  destruct msg as [ty [s | [s |]] mid]; cbn;
    try (repeat split; fail);
    match goal with
    | |- context [server w ?req] => answer_of w req
    end;
    try (repeat split; fail);
    destruct (isCaptured captured cid); cbn; repeat split;
    destruct (currentConversation (hook w)); reflexivity.
Qed.

Lemma updateConversationTitle_effect (base : string)
    (captured : option Conversation) (cid newTitle : string) (w : World) :
  let r := updateConversationTitle base captured cid newTitle w in
  server (snd r) = server w
  /\ clock (snd r) = clock w
  /\ isLoading (hook (snd r)) = isLoading (hook w)
  /\ sent (snd r) = sent w ++ [titleRequest base cid newTitle]
  /\ (if titleAccepted base w cid newTitle
      then fst r = Returned tt
           /\ error (hook (snd r)) = error (hook w)
           /\ currentConversation (hook (snd r))
              = (if isCaptured captured cid
                 then option_map (withTitle newTitle)
                                 (currentConversation (hook w))
                 else currentConversation (hook w))
      else (exists e, fst r = Threw e
                      /\ error (hook (snd r))
                         = Some (errorMessage e
                                   "Failed to update conversation title"))
           /\ currentConversation (hook (snd r))
              = currentConversation (hook w)).
Proof.
  cbv zeta. run_hook. cbn.
  match goal with
  | |- context [server w ?req] => answer_of w req
  end;
    try (repeat split; eauto; fail);
    destruct (isCaptured captured cid); cbn; repeat split;
    destruct (currentConversation (hook w)); reflexivity.
Qed.

(** X7: [updateConversationTitle] sends one PUT for the conversation.  If
    the server accepts it, the call resolves and the error state is left
    as it was.  The guard is on the conversation the callback was created
    with, not on the one in the hook's state: when the callback's
    conversation has the renamed id, the conversation in the state at
    that moment, whichever it is, gets the new title and keeps its id,
    count and dates; when it has not, the state is unchanged, also if the
    conversation in the state is the one renamed.  If the server does not
    accept, the call rejects, the error is recorded and the conversation
    is unchanged.  [autoGenerateTitle] turns that rejection into a normal
    return, but the error it caused stays recorded in the hook. *)
Theorem title_update_rejects_and_records (base : string)
    (captured : option Conversation) (cid newTitle : string) (w : World) :
  let r := updateConversationTitle base captured cid newTitle w in
  sent (snd r) = sent w ++ [titleRequest base cid newTitle]
  /\ (titleAccepted base w cid newTitle = true ->
      fst r = Returned tt
      /\ error (hook (snd r)) = error (hook w)
      /\ (isCaptured captured cid = false ->
          currentConversation (hook (snd r)) = currentConversation (hook w))
      /\ (isCaptured captured cid = true ->
          forall c, currentConversation (hook w) = Some c ->
          exists c', currentConversation (hook (snd r)) = Some c'
                     /\ title c' = newTitle
                     /\ id c' = id c
                     /\ message_count c' = message_count c
                     /\ updated_at c' = updated_at c
                     /\ created_at c' = created_at c
                     /\ status c' = status c /\ summary c' = summary c))
  /\ (titleAccepted base w cid newTitle = false ->
      (exists e, fst r = Threw e)
      /\ (exists m, error (hook (snd r)) = Some m)
      /\ currentConversation (hook (snd r)) = currentConversation (hook w))
  /\ (forall firstMessage,
      allWhiteSpace firstMessage = false ->
      titleAccepted base w cid (generatedTitle firstMessage) = false ->
      let a := autoGenerateTitle base captured cid firstMessage w in
      fst a = Returned tt /\ exists m, error (hook (snd a)) = Some m).
Proof.
  intros r. subst r.
  destruct (updateConversationTitle_effect base captured cid newTitle w)
    as (_ & _ & _ & Hsent & Hcase).
  split; [exact Hsent|].
  split; [|split].
  - intros Hacc. rewrite Hacc in Hcase. destruct Hcase as (H1 & H2 & H3).
    split; [exact H1|]. split; [exact H2|]. split.
    + intros Hc. now rewrite Hc in H3.
    + intros Hc c Hcur. rewrite Hc, Hcur in H3.
      exists (withTitle newTitle c). repeat split; auto.
  - intros Hacc. rewrite Hacc in Hcase.
    destruct Hcase as ((e & H1 & H2) & H3). eauto.
  - intros firstMessage Hblank Hacc a. subst a.
    unfold autoGenerateTitle. rewrite isBlank_allWhiteSpace, Hblank.
    destruct (updateConversationTitle_effect base captured cid
                (generatedTitle firstMessage) w) as (_ & _ & _ & _ & Hc).
    rewrite Hacc in Hc. destruct Hc as ((e & H1 & H2) & _).
    unfold tryCatch.
    destruct (updateConversationTitle base captured cid
                (generatedTitle firstMessage) w) as [o w1].
    cbn in H1, H2. subst o. cbn. split; [reflexivity | eauto].
Qed.

Lemma title_update_rejects_and_records_witness :
  let w := Samples.worldWith (Responds Samples.serverDown) in
  let r := updateConversationTitle Samples.base
             (Some Samples.freshConversation) "c1" "Solar power" w in
  let stale := Samples.worldHolding (Some Samples.olderConversation)
                 (Responds Samples.okResponse) in
  let hit := updateConversationTitle Samples.base
               (Some Samples.freshConversation) "c1" "Tides" stale in
  let miss := updateConversationTitle Samples.base
                (Some Samples.freshConversation) "c7" "Tides" stale in
  ((exists e, fst r = Threw e)
   /\ currentConversation (hook (snd r)) = Some Samples.freshConversation)
  /\ (exists c', currentConversation (hook (snd hit)) = Some c'
                 /\ title c' = "Tides"%string /\ id c' = "c7"%string)
  /\ currentConversation (hook (snd miss)) = Some Samples.olderConversation.
Proof.
  cbv zeta. split; [|split].
  - pose proof (title_update_rejects_and_records Samples.base
                  (Some Samples.freshConversation) "c1" "Solar power"
                  (Samples.worldWith (Responds Samples.serverDown))) as H.
    cbv zeta in H. destruct H as (_ & _ & H & _).
    destruct (H eq_refl) as (H1 & _ & H3).
    split; [exact H1 | exact H3].
  - pose proof (title_update_rejects_and_records Samples.base
                  (Some Samples.freshConversation) "c1" "Tides"
                  (Samples.worldHolding (Some Samples.olderConversation)
                     (Responds Samples.okResponse))) as H.
    cbv zeta in H. destruct H as (_ & H & _).
    destruct (H eq_refl) as (_ & _ & _ & Hcap).
    destruct (Hcap eq_refl Samples.olderConversation eq_refl)
      as (c' & Hc & Ht & Hid & _).
    exists c'. split; [exact Hc|]. split; [exact Ht | exact Hid].
  - pose proof (title_update_rejects_and_records Samples.base
                  (Some Samples.freshConversation) "c7" "Tides"
                  (Samples.worldHolding (Some Samples.olderConversation)
                     (Responds Samples.okResponse))) as H.
    cbv zeta in H. destruct H as (_ & H & _).
    destruct (H eq_refl) as (_ & _ & Hmiss & _).
    exact (Hmiss eq_refl).
Defined.

Lemma saveConversation_cases (base : string)
    (captured : option Conversation) (readSavedAt : string -> option string)
    (cid : string) (w : World) :
  let request := mkRequest "POST" (saveUrl base cid) NoBody in
  let r := saveConversation base captured readSavedAt cid w in
  sent (snd (fst r)) = sent w ++ [request]
  /\ isLoading (hook (snd (fst r))) = isLoading (hook w)
  /\ match okBody w request with
     | None =>
         (exists e, fst (fst r) = Threw e)
         /\ (exists m, error (hook (snd (fst r))) = Some m)
         /\ currentConversation (hook (snd (fst r)))
            = currentConversation (hook w)
         /\ snd r = false
     | Some body =>
         fst (fst r) = Returned tt
         /\ error (hook (snd (fst r))) = error (hook w)
         /\ (if isCaptured captured cid
             then match savedUpdater readSavedAt body
                          (currentConversation (hook w)) with
                  | Some c =>
                      currentConversation (hook (snd (fst r))) = c
                      /\ snd r = false
                  | None =>
                      currentConversation (hook (snd (fst r)))
                      = currentConversation (hook w)
                      /\ snd r = true
                  end
             else currentConversation (hook (snd (fst r)))
                  = currentConversation (hook w)
                  /\ snd r = false)
     end.
Proof.
  cbv zeta.
  unfold saveConversation, saveConversationCall. run_hook. cbn.
  destruct (isCaptured captured cid);
    answer_of w (mkRequest "POST" (saveUrl base cid) NoBody);
    try (repeat split; eauto; fail).
  all: match goal with
       | |- context [savedUpdater ?f ?b ?c] =>
           destruct (savedUpdater f b c) as [c'|]; cbn; repeat split
       end.
Qed.

(** X8: [saveConversation] posts to the save address of the conversation.
    When the server does not answer ok with a body that parses, the call
    rejects, the error is recorded and the conversation is unchanged.
    When it does, the call resolves and records no error.  The update it
    queues is guarded by the conversation the callback was created with:
    when that one has the saved id, the conversation in the hook's state,
    whichever it is, takes the [updated_at] of the answer and keeps
    everything else; when the answer has no [conversation] to read the
    date from, the updater throws while React applies it, after the call
    has resolved: nothing is recorded in the error state, the
    conversation is unchanged and the render fails.  In every case the
    count and the title of the conversation stay. *)
Theorem saveConversation_outcome (base : string)
    (captured : option Conversation) (readSavedAt : string -> option string)
    (cid : string) (w : World) :
  let request := mkRequest "POST" (saveUrl base cid) NoBody in
  let r := saveConversation base captured readSavedAt cid w in
  let outcome := fst (fst r) in
  let w' := snd (fst r) in
  let renderThrows := snd r in
  sent w' = sent w ++ [request]
  /\ isLoading (hook w') = isLoading (hook w)
  /\ option_map message_count (currentConversation (hook w'))
     = option_map message_count (currentConversation (hook w))
  /\ option_map title (currentConversation (hook w'))
     = option_map title (currentConversation (hook w))
  /\ (okBody w request = None ->
      (exists e, outcome = Threw e)
      /\ (exists m, error (hook w') = Some m)
      /\ currentConversation (hook w') = currentConversation (hook w)
      /\ renderThrows = false)
  /\ (forall body, okBody w request = Some body ->
      outcome = Returned tt
      /\ error (hook w') = error (hook w)
      /\ (isCaptured captured cid = false
          \/ currentConversation (hook w) = None ->
          currentConversation (hook w') = currentConversation (hook w)
          /\ renderThrows = false)
      /\ (isCaptured captured cid = true ->
          forall c, currentConversation (hook w) = Some c ->
          (forall savedAt, readSavedAt body = Some savedAt ->
              currentConversation (hook w') = Some (withUpdatedAt savedAt c)
              /\ renderThrows = false)
          /\ (readSavedAt body = None ->
              currentConversation (hook w') = Some c
              /\ renderThrows = true))).
Proof.
  intros request r outcome w' renderThrows.
  subst outcome w' renderThrows.
  destruct (saveConversation_cases base captured readSavedAt cid w)
    as (Hs & Hl & Hcase).
  cbv zeta in Hs, Hl, Hcase. fold request in Hs, Hcase. fold r in Hs, Hl, Hcase.
  split; [exact Hs|]. split; [exact Hl|].
  destruct (okBody w request) as [body|].
  - destruct Hcase as (Hres & Herr & Hcur).
    assert (Hkeep :
      option_map message_count (currentConversation (hook (snd (fst r))))
      = option_map message_count (currentConversation (hook w))
      /\ option_map title (currentConversation (hook (snd (fst r))))
         = option_map title (currentConversation (hook w))).
    { destruct (isCaptured captured cid).
      - unfold savedUpdater in Hcur.
        destruct (currentConversation (hook w)) as [c|];
          [destruct (readSavedAt body)|];
          destruct Hcur as (-> & _); split; reflexivity.
      - destruct Hcur as (-> & _). split; reflexivity. }
    split; [exact (proj1 Hkeep)|]. split; [exact (proj2 Hkeep)|].
    split; [discriminate|].
    intros b Hb. inversion Hb; subst b.
    split; [exact Hres|]. split; [exact Herr|]. split.
    + intros [Hc | Hn].
      * now rewrite Hc in Hcur.
      * destruct (isCaptured captured cid); [|exact Hcur].
        rewrite Hn in Hcur. cbn in Hcur. rewrite Hn. exact Hcur.
    + intros Hc c Hcurrent. rewrite Hc, Hcurrent in Hcur. cbn in Hcur.
      split.
      * intros savedAt Hat. rewrite Hat in Hcur. exact Hcur.
      * intros Hat. rewrite Hat in Hcur. exact Hcur.
  - destruct Hcase as (Hres & Herr & Hcur & Hrt).
    split; [now rewrite Hcur|]. split; [now rewrite Hcur|].
    split; [intros _; auto|]. intros b Hb. discriminate Hb.
Qed.

Lemma saveConversation_outcome_witness :
  let w := FrontSamples.worldOn (Some FrontSamples.stored)
             FrontSamples.library in
  let r := saveConversation Samples.base (Some FrontSamples.stored)
             FrontSamples.readSavedAt "c7" w in
  let bare := saveConversation Samples.base (Some Samples.freshConversation)
                FrontSamples.readSavedAt "c1"
                (Samples.worldWith (Responds Samples.okResponse)) in
  (fst (fst r) = Returned tt
   /\ option_map updated_at (currentConversation (hook (snd (fst r))))
      = Some "2025-03-01T08:00:00.000Z"%string
   /\ snd r = false)
  /\ (fst (fst bare) = Returned tt
      /\ error (hook (snd (fst bare))) = None
      /\ snd bare = true).
Proof.
  cbv zeta. split.
  - pose proof (saveConversation_outcome Samples.base
                  (Some FrontSamples.stored) FrontSamples.readSavedAt "c7"
                  (FrontSamples.worldOn (Some FrontSamples.stored)
                     FrontSamples.library)) as H.
    cbv zeta in H. destruct H as (_ & _ & _ & _ & _ & H).
    destruct (H FrontSamples.savedBody eq_refl) as (H1 & _ & _ & H4).
    destruct (H4 eq_refl FrontSamples.stored eq_refl) as (H5 & _).
    destruct (H5 "2025-03-01T08:00:00.000Z"%string eq_refl) as (H6 & H7).
    split; [exact H1|]. split; [|exact H7]. rewrite H6. reflexivity.
  - pose proof (saveConversation_outcome Samples.base
                  (Some Samples.freshConversation)
                  FrontSamples.readSavedAt "c1"
                  (Samples.worldWith (Responds Samples.okResponse))) as H.
    cbv zeta in H. destruct H as (_ & _ & _ & _ & _ & H).
    destruct (H "{}"%string eq_refl) as (H1 & H2 & _ & H4).
    destruct (H4 eq_refl Samples.freshConversation eq_refl) as (_ & H5).
    destruct (H5 eq_refl) as (_ & H6).
    split; [exact H1|]. split; [exact H2 | exact H6].
Defined.

(** X9: [getConversations] asks for at most 50 conversations, and for
    those of the user only when a non-empty user id is known (an empty id
    counts as none).  It never touches the current conversation or the
    loading flag.  On an ok answer that parses it returns the list read
    from it and leaves the error state alone; otherwise it rejects and
    records the error. *)
Theorem getConversations_outcome (base : string) (userId : option string)
    (readConversations : string -> list Conversation)
    (toQueryString : list (string * string) -> string) (w : World) :
  let request := get (listUrl base userId toQueryString) in
  let r := getConversations base userId readConversations toQueryString w in
  sent (snd r) = sent w ++ [request]
  /\ (listParams userId = [("limit", "50")]%string
      \/ exists u, userId = Some u /\ u <> EmptyString
                   /\ listParams userId
                      = [("user_id", u); ("limit", "50")]%string)
  /\ currentConversation (hook (snd r)) = currentConversation (hook w)
  /\ isLoading (hook (snd r)) = isLoading (hook w)
  /\ (okBody w request = None ->
      (exists e, fst r = Threw e)
      /\ exists m, error (hook (snd r)) = Some m)
  /\ (forall body, okBody w request = Some body ->
      fst r = Returned (readConversations body)
      /\ error (hook (snd r)) = error (hook w)).
Proof.
  cbv zeta. split; [|split].
  - run_hook. cbn.
    answer_of w (get (listUrl base userId toQueryString)); reflexivity.
  - unfold listParams, truthy.
    destruct userId as [[|c u]|]; [left | right | left]; try reflexivity.
    exists (String c u). repeat split. discriminate.
  - run_hook. cbn.
    answer_of w (get (listUrl base userId toQueryString)).
    all: split; [reflexivity|]; split; [reflexivity|]; split;
      [ intros Hn; first [discriminate Hn | split; eauto]
      | intros body Hb;
        first [discriminate Hb | inversion Hb; subst; split; reflexivity] ].
Qed.

Lemma getConversations_outcome_witness :
  let w := Samples.worldWith (Responds Samples.serverDown) in
  let r := getConversations Samples.base (Some "default-user")
             (fun _ => []) (fun _ => "user_id=default-user&limit=50"%string)
             w in
  (exists e, fst r = Threw e)
  /\ currentConversation (hook (snd r)) = Some Samples.freshConversation.
Proof.
  cbv zeta.
  pose proof (getConversations_outcome Samples.base (Some "default-user")
                (fun _ => []) (fun _ => "user_id=default-user&limit=50"%string)
                (Samples.worldWith (Responds Samples.serverDown))) as H.
  cbv zeta in H. destruct H as (_ & _ & Hc & _ & H & _).
  destruct (H eq_refl) as (H1 & _).
  split; [exact H1 | exact Hc].
Defined.

Lemma autoGenerateTitle_effect (base : string)
    (captured : option Conversation) (cid firstMessage : string)
    (w : World) :
  let r := autoGenerateTitle base captured cid firstMessage w in
  fst r = Returned tt
  /\ server (snd r) = server w
  /\ clock (snd r) = clock w
  /\ currentConversation (hook (snd r))
     = (if negb (allWhiteSpace firstMessage)
           && titleAccepted base w cid (generatedTitle firstMessage)
           && isCaptured captured cid
        then option_map (withTitle (generatedTitle firstMessage))
                        (currentConversation (hook w))
        else currentConversation (hook w)).
Proof.
  cbv zeta. unfold autoGenerateTitle. rewrite isBlank_allWhiteSpace.
  destruct (allWhiteSpace firstMessage); cbn; [repeat split|].
  destruct (updateConversationTitle_effect base captured cid
              (generatedTitle firstMessage) w) as (Hs & Hc & _ & _ & Hcase).
  unfold tryCatch.
  destruct (updateConversationTitle base captured cid
              (generatedTitle firstMessage) w) as [o w1].
  cbn in *.
  destruct (titleAccepted base w cid (generatedTitle firstMessage)); cbn.
  - destruct Hcase as (-> & _ & H3). cbn. repeat split; assumption.
  - destruct Hcase as ((e & -> & _) & H3). cbn. repeat split; assumption.
Qed.

Lemma saveSucceeds_server (base : string) (w w' : World) (cid : string)
    (msg : Message) :
  server w' = server w ->
  saveSucceeds base w' cid msg = saveSucceeds base w cid msg.
Proof. intros H. unfold saveSucceeds. now rewrite H. Qed.

Lemma titleAccepted_server (base : string) (w w' : World)
    (cid newTitle : string) :
  server w' = server w ->
  titleAccepted base w' cid newTitle = titleAccepted base w cid newTitle.
Proof. intros H. unfold titleAccepted. now rewrite H. Qed.

(** X10: every successful save is counted, also when several go through
    the same callback, although the callback's own copy of the
    conversation is out of date after the first: after two successful
    saves for the conversation that the callback was created for, the
    count of the conversation in the hook's state has had one added
    twice.  The count is a JS number: it is two higher as long as that
    does not exceed 2^53, and a count of 2^53 stays where it is. *)
Theorem saveMessage_counts_every_save (base : string)
    (captured : option Conversation) (cid : string) (m1 m2 : Message)
    (w : World) :
  let w1 := snd (saveMessage base captured cid m1 w) in
  let w2 := snd (saveMessage base captured cid m2 w1) in
  saveSucceeds base w cid m1 = true ->
  saveSucceeds base w cid m2 = true ->
  isCaptured captured cid = true ->
  forall c, currentConversation (hook w) = Some c ->
  option_map message_count (currentConversation (hook w2))
  = Some (plusOne (plusOne (message_count c)))
  /\ (- 2 ^ 53 <= message_count c -> message_count c + 2 <= 2 ^ 53 ->
      option_map message_count (currentConversation (hook w2))
      = Some (message_count c + 2))
  /\ (message_count c = 2 ^ 53 ->
      option_map message_count (currentConversation (hook w2))
      = Some (2 ^ 53))
  /\ option_map updated_at (currentConversation (hook w2)) = Some (clock w)
  /\ option_map title (currentConversation (hook w2)) = Some (title c).
Proof.
  intros w1 w2 H1 H2 Hc c Hcur. subst w2 w1.
  destruct (saveMessage_effect base captured cid m1 w) as (_ & Hs & Hk & E1).
  destruct (saveMessage_effect base captured cid m2
              (snd (saveMessage base captured cid m1 w))) as (_ & _ & _ & E2).
  rewrite (@saveSucceeds_server base _ _ cid m2 Hs), H2, Hc, Hk in E2.
  rewrite H1, Hc, Hcur in E1. rewrite E2, E1. cbn.
  split; [reflexivity|]. split; [|split; [|split; reflexivity]].
  - intros Hlow Hhigh. f_equal.
    change (2 ^ 53) with 9007199254740992 in Hlow, Hhigh.
    rewrite (@plusOne_exact (message_count c)), (@plusOne_exact (message_count c + 1));
      change (2 ^ 53) with 9007199254740992; lia.
  - intros ->. reflexivity.
Qed.

Lemma saveMessage_counts_every_save_witness :
  let w := Samples.worldWith (Responds Samples.okResponse) in
  let w1 := snd (saveMessage Samples.base (Some Samples.freshConversation)
                   "c1" Samples.humanMessage w) in
  let w2 := snd (saveMessage Samples.base (Some Samples.freshConversation)
                   "c1" Samples.humanMessage w1) in
  option_map message_count (currentConversation (hook w2)) = Some 2.
Proof.
  cbv zeta.
  pose proof (@saveMessage_counts_every_save Samples.base
                (Some Samples.freshConversation) "c1"
                Samples.humanMessage Samples.humanMessage
                (Samples.worldWith (Responds Samples.okResponse))
                eq_refl eq_refl eq_refl Samples.freshConversation
                eq_refl) as H.
  cbv zeta in H. destruct H as (_ & H & _).
  apply H; vm_compute; discriminate.
Defined.

(** X11: saving a message and generating a title, started from the same
    render, leave the same current conversation whichever of the two is
    completed first, and neither rejects: the count and date written by the
    one and the title written by the other do not interfere. *)
Theorem save_and_title_commute (base : string)
    (captured : option Conversation) (cid : string) (msg : Message)
    (firstMessage : string) (w : World) :
  let saveThenTitle :=
    bind (saveMessage base captured cid msg)
         (fun _ => autoGenerateTitle base captured cid firstMessage) w in
  let titleThenSave :=
    bind (autoGenerateTitle base captured cid firstMessage)
         (fun _ => saveMessage base captured cid msg) w in
  fst saveThenTitle = Returned tt
  /\ fst titleThenSave = Returned tt
  /\ currentConversation (hook (snd saveThenTitle))
     = currentConversation (hook (snd titleThenSave)).
Proof.
  cbv zeta. unfold bind.
  destruct (saveMessage_effect base captured cid msg w)
    as (Hr1 & Hs1 & Hk1 & E1).
  destruct (autoGenerateTitle_effect base captured cid firstMessage w)
    as (Hr2 & Hs2 & Hk2 & E2).
  destruct (saveMessage base captured cid msg w) as [o1 w1] eqn:S1.
  destruct (autoGenerateTitle base captured cid firstMessage w)
    as [o2 w2] eqn:S2.
  cbn in *. subst o1 o2.
  destruct (autoGenerateTitle_effect base captured cid firstMessage w1)
    as (Hr3 & _ & _ & E3).
  destruct (saveMessage_effect base captured cid msg w2)
    as (Hr4 & _ & _ & E4).
  rewrite (@titleAccepted_server base _ _ cid _ Hs1) in E3.
  rewrite (@saveSucceeds_server base _ _ cid msg Hs2), Hk2 in E4.
  split; [exact Hr3|]. split; [exact Hr4|].
  rewrite E3, E4, E1, E2.
  destruct (saveSucceeds base w cid msg && isCaptured captured cid);
    destruct (negb (allWhiteSpace firstMessage)
              && titleAccepted base w cid (generatedTitle firstMessage)
              && isCaptured captured cid);
    try reflexivity.
  destruct (currentConversation (hook w)); reflexivity.
Qed.

Lemma join_split (sep : ascii) (s : string) :
  join (String sep EmptyString) (split sep s) = s.
Proof.
  induction s as [|c s IH]; [reflexivity|].
  simpl split. destruct (Ascii.eqb_spec c sep) as [-> | Hne].
  - pose proof (split_not_nil sep s) as Hn.
    destruct (split sep s) as [|w ws] eqn:E; [congruence|].
    change (join (String sep "") ("" :: w :: ws))
      with (String sep (join (String sep "") (w :: ws))).
    now rewrite IH.
  - pose proof (split_not_nil sep s) as Hn.
    destruct (split sep s) as [|w ws] eqn:E; [congruence|].
    destruct ws as [|w' ws'].
    + simpl in *. now rewrite IH.
    + change (join (String sep "") (String c w :: w' :: ws'))
        with (String c (join (String sep "") (w :: w' :: ws'))).
      now rewrite IH.
Qed.

Lemma prefix_refl (s : string) : String.prefix s s = true.
Proof.
  induction s as [|c s IH]; [reflexivity|]. simpl.
  destruct (ascii_dec c c); [exact IH | congruence].
Qed.

Lemma prefix_cons_append (a x y : string) :
  String.prefix x y = true -> String.prefix (a ++ x) (a ++ y) = true.
Proof.
  intros H. induction a as [|c a IH]; simpl; [exact H|].
  destruct (ascii_dec c c); [exact IH | congruence].
Qed.

Lemma prefix_nil (s : string) : String.prefix EmptyString s = true.
Proof. now destruct s. Qed.

Lemma append_empty_r (s : string) : (s ++ "")%string = s.
Proof. induction s as [|c s IH]; simpl; [reflexivity | now rewrite IH]. Qed.

Lemma join_firstn_prefix (sep : string) (n : nat) (ws : list string) :
  String.prefix (join sep (firstn n ws)) (join sep ws) = true.
Proof.
  revert n. induction ws as [|w ws IH]; intros n.
  - rewrite firstn_nil. reflexivity.
  - destruct n as [|n]; [apply prefix_nil|].
    simpl firstn. specialize (IH n).
    destruct ws as [|w' ws']; [rewrite firstn_nil; apply prefix_refl|].
    destruct n as [|n].
    + simpl firstn.
      change (join sep [w]) with w.
      change (join sep (w :: w' :: ws'))
        with (w ++ (sep ++ join sep (w' :: ws')))%string.
      rewrite <- (append_empty_r w) at 1.
      apply prefix_cons_append, prefix_nil.
    + change (join sep (w :: firstn (S n) (w' :: ws')))
        with (w ++ (sep ++ join sep (firstn (S n) (w' :: ws'))))%string.
      change (join sep (w :: w' :: ws'))
        with (w ++ (sep ++ join sep (w' :: ws')))%string.
      now apply prefix_cons_append, prefix_cons_append.
Qed.

(** X12: the title generated from a message that is not blank is never
    empty, and it is the beginning of the message: the trimmed message
    itself, or a beginning of the trimmed message followed by three dots,
    the words being joined back exactly as they were split. *)
Theorem generatedTitle_is_the_start_of_the_message (firstMessage : string) :
  allWhiteSpace firstMessage = false ->
  let t := trim firstMessage in
  join " " (split space t) = t
  /\ generatedTitle firstMessage <> EmptyString
  /\ (generatedTitle firstMessage = t
      \/ exists start,
           generatedTitle firstMessage = (start ++ "...")%string
           /\ String.prefix start t = true
           /\ start = join " " (firstn 8 (split space t))).
Proof.
  intros Hb t.
  assert (Ht : t <> EmptyString).
  { intros E. apply trim_empty_iff in E. congruence. }
  split; [apply (join_split space)|].
  unfold generatedTitle, slice0. fold t.
  destruct (List.length (split space t) <=? 8)%nat.
  - split; [exact Ht | now left].
  - split.
    + destruct (join " " (firstn 8 (split space t))); discriminate.
    + right. eexists. split; [reflexivity|]. split; [|reflexivity].
      rewrite <- (join_split space t) at 2.
      apply join_firstn_prefix.
Qed.

Lemma generatedTitle_is_the_start_of_the_message_witness :
  generatedTitle "  one two three four five six seven eight nine ten "
  = "one two three four five six seven eight..."%string
  /\ generatedTitle " hello   world " <> EmptyString.
Proof.
  split; [reflexivity|].
  exact (proj1 (proj2 (generatedTitle_is_the_start_of_the_message
                         " hello   world " eq_refl))).
Defined.

End ChatHistoryRestFacts.

(** ** Creating a conversation *)

Section ClientFacts.
Import JsString Chat.

Ltac run_client :=
  unfold Client.initializeConversation, Client.createConversation,
    Client.tryFinally, Client.tryCatch, Client.bind, Client.ret,
    Client.throw, Client.fetch, Client.text, Client.json,
    Client.setCurrentConversation, Client.setError, Client.setIsLoading,
    Client.setHook, Client.okBody in *.

Ltac client_answer w req :=
  let resp := fresh "resp" in
  destruct (Client.server w req) as [? | resp];
  [| destruct resp as [[] ? [?|] [?|]]]; cbn in *.

Lemma createConversation_cases (base : string) (userId : option string)
    (readConversation : string -> Conversation) (given : option string)
    (w : Client.World) :
  let title := match given with Some t => t | None => "New Conversation" end in
  let request := Client.createRequest base userId title in
  let r := Client.createConversation base userId readConversation given w in
  ChatHistory.isLoading (Client.hook (snd r)) = false
  /\ Client.sent (snd r) = Client.sent w ++ [request]
  /\ Client.server (snd r) = Client.server w
  /\ Client.clock (snd r) = Client.clock w
  /\ match Client.okBody w request with
     | Some body =>
         fst r = ChatHistory.Returned (readConversation body)
         /\ ChatHistory.currentConversation (Client.hook (snd r))
            = Some (readConversation body)
         /\ ChatHistory.error (Client.hook (snd r)) = None
     | None =>
         (exists e, fst r = ChatHistory.Threw e)
         /\ (exists m, ChatHistory.error (Client.hook (snd r)) = Some m)
         /\ ChatHistory.currentConversation (Client.hook (snd r))
            = ChatHistory.currentConversation (Client.hook w)
     end.
Proof.
  cbv zeta. run_client. cbn.
  client_answer w
    (Client.createRequest base userId
       match given with Some t => t | None => "New Conversation" end);
    repeat split; eauto.
Qed.

(** X13: [createConversation] posts the title (["New Conversation"] when
    none is given) and the user id, and always ends with the loading flag
    down.  On an ok answer that parses, the conversation read from it
    becomes the current one and is returned, and an error left by an
    earlier call is cleared.  Otherwise the call rejects, the error is
    recorded and the current conversation stays. *)
Theorem createConversation_outcome (base : string) (userId : option string)
    (readConversation : string -> Conversation) (given : option string)
    (w : Client.World) :
  let title := match given with Some t => t | None => "New Conversation" end in
  let request :=
    Client.mkRequest "POST" (base ++ "/api/chat-history/conversations")
                     (Client.NewConversationBody title userId) in
  let r := Client.createConversation base userId readConversation given w in
  ChatHistory.isLoading (Client.hook (snd r)) = false
  /\ Client.sent (snd r) = Client.sent w ++ [request]
  /\ (forall body, Client.okBody w request = Some body ->
      fst r = ChatHistory.Returned (readConversation body)
      /\ ChatHistory.currentConversation (Client.hook (snd r))
         = Some (readConversation body)
      /\ ChatHistory.error (Client.hook (snd r)) = None)
  /\ (Client.okBody w request = None ->
      (exists e, fst r = ChatHistory.Threw e)
      /\ (exists m, ChatHistory.error (Client.hook (snd r)) = Some m)
      /\ ChatHistory.currentConversation (Client.hook (snd r))
         = ChatHistory.currentConversation (Client.hook w)).
Proof.
  intros title request r.
  destruct (createConversation_cases base userId readConversation given w)
    as (H1 & H2 & _ & _ & H3).
  fold title in H2, H3.
  change (Client.createRequest base userId title) with request in H2, H3.
  fold r in H1, H2, H3.
  split; [exact H1|]. split; [exact H2|]. split.
  - intros body Hb. now rewrite Hb in H3.
  - intros Hb. now rewrite Hb in H3.
Qed.

Lemma createConversation_outcome_witness :
  let w := FrontSamples.browser None
             (ChatHistory.Responds Samples.okResponse) in
  let r := Client.createConversation Samples.base (Some "u1"%string)
             FrontSamples.readConversation None w in
  fst r = ChatHistory.Returned FrontSamples.stored
  /\ Client.sent (snd r)
     = [Client.mkRequest "POST"
          "http://localhost:2024/api/chat-history/conversations"
          (Client.NewConversationBody "New Conversation" (Some "u1"%string))].
Proof.
  cbv zeta.
  pose proof (createConversation_outcome Samples.base (Some "u1"%string)
                FrontSamples.readConversation None
                (FrontSamples.browser None
                   (ChatHistory.Responds Samples.okResponse))) as H.
  cbv zeta in H. destruct H as (_ & H2 & H3 & _).
  destruct (H3 "{}"%string eq_refl) as (H4 & _).
  split; [exact H4 | exact H2].
Defined.


(** X14: the initializing effect does nothing when the render already has
    a conversation.  Without one it asks once for a conversation called
    ["New Conversation"], never rejects, and leaves the loading flag down;
    the conversation the server answers with becomes the current one, and
    a failure is recorded in the error state. *)
Theorem initializeConversation_outcome (base : string)
    (userId : option string) (readConversation : string -> Conversation)
    (current : option Conversation) (w : Client.World) :
  let request := Client.createRequest base userId "New Conversation" in
  let r := Client.initializeConversation base userId readConversation
             current w in
  fst r = ChatHistory.Returned tt
  /\ (current <> None -> snd r = w)
  /\ (current = None ->
      Client.sent (snd r) = Client.sent w ++ [request]
      /\ ChatHistory.isLoading (Client.hook (snd r)) = false
      /\ (forall body, Client.okBody w request = Some body ->
          ChatHistory.currentConversation (Client.hook (snd r))
          = Some (readConversation body))
      /\ (Client.okBody w request = None ->
          (exists m, ChatHistory.error (Client.hook (snd r)) = Some m)
          /\ ChatHistory.currentConversation (Client.hook (snd r))
             = ChatHistory.currentConversation (Client.hook w))).
Proof.
  intros request r. subst r. unfold Client.initializeConversation.
  destruct current as [c|].
  - cbn. split; [reflexivity|]. split; [reflexivity | discriminate].
  - destruct (createConversation_cases base userId readConversation None w)
      as (H1 & H2 & _ & _ & H3).
    cbv zeta in *. fold request in H2, H3.
    unfold Client.tryCatch, Client.bind, Client.ret.
    destruct (Client.createConversation base userId readConversation None w)
      as [o w1].
    cbn in H1, H2, H3.
    destruct (Client.okBody w request) as [body|].
    + destruct H3 as (-> & H4 & H5). cbn.
      split; [reflexivity|]. split; [congruence|]. intros _.
      split; [exact H2|]. split; [exact H1|].
      split; [intros b Hb; inversion Hb; subst; exact H4 | discriminate].
    + destruct H3 as ((e & ->) & H4 & H5). cbn.
      split; [reflexivity|]. split; [congruence|]. intros _.
      split; [exact H2|]. split; [exact H1|].
      split; [discriminate | auto].
Qed.

Lemma initializeConversation_outcome_witness :
  let w := FrontSamples.browser None
             (ChatHistory.Responds Samples.serverDown) in
  let r := Client.initializeConversation Samples.base None
             FrontSamples.readConversation None w in
  fst r = ChatHistory.Returned tt
  /\ (exists m, ChatHistory.error (Client.hook (snd r)) = Some m)
  /\ ChatHistory.currentConversation (Client.hook (snd r)) = None.
Proof.
  cbv zeta.
  pose proof (initializeConversation_outcome Samples.base None
                FrontSamples.readConversation None
                (FrontSamples.browser None
                   (ChatHistory.Responds Samples.serverDown))) as H.
  cbv zeta in H. destruct H as (H1 & _ & H3).
  destruct (H3 eq_refl) as (_ & _ & _ & H4).
  destruct (H4 eq_refl) as (H5 & H6).
  split; [exact H1|]. split; [exact H5 | exact H6].
Defined.


End ClientFacts.

(** ** The activity timeline *)

Section TimelineFacts.
Import JsString Chat AppShell.

Lemma processedEventOf_none (event : UpdateEvent) :
  fst (processedEventOf event) = None <-> noKey event.
Proof.
  unfold processedEventOf, noKey.
  destruct (generate_query event), (web_research event), (reflection event),
    (finalize_answer event), (rag_search event); cbn;
    split; intros H; try discriminate; try tauto;
    destruct H as (? & ? & ? & ? & ?); discriminate.
Qed.

Lemma processedEventOf_flag (event : UpdateEvent) :
  snd (processedEventOf event) = true
  <-> (finalize_answer event = true /\ generate_query event = None
       /\ web_research event = None /\ reflection event = None).
Proof.
  unfold processedEventOf.
  destruct (generate_query event), (web_research event), (reflection event),
    (finalize_answer event), (rag_search event); cbn;
    split; intros H; try discriminate; try tauto;
    destruct H as (? & ? & ? & ?); discriminate.
Qed.

Lemma onUpdateEvent_timeline (event : UpdateEvent) (st : State) :
  processedEventsTimeline (onUpdateEvent event st)
  = processedEventsTimeline st
    ++ match fst (processedEventOf event) with
       | Some e => [e]
       | None => []
       end.
Proof.
  unfold onUpdateEvent. destruct (processedEventOf event) as [[e|] f]; cbn.
  - reflexivity.
  - now rewrite app_nil_r.
Qed.

(** X15: the timeline only grows, by at most one entry per update: an
    update with none of the five keys adds nothing, any other adds exactly
    one entry, that of its first key in the order query generation, web
    research, reflection, finalization, document search, whatever other
    keys are present after it.  The finalization flag is raised only by an update whose
    first present key is [finalize_answer], and an update never lowers it
    nor touches the archived activities. *)
Theorem onUpdateEvent_appends_at_most_one (event : UpdateEvent)
    (st : State) :
  let st' := onUpdateEvent event st in
  (exists added,
      processedEventsTimeline st' = processedEventsTimeline st ++ added
      /\ List.length added <= 1
      /\ (added = [] <-> noKey event))
  /\ ((generate_query event <> None ->
       exists data,
         processedEventsTimeline st'
         = processedEventsTimeline st
           ++ [mkEvent "Generating Search Queries" data])
      /\ (generate_query event = None -> web_research event <> None ->
          exists data,
            processedEventsTimeline st'
            = processedEventsTimeline st ++ [mkEvent "Web Research" data])
      /\ (generate_query event = None -> web_research event = None ->
          reflection event <> None ->
          exists data,
            processedEventsTimeline st'
            = processedEventsTimeline st ++ [mkEvent "Reflection" data])
      /\ (generate_query event = None -> web_research event = None ->
          reflection event = None -> finalize_answer event = true ->
          processedEventsTimeline st'
          = processedEventsTimeline st
            ++ [mkEvent "Finalizing Answer"
                  "Research complete, generating final response"])
      /\ (generate_query event = None -> web_research event = None ->
          reflection event = None -> finalize_answer event = false ->
          rag_search event <> None ->
          exists data,
            processedEventsTimeline st'
            = processedEventsTimeline st ++ [mkEvent "RAG Search" data]))
  /\ (hasFinalizeEventOccurred st' = true
      <-> hasFinalizeEventOccurred st = true
          \/ (finalize_answer event = true /\ generate_query event = None
              /\ web_research event = None /\ reflection event = None))
  /\ historicalActivities st' = historicalActivities st
  /\ (forall events,
      exists added,
        processedEventsTimeline
          (fold_left (fun s e => onUpdateEvent e s) events st)
        = processedEventsTimeline st ++ added
        /\ List.length added <= List.length events).
Proof.
  intros st'. subst st'.
  split.
  { rewrite onUpdateEvent_timeline.
    pose proof (processedEventOf_none event) as Hn.
    destruct (fst (processedEventOf event)) as [e|].
    - exists [e]. split; [reflexivity|]. split; [simpl; lia|].
      split; [discriminate|]. intros H. apply Hn in H. discriminate.
    - exists []. split; [reflexivity|]. split; [simpl; lia|].
      split; [intros _; now apply Hn | reflexivity]. }
  split.
  { rewrite onUpdateEvent_timeline. unfold processedEventOf.
    repeat split.
    - intros Hq. destruct (generate_query event) as [q|]; [|congruence].
      cbn. eexists. reflexivity.
    - intros -> Hw. destruct (web_research event) as [x|]; [|congruence].
      cbn. eexists. reflexivity.
    - intros -> -> Hr. destruct (reflection event) as [x|]; [|congruence].
      cbn. eexists. reflexivity.
    - intros -> -> -> ->. reflexivity.
    - intros -> -> -> -> Hg.
      destruct (rag_search event) as [x|]; [|congruence].
      cbn. eexists. reflexivity. }
  split.
  { pose proof (processedEventOf_flag event) as Hf.
    unfold onUpdateEvent.
    destruct (processedEventOf event) as [e f]. cbn in *.
    destruct f.
    - split; [intros _; right; now apply Hf | reflexivity].
    - split; [now left|]. intros [H | H]; [exact H|].
      apply Hf in H. discriminate. }
  split.
  { unfold onUpdateEvent. now destruct (processedEventOf event). }
  intros events. revert st.
  induction events as [|e es IH]; intros st; cbn.
  - exists []. split; [now rewrite app_nil_r | simpl; lia].
  - destruct (IH (onUpdateEvent e st)) as (added & Ha & Hl).
    rewrite Ha, onUpdateEvent_timeline, <- app_assoc.
    eexists. split; [reflexivity|].
    rewrite length_app.
    destruct (fst (processedEventOf e)); simpl; lia.
Qed.

Lemma onUpdateEvent_appends_at_most_one_witness :
  let both := {| generate_query := Some (Some ["solar"; "wind"]);
                 web_research := None; reflection := None;
                 finalize_answer := true; rag_search := None |} in
  let late := {| generate_query := None; web_research := None;
                 reflection := Some (Some "prices");
                 finalize_answer := false;
                 rag_search := Some (Some ["report.pdf"]) |} in
  processedEventsTimeline (onUpdateEvent both initial)
  = [mkEvent "Generating Search Queries" "solar, wind"]
  /\ hasFinalizeEventOccurred (onUpdateEvent both initial) = false
  /\ map ev_title (processedEventsTimeline (onUpdateEvent late initial))
     = ["Reflection"]%string.
Proof.
  cbv zeta. split; [reflexivity|]. split.
  - pose proof (onUpdateEvent_appends_at_most_one
                  {| generate_query := Some (Some ["solar"; "wind"]);
                     web_research := None; reflection := None;
                     finalize_answer := true; rag_search := None |}
                  initial) as H.
    cbv zeta in H. destruct H as (_ & _ & H & _).
    destruct (hasFinalizeEventOccurred
                (onUpdateEvent
                   {| generate_query := Some (Some ["solar"; "wind"]);
                      web_research := None; reflection := None;
                      finalize_answer := true; rag_search := None |}
                   initial)) eqn:E; [|reflexivity].
    destruct (proj1 H eq_refl) as [H' | (_ & H' & _)]; discriminate H'.
  - pose proof (onUpdateEvent_appends_at_most_one
                  {| generate_query := None; web_research := None;
                     reflection := Some (Some "prices");
                     finalize_answer := false;
                     rag_search := Some (Some ["report.pdf"]) |}
                  initial) as H.
    cbv zeta in H. destruct H as (_ & (_ & _ & H & _) & _).
    assert (Hr : Some (Some "prices"%string) <> None) by discriminate.
    destruct (H eq_refl eq_refl Hr) as (data & ->). reflexivity.
Defined.







End TimelineFacts.

(** ** The effects and handlers of [App] *)

Section AppShellFacts.
Import JsString Chat AppShell.

Lemma lastMessage_app (front : list Message) (m : Message) :
  lastMessage (front ++ [m]) = Some m.
Proof.
  unfold lastMessage. rewrite map_app. simpl. apply last_last.
Qed.

Lemma answerId_app (front : list Message) (m : Message) :
  answerId (front ++ [m])
  = if String.eqb (msg_type m) "ai"
    then ChatHistoryRest.truthy (msg_id m) else None.
Proof. unfold answerId. now rewrite lastMessage_app. Qed.

Lemma length_zero_nil {A : Type} (l : list A) :
  (List.length l =? 0) = true <-> l = [].
Proof. destruct l; simpl; split; intros H; congruence. Qed.

(** X17: the finalizing effect does nothing unless a finalization was
    seen, the thread has stopped loading and there are messages.  When it
    runs, the timeline is emptied and the flag lowered; the timeline is
    filed under the id of the last message when that is an AI message
    with a non-empty id, replacing what was filed there and leaving every
    other entry alone, and is dropped unfiled otherwise.  Running the
    effect again changes nothing. *)
Theorem finalizeEffect_files_the_timeline (isLoading : bool)
    (messages : list Message) (st : State) :
  let st' := finalizeEffect isLoading messages st in
  (hasFinalizeEventOccurred st = false \/ isLoading = true \/ messages = [] ->
   st' = st)
  /\ (hasFinalizeEventOccurred st = true -> isLoading = false ->
      forall front m, messages = front ++ [m] ->
      processedEventsTimeline st' = []
      /\ hasFinalizeEventOccurred st' = false
      /\ submitted st' = submitted st /\ appError st' = appError st
      /\ (forall key,
            msg_type m = "ai"%string -> msg_id m = Some key ->
            key <> EmptyString ->
            historicalActivities st' key = Some (processedEventsTimeline st)
            /\ forall other, other <> key ->
                 historicalActivities st' other
                 = historicalActivities st other)
      /\ (msg_type m <> "ai"%string \/ msg_id m = None
          \/ msg_id m = Some EmptyString ->
          historicalActivities st' = historicalActivities st))
  /\ finalizeEffect isLoading messages st' = st'.
Proof.
  intros st'. subst st'. unfold finalizeEffect.
  split; [|split].
  - intros [H | [H | H]]; rewrite H; cbn; try reflexivity.
    + now rewrite andb_false_r.
    + now rewrite andb_false_r.
  - intros Hf Hl front m Hm. rewrite Hf, Hl.
    assert (Hlen : (List.length messages =? 0) = false).
    { subst messages. rewrite length_app. simpl.
      apply Nat.eqb_neq. lia. }
    rewrite Hlen. cbn.
    split; [reflexivity|]. split; [reflexivity|].
    split; [reflexivity|]. split; [reflexivity|].
    subst messages. rewrite answerId_app. split.
    + intros key Ht Hi Hk. apply String.eqb_eq in Ht. rewrite Ht, Hi.
      destruct key as [|c k]; [congruence|]. cbn.
      unfold withActivities. split.
      * now rewrite String.eqb_refl.
      * intros other Ho. apply String.eqb_neq in Ho. now rewrite Ho.
    + intros [Ht | [Hi | Hi]].
      * apply String.eqb_neq in Ht. now rewrite Ht.
      * rewrite Hi. now destruct (String.eqb (msg_type m) "ai").
      * rewrite Hi. now destruct (String.eqb (msg_type m) "ai").
  - destruct (hasFinalizeEventOccurred st && negb isLoading
              && negb (List.length messages =? 0)) eqn:E; cbn.
    + reflexivity.
    + now rewrite E.
Qed.

Lemma finalizeEffect_files_the_timeline_witness :
  let st := onUpdateEvent
              {| generate_query := None; web_research := None;
                 reflection := None; finalize_answer := true;
                 rag_search := None |} initial in
  let answer := mkMessage "ai" (TextContent "Solar grew fastest.")
                          (Some "run-1") in
  historicalActivities (finalizeEffect false [answer] st) "run-1"
  = Some [mkEvent "Finalizing Answer"
            "Research complete, generating final response"]
  /\ finalizeEffect true [answer] st = st.
Proof.
  cbv zeta.
  pose proof (finalizeEffect_files_the_timeline false
                [mkMessage "ai" (TextContent "Solar grew fastest.")
                           (Some "run-1")]
                (onUpdateEvent
                   {| generate_query := None; web_research := None;
                      reflection := None; finalize_answer := true;
                      rag_search := None |} initial)) as H.
  pose proof (finalizeEffect_files_the_timeline true
                [mkMessage "ai" (TextContent "Solar grew fastest.")
                           (Some "run-1")]
                (onUpdateEvent
                   {| generate_query := None; web_research := None;
                      reflection := None; finalize_answer := true;
                      rag_search := None |} initial)) as H'.
  cbv zeta in H, H'. destruct H as (_ & H & _). destruct H' as (H' & _).
  split.
  - destruct (H eq_refl eq_refl []
                (mkMessage "ai" (TextContent "Solar grew fastest.")
                           (Some "run-1")) eq_refl)
      as (_ & _ & _ & _ & Hk & _).
    destruct (Hk "run-1"%string eq_refl eq_refl) as [E _];
      [discriminate | exact E].
  - apply H'. right. now left.
Defined.

Ltac run_callbacks :=
  unfold ChatHistory.saveMessage, ChatHistory.updateConversationTitle,
    ChatHistory.autoGenerateTitle, ChatHistory.tryCatch, ChatHistory.bind,
    ChatHistory.ret, ChatHistory.throw, ChatHistory.fetch, ChatHistory.text,
    ChatHistory.json, ChatHistory.contentString, ChatHistory.toISOString,
    ChatHistory.setCurrentConversation, ChatHistory.setError,
    ChatHistory.setHook, ChatHistory.saveRequest, ChatHistory.titleRequest
    in *.

Lemma saveMessage_sent (base : string) (captured : option Conversation)
    (cid : string) (msg : Message) (w : ChatHistory.World) :
  ChatHistory.sent (snd (ChatHistory.saveMessage base captured cid msg w))
  = ChatHistory.sent w
    ++ match ChatHistory.saveRequest base cid msg with
       | Some q => [q]
       | None => []
       end.
Proof.
  run_callbacks.
  destruct msg as [ty [s | [s |]] mid]; cbn;
    try (now rewrite app_nil_r);
    match goal with
    | |- context [ChatHistory.server w ?req] =>
        destruct (ChatHistory.server w req) as [? | [[] ? [?|] [?|]]]
    end; cbn; try reflexivity;
    destruct (ChatHistory.isCaptured captured cid); reflexivity.
Qed.

Lemma autoGenerateTitle_sent (base : string)
    (captured : option Conversation) (cid firstMessage : string)
    (w : ChatHistory.World) :
  ChatHistory.sent
    (snd (ChatHistory.autoGenerateTitle base captured cid firstMessage w))
  = ChatHistory.sent w
    ++ (if allWhiteSpace firstMessage then []
        else [ChatHistory.titleRequest base cid
                (ChatHistory.generatedTitle firstMessage)]).
Proof.
  unfold ChatHistory.autoGenerateTitle. rewrite isBlank_allWhiteSpace.
  destruct (allWhiteSpace firstMessage); cbn; [now rewrite app_nil_r|].
  destruct (updateConversationTitle_effect base captured cid
              (ChatHistory.generatedTitle firstMessage) w)
    as (_ & _ & _ & Hs & _).
  unfold ChatHistory.tryCatch.
  destruct (ChatHistory.updateConversationTitle base captured cid
              (ChatHistory.generatedTitle firstMessage) w) as [[a | e] w1];
    exact Hs.
Qed.

Lemma saveMessagesEffect_run (base userId : string)
    (readConversation : string -> Conversation) (c : Conversation)
    (front : list Message) (m : Message) (w : Client.World) :
  ChatHistoryRest.truthy (msg_id m) <> None ->
  let r := saveMessagesEffect base userId readConversation (Some c)
             (front ++ [m]) w in
  let counted :=
    ChatHistory.saveSucceeds base (Client.narrow w) (id c) m in
  Client.server (snd r) = Client.server w
  /\ Client.sent (snd r)
     = Client.sent w
       ++ map Client.widen (savePart base c m ++ titlePart base c m)
  /\ option_map id (ChatHistory.currentConversation (Client.hook (snd r)))
     = option_map id (ChatHistory.currentConversation (Client.hook w))
  /\ option_map message_count
       (ChatHistory.currentConversation (Client.hook (snd r)))
     = option_map
         (fun p => if counted then ChatHistory.plusOne (message_count p)
                   else message_count p)
         (ChatHistory.currentConversation (Client.hook w)).
Proof.
  intros Ht r counted. subst r counted.
  unfold saveMessagesEffect. rewrite lastMessage_app.
  destruct (ChatHistoryRest.truthy (msg_id m)) as [i|]; [|congruence].
  unfold Client.bind, Client.tryCatch, Client.lift.
  pose proof (saveMessage_sent base (Some c) (id c) m (Client.narrow w))
    as Hsent1.
  destruct (saveMessage_effect base (Some c) (id c) m (Client.narrow w))
    as (H1 & Hs1 & Hk1 & E1).
  destruct (ChatHistory.saveMessage base (Some c) (id c) m
              (Client.narrow w)) as [o1 w1].
  cbn in H1, Hs1, Hk1, E1, Hsent1. subst o1. cbn.
  rewrite String.eqb_refl, Bool.andb_true_r in E1.
  assert (Hcount :
    option_map message_count
      (ChatHistory.currentConversation (ChatHistory.hook w1))
    = option_map
        (fun p =>
           if ChatHistory.saveSucceeds base (Client.narrow w) (id c) m
           then ChatHistory.plusOne (message_count p) else message_count p)
        (ChatHistory.currentConversation (Client.hook w))
    /\ option_map id (ChatHistory.currentConversation (ChatHistory.hook w1))
       = option_map id (ChatHistory.currentConversation (Client.hook w))).
  { rewrite E1.
    destruct (ChatHistory.saveSucceeds base (Client.narrow w) (id c) m);
      destruct (ChatHistory.currentConversation (Client.hook w));
      split; reflexivity. }
  destruct Hcount as (Hcount & Hid).
  unfold savePart, titlePart.
  destruct (isText m) as [content|] eqn:Etext.
  - destruct (String.eqb (title c) "New Conversation"
              && String.eqb (msg_type m) "human") eqn:Econd; cbn.
    + match goal with
      | |- context [ChatHistory.autoGenerateTitle base (Some c) (id c)
                      content ?w0] =>
          pose proof (autoGenerateTitle_sent base (Some c) (id c)
                        content w0) as Hsent2;
          destruct (autoGenerateTitle_effect base (Some c) (id c)
                      content w0) as (_ & _ & _ & E2);
          destruct (ChatHistory.autoGenerateTitle base (Some c) (id c)
                      content w0) as [o2 w2]
      end.
      cbn in Hsent2, E2 |- *. rewrite Hsent2, Hsent1.
      split; [reflexivity|]. split.
      * rewrite map_app, <- app_assoc. cbn.
        destruct (allWhiteSpace content); cbn; now rewrite ?app_nil_r.
      * rewrite E2, <- Hcount, <- Hid.
        match goal with
        | |- context [if ?b then _ else _] => destruct b
        end;
          destruct (ChatHistory.currentConversation (ChatHistory.hook w1));
          split; reflexivity.
    + rewrite Hsent1, app_nil_r. repeat split; assumption.
  - cbn. rewrite Hsent1, app_nil_r. repeat split; assumption.
Qed.

Lemma iter_plusOne_exact (n : nat) (count : Z) :
  (- 2 ^ 53 <= count)%Z -> (count + Z.of_nat n <= 2 ^ 53)%Z ->
  Nat.iter n ChatHistory.plusOne count = (count + Z.of_nat n)%Z.
Proof.
  change (2 ^ 53)%Z with 9007199254740992%Z.
  induction n as [|n IH]; intros Hlow Hhigh.
  - change (Nat.iter 0 ChatHistory.plusOne count) with count. lia.
  - change (Nat.iter (S n) ChatHistory.plusOne count)
      with (ChatHistory.plusOne (Nat.iter n ChatHistory.plusOne count)).
    rewrite IH by lia. rewrite (@plusOne_exact (count + Z.of_nat n)%Z).
    + lia.
    + change (2 ^ 53)%Z with 9007199254740992%Z. lia.
Qed.

Lemma savesTo_app (base cid : string) (a b : list Client.Request) :
  savesTo base cid (a ++ b) = savesTo base cid a + savesTo base cid b.
Proof. unfold savesTo. now rewrite filter_app, length_app. Qed.

Lemma savesTo_run (base : string) (c : Conversation) (m : Message)
    (w : ChatHistory.World) :
  ChatHistory.saveSucceeds base w (id c) m = true ->
  savesTo base (id c)
    (map Client.widen (savePart base c m ++ titlePart base c m)) = 1.
Proof.
  unfold ChatHistory.saveSucceeds, savePart, titlePart, savesTo, isSaveTo.
  destruct (ChatHistory.saveRequest base (id c) m) as [q|] eqn:Eq;
    [|discriminate].
  intros _.
  assert (Hq : Client.req_method (Client.widen q) = "POST"%string
               /\ Client.req_url (Client.widen q)
                  = ChatHistory.messagesUrl base (id c)).
  { unfold ChatHistory.saveRequest in Eq.
    destruct (msg_content m) as [x | [x|]]; inversion Eq; split; reflexivity. }
  destruct Hq as (Hm & Hu).
  cbn [app map filter]. rewrite Hm, Hu, !String.eqb_refl. cbn.
  destruct (isText m) as [content|]; [|reflexivity].
  destruct (String.eqb (title c) "New Conversation"
            && String.eqb (msg_type m) "human"
            && negb (allWhiteSpace content)); reflexivity.
Qed.

Lemma saveMessagesRuns_counts (base userId : string)
    (readConversation : string -> Conversation) (front : list Message)
    (m : Message) (n : nat) :
  ChatHistoryRest.truthy (msg_id m) <> None ->
  forall (w : Client.World) (c : Conversation),
  ChatHistory.currentConversation (Client.hook w) = Some c ->
  ChatHistory.saveSucceeds base (Client.narrow w) (id c) m = true ->
  let w' := saveMessagesRuns base userId readConversation n
              (front ++ [m]) w in
  option_map id (ChatHistory.currentConversation (Client.hook w'))
  = Some (id c)
  /\ option_map message_count
       (ChatHistory.currentConversation (Client.hook w'))
     = Some (Nat.iter n ChatHistory.plusOne (message_count c))
  /\ savesTo base (id c) (Client.sent w')
     = savesTo base (id c) (Client.sent w) + n.
Proof.
  intros Ht. induction n as [|n IH]; intros w c Hcur Hok; cbn zeta.
  - cbn. rewrite Hcur. cbn. repeat split. lia.
  - cbn [saveMessagesRuns]. rewrite Hcur.
    destruct (@saveMessagesEffect_run base userId readConversation c front m
                w Ht) as (Hserver & Hsent & Hid & Hcount).
    set (w1 := snd (saveMessagesEffect base userId readConversation (Some c)
                      (front ++ [m]) w)) in *.
    rewrite Hcur, Hok in Hcount. rewrite Hcur in Hid. cbn in Hid, Hcount.
    destruct (ChatHistory.currentConversation (Client.hook w1)) as [c1|] eqn:E1;
      [|discriminate Hid].
    cbn in Hid, Hcount. injection Hid as Hid'. injection Hcount as Hcount'.
    assert (Hok1 : ChatHistory.saveSucceeds base (Client.narrow w1) (id c1) m
                   = true).
    { rewrite <- Hok, Hid'. unfold ChatHistory.saveSucceeds, Client.narrow.
      cbn. now rewrite Hserver. }
    destruct (IH w1 c1 E1 Hok1) as (I1 & I2 & I3).
    rewrite Hid' in I1, I3. rewrite Hcount' in I2.
    split; [exact I1|]. split.
    + rewrite I2. f_equal. symmetry. apply Nat.iter_succ_r.
    + rewrite I3, Hsent, savesTo_app.
      rewrite (@savesTo_run base c m (Client.narrow w) Hok). lia.
Qed.

(** X18: a run of the effect that saves the last message never rejects.
    With no messages it does nothing.  With messages but no conversation
    it asks for a new conversation.  With a conversation it does nothing
    when the last message has no id; otherwise it sends the save of that
    message and then, only if the conversation of the render is still
    called ["New Conversation"] and the message is a human message of
    text that is not blank, the update to the title generated from it.
    The effect runs after every render, and an accepted save changes the
    state and so brings the next render: the same last message is saved
    again at every run.  After [n] runs over the same messages, each
    answered before the next render, [n] saves of the message have been
    sent and the count of the conversation has had one added [n] times
    (it is [n] higher while that stays within 2^53). *)
Theorem saveMessagesEffect_outcome (base userId : string)
    (readConversation : string -> Conversation)
    (current : option Conversation) (messages : list Message)
    (w : Client.World) :
  let r := saveMessagesEffect base userId readConversation current
             messages w in
  fst r = ChatHistory.Returned tt
  /\ (messages = [] -> snd r = w)
  /\ (current = None -> messages <> [] ->
      Client.sent (snd r)
      = Client.sent w
        ++ [Client.createRequest base (Some userId) "New Conversation"])
  /\ (forall c front m,
      current = Some c -> messages = front ++ [m] ->
      (ChatHistoryRest.truthy (msg_id m) = None -> snd r = w)
      /\ (ChatHistoryRest.truthy (msg_id m) <> None ->
          Client.sent (snd r)
          = Client.sent w
            ++ map Client.widen (savePart base c m ++ titlePart base c m)))
  /\ (forall c front m n,
      ChatHistory.currentConversation (Client.hook w) = Some c ->
      messages = front ++ [m] ->
      ChatHistoryRest.truthy (msg_id m) <> None ->
      ChatHistory.saveSucceeds base (Client.narrow w) (id c) m = true ->
      let w' := saveMessagesRuns base userId readConversation n messages w in
      option_map id (ChatHistory.currentConversation (Client.hook w'))
      = Some (id c)
      /\ option_map message_count
           (ChatHistory.currentConversation (Client.hook w'))
         = Some (Nat.iter n ChatHistory.plusOne (message_count c))
      /\ ((- 2 ^ 53 <= message_count c)%Z ->
          (message_count c + Z.of_nat n <= 2 ^ 53)%Z ->
          option_map message_count
            (ChatHistory.currentConversation (Client.hook w'))
          = Some (message_count c + Z.of_nat n)%Z)
      /\ savesTo base (id c) (Client.sent w')
         = savesTo base (id c) (Client.sent w) + n).
Proof.
  intros r. subst r.
  split; [|split; [|split; [|split]]].
  - unfold saveMessagesEffect.
    destruct current as [c|], (lastMessage messages) as [m|];
      try reflexivity.
    + destruct (ChatHistoryRest.truthy (msg_id m)); [|reflexivity].
      unfold Client.bind, Client.tryCatch, Client.lift.
      destruct (saveMessage_effect base (Some c) (id c) m (Client.narrow w))
        as (H1 & _).
      destruct (ChatHistory.saveMessage base (Some c) (id c) m
                  (Client.narrow w)) as [o1 w1].
      cbn in H1. subst o1. cbn.
      destruct (isText m) as [content|]; [|reflexivity].
      destruct (String.eqb (title c) "New Conversation"
                && String.eqb (msg_type m) "human"); [|reflexivity].
      cbn. apply autoGenerateTitle_effect.
    + destruct (createConversation_cases base (Some userId) readConversation
                  None w) as (_ & _ & _ & _ & H).
      unfold Client.tryCatch, Client.bind, Client.ret.
      destruct (Client.createConversation base (Some userId)
                  readConversation None w) as [[a | e] w1]; reflexivity.
  - unfold saveMessagesEffect. intros ->. now destruct current.
  - unfold saveMessagesEffect. intros -> Hne.
    destruct (exists_last Hne) as (front & m & ->).
    rewrite lastMessage_app.
    destruct (createConversation_cases base (Some userId) readConversation
                None w) as (_ & H & _).
    unfold Client.tryCatch, Client.bind, Client.ret.
    destruct (Client.createConversation base (Some userId)
                readConversation None w) as [[a | e] w1]; exact H.
  - intros c front m -> ->. split.
    + unfold saveMessagesEffect. rewrite lastMessage_app.
      intros ->. reflexivity.
    + intros Ht.
      now destruct (@saveMessagesEffect_run base userId readConversation c
                      front m w Ht) as (_ & Hsent & _).
  - intros c front m n Hcur -> Ht Hok w'. subst w'.
    destruct (@saveMessagesRuns_counts base userId readConversation front m
                n Ht w c Hcur Hok) as (H1 & H2 & H3).
    split; [exact H1|]. split; [exact H2|]. split; [|exact H3].
    intros Hlow Hhigh. rewrite H2. f_equal.
    now apply iter_plusOne_exact.
Qed.

Lemma saveMessagesEffect_outcome_witness :
  let w := FrontSamples.browser (Some Samples.freshConversation)
             (ChatHistory.Responds Samples.okResponse) in
  let w' := saveMessagesRuns Samples.base "u1" FrontSamples.readConversation
              3 [Samples.humanMessage] w in
  option_map message_count
    (ChatHistory.currentConversation (Client.hook w')) = Some 3%Z
  /\ savesTo Samples.base "c1" (Client.sent w') = 3
  /\ map Client.req_method (Client.sent w')
     = ["POST"; "PUT"; "POST"; "POST"]%string.
Proof.
  cbv zeta.
  pose proof (saveMessagesEffect_outcome Samples.base "u1"
                FrontSamples.readConversation
                (Some Samples.freshConversation) [Samples.humanMessage]
                (FrontSamples.browser (Some Samples.freshConversation)
                   (ChatHistory.Responds Samples.okResponse))) as H.
  cbv zeta in H. destruct H as (_ & _ & _ & _ & H).
  assert (Hid : ChatHistoryRest.truthy (msg_id Samples.humanMessage) <> None)
    by discriminate.
  destruct (H Samples.freshConversation [] Samples.humanMessage 3
              eq_refl eq_refl Hid eq_refl) as (_ & _ & Hcount & Hsaves).
  split; [|split; [exact Hsaves | reflexivity]].
  apply Hcount; vm_compute; discriminate.
Defined.

Lemma loadConversation_cases (base : string)
    (readConversation : string -> Conversation)
    (readMessages : string -> option (list ChatHistoryRest.MessageData))
    (cid : string) (w : ChatHistory.World) :
  let first := ChatHistoryRest.get (ChatHistory.conversationUrl base cid) in
  let second := ChatHistoryRest.get (ChatHistoryRest.messagesPageUrl base cid) in
  let r := ChatHistoryRest.loadConversation base readConversation
             readMessages cid w in
  ChatHistory.isLoading (ChatHistory.hook (snd r)) = false
  /\ match ChatHistoryRest.okBody w first with
     | Some b1 =>
         ChatHistory.currentConversation (ChatHistory.hook (snd r))
         = Some (readConversation b1)
         /\ match option_map readMessages
                    (ChatHistoryRest.okBody w second) with
            | Some (Some rows) =>
                fst r = ChatHistory.Returned
                          (map ChatHistoryRest.toLangGraph rows)
            | _ => exists e, fst r = ChatHistory.Threw e
            end
     | None => exists e, fst r = ChatHistory.Threw e
     end.
Proof.
  cbv zeta.
  unfold ChatHistoryRest.loadConversation, ChatHistoryRest.tryFinally,
    ChatHistoryRest.setIsLoading, ChatHistoryRest.okBody.
  run_callbacks. cbn.
  destruct (ChatHistory.server w
              (ChatHistoryRest.get (ChatHistory.conversationUrl base cid)))
    as [? | [[] ? [?|] [?|]]]; cbn;
    destruct (ChatHistory.server w
                (ChatHistoryRest.get
                   (ChatHistoryRest.messagesPageUrl base cid)))
      as [? | [[] ? [?|] [b2|]]]; cbn;
    try destruct (readMessages b2); cbn;
    repeat split; eauto.
Qed.

(** X19: [handleSelectConversation] ends with the loading flag down.  If
    the conversation loads and its messages load as an array, it submits
    them to the thread in order under the selected conversation's id with
    the default settings (3 queries, 1 loop), and empties the timeline
    and the archived activities.  If either request fails, or the
    messages load as something that is no array of messages, nothing is
    submitted, the timeline and the activities are kept, and the error
    shown is ["Failed to load conversation"].  Whenever the conversation
    itself loaded, it is the current one afterwards, also when its
    messages did not. *)
Theorem handleSelectConversation_outcome (base userId : string)
    (readConversation : string -> Conversation)
    (readMessages : string -> option (list ChatHistoryRest.MessageData))
    (cid : string) (st : State) (w : Client.World) :
  let first := ChatHistoryRest.get (ChatHistory.conversationUrl base cid) in
  let second := ChatHistoryRest.get (ChatHistoryRest.messagesPageUrl base cid) in
  let r := handleSelectConversation base userId readConversation
             readMessages cid st w in
  ChatHistory.isLoading (Client.hook (snd r)) = false
  /\ (forall b1 b2 rows,
      ChatHistoryRest.okBody (Client.narrow w) first = Some b1 ->
      ChatHistoryRest.okBody (Client.narrow w) second = Some b2 ->
      readMessages b2 = Some rows ->
      submitted (fst r)
      = submitted st
        ++ [{| App.messages := map ChatHistoryRest.toLangGraph rows;
               App.initial_search_query_count := 3;
               App.max_research_loops := 1;
               App.conversation_id := Some cid;
               App.user_id := Some userId |}]
      /\ processedEventsTimeline (fst r) = []
      /\ historicalActivities (fst r) = noActivities
      /\ appError (fst r) = appError st)
  /\ (ChatHistoryRest.okBody (Client.narrow w) first = None
      \/ ChatHistoryRest.okBody (Client.narrow w) second = None
      \/ (exists b2,
             ChatHistoryRest.okBody (Client.narrow w) second = Some b2
             /\ readMessages b2 = None) ->
      submitted (fst r) = submitted st
      /\ processedEventsTimeline (fst r) = processedEventsTimeline st
      /\ historicalActivities (fst r) = historicalActivities st
      /\ appError (fst r) = Some "Failed to load conversation"%string)
  /\ (forall b1,
      ChatHistoryRest.okBody (Client.narrow w) first = Some b1 ->
      ChatHistory.currentConversation (Client.hook (snd r))
      = Some (readConversation b1)).
Proof.
  intros first second r. subst r. unfold handleSelectConversation.
  destruct (loadConversation_cases base readConversation readMessages cid
              (Client.narrow w)) as (Hl & Hc).
  fold first second in Hc.
  unfold Client.lift.
  destruct (ChatHistoryRest.loadConversation base readConversation
              readMessages cid (Client.narrow w)) as [o w1].
  cbn in Hl, Hc. cbn [fst snd].
  destruct (ChatHistoryRest.okBody (Client.narrow w) first) as [b1|].
  - destruct Hc as (Hcur & Hc).
    destruct (ChatHistoryRest.okBody (Client.narrow w) second) as [b2|];
      cbn in Hc; [destruct (readMessages b2) as [rows|] eqn:Hrows|].
    + subst o. cbn. split; [exact Hl|]. split; [|split].
      * intros b1' b2' rows' E1 E2 E3. inversion E2; subst b2'.
        rewrite Hrows in E3. inversion E3; subst rows'. repeat split.
      * intros [H | [H | (b & H & H')]]; try discriminate H.
        inversion H; subst b. congruence.
      * intros b E. inversion E; subst b. exact Hcur.
    + destruct Hc as (e & ->). cbn. split; [exact Hl|]. split; [|split].
      * intros b1' b2' rows' E1 E2 E3. inversion E2; subst b2'. congruence.
      * intros _. repeat split.
      * intros b E. inversion E; subst b. exact Hcur.
    + destruct Hc as (e & ->). cbn. split; [exact Hl|]. split; [|split].
      * intros b1' b2' rows' _ E2. discriminate E2.
      * intros _. repeat split.
      * intros b E. inversion E; subst b. exact Hcur.
  - destruct Hc as (e & ->). cbn. split; [exact Hl|]. split; [|split].
    + intros b1' b2' rows' E1. discriminate E1.
    + intros _. repeat split.
    + intros b E. discriminate E.
Qed.

Lemma handleSelectConversation_outcome_witness :
  let r := handleSelectConversation Samples.base "u1"
             FrontSamples.readConversation FrontSamples.readMessages
             "c7" initial (FrontSamples.browserAt None) in
  let broken := handleSelectConversation Samples.base "u1"
                  FrontSamples.readConversation FrontSamples.readMessages
                  "c7" initial
                  (FrontSamples.browser None
                     (ChatHistory.Responds Samples.okResponse)) in
  (map App.conversation_id (submitted (fst r)) = [Some "c7"%string]
   /\ map (fun s => List.length (App.messages s)) (submitted (fst r)) = [2]
   /\ ChatHistory.currentConversation (Client.hook (snd r))
      = Some FrontSamples.stored)
  /\ (submitted (fst broken) = []
      /\ appError (fst broken) = Some "Failed to load conversation"%string).
Proof.
  cbv zeta. split.
  - pose proof (handleSelectConversation_outcome Samples.base "u1"
                  FrontSamples.readConversation FrontSamples.readMessages
                  "c7" initial (FrontSamples.browserAt None)) as H.
    cbv zeta in H. destruct H as (_ & H & _ & Hcur).
    destruct (H FrontSamples.conversationBody FrontSamples.messagesBody
                FrontSamples.storedMessages eq_refl eq_refl eq_refl)
      as (Hsub & _).
    rewrite Hsub, (Hcur FrontSamples.conversationBody eq_refl).
    repeat split.
  - pose proof (handleSelectConversation_outcome Samples.base "u1"
                  FrontSamples.readConversation FrontSamples.readMessages
                  "c7" initial
                  (FrontSamples.browser None
                     (ChatHistory.Responds Samples.okResponse))) as H.
    cbv zeta in H. destruct H as (_ & _ & H & _).
    assert (Hbad : exists b2,
               ChatHistoryRest.okBody
                 (Client.narrow
                    (FrontSamples.browser None
                       (ChatHistory.Responds Samples.okResponse)))
                 (ChatHistoryRest.get
                    (ChatHistoryRest.messagesPageUrl Samples.base "c7"))
               = Some b2
               /\ FrontSamples.readMessages b2 = None)
      by (exists "{}"%string; split; reflexivity).
    destruct (H (or_intror (or_intror Hbad))) as (Hsub & _ & _ & Herr).
    split; [exact Hsub | exact Herr].
Defined.

(** X20: when [handleCreateConversation] succeeds, the conversation the
    server answered with is the current one, and an empty thread is
    submitted with the default settings under the id of the conversation
    of the handler's own render, the one current before the creation
    (none if there was none); the timeline and the archived activities are
    emptied.  When the creation fails nothing is submitted and the error
    shown is ["Failed to create conversation"]. *)
Theorem handleCreateConversation_outcome (base userId : string)
    (readConversation : string -> Conversation)
    (current : option Conversation) (st : State) (w : Client.World) :
  let request :=
    Client.createRequest base (Some userId) "New Conversation" in
  let r := handleCreateConversation base userId readConversation current
             st w in
  (forall body, Client.okBody w request = Some body ->
      submitted (fst r)
      = submitted st
        ++ [{| App.messages := [];
               App.initial_search_query_count := 3;
               App.max_research_loops := 1;
               App.conversation_id := option_map id current;
               App.user_id := Some userId |}]
      /\ ChatHistory.currentConversation (Client.hook (snd r))
         = Some (readConversation body)
      /\ processedEventsTimeline (fst r) = []
      /\ historicalActivities (fst r) = noActivities)
  /\ (Client.okBody w request = None ->
      submitted (fst r) = submitted st
      /\ appError (fst r) = Some "Failed to create conversation"%string
      /\ ChatHistory.currentConversation (Client.hook (snd r))
         = ChatHistory.currentConversation (Client.hook w)).
Proof.
  intros request r. subst r. unfold handleCreateConversation.
  destruct (createConversation_cases base (Some userId) readConversation
              None w) as (_ & _ & _ & _ & Hc).
  cbv zeta in Hc. fold request in Hc.
  destruct (Client.createConversation base (Some userId) readConversation
              None w) as [o w1].
  cbn in Hc. cbn [fst snd].
  destruct (Client.okBody w request) as [body|].
  - destruct Hc as (-> & Hcur & _). cbn. split.
    + intros b E. inversion E; subst. repeat split. exact Hcur.
    + discriminate.
  - destruct Hc as ((e & ->) & _ & Hcur). cbn. split.
    + discriminate.
    + intros _. repeat split. exact Hcur.
Qed.

Lemma handleCreateConversation_outcome_witness :
  let w := FrontSamples.browser (Some Samples.freshConversation)
             (ChatHistory.Responds Samples.okResponse) in
  let r := handleCreateConversation Samples.base "u1"
             FrontSamples.readConversation (Some Samples.freshConversation)
             initial w in
  map App.conversation_id (submitted (fst r)) = [Some "c1"%string]
  /\ option_map id (ChatHistory.currentConversation (Client.hook (snd r)))
     = Some "c7"%string.
Proof.
  cbv zeta.
  pose proof (handleCreateConversation_outcome Samples.base "u1"
                FrontSamples.readConversation
                (Some Samples.freshConversation) initial
                (FrontSamples.browser (Some Samples.freshConversation)
                   (ChatHistory.Responds Samples.okResponse))) as H.
  cbv zeta in H. destruct H as (H & _).
  destruct (H "{}"%string eq_refl) as (Hsub & Hcur & _).
  rewrite Hsub, Hcur. split; reflexivity.
Defined.


End AppShellFacts.

(** ** The side bar *)

Section ConversationListFacts.
Import JsString Chat ChatHistory ConversationList.

Variable base : string.
Variable userId : option string.
Variable currentId : option string.
Variable readConversations : string -> option (list Conversation).
Variable toQueryString : list (string * string) -> string.
Variable server : list Request -> Request -> FetchResult.

Lemma fetchConversations_cases (log : list Request) (st : State) :
  let r := fetchConversations base userId readConversations toQueryString
             server log st in
  snd r = log ++ [listRequest base userId toQueryString st]
  /\ loading (fst r) = false
  /\ searchQuery (fst r) = searchQuery st
  /\ showArchived (fst r) = showArchived st
  /\ conversations (fst r)
     = match listedBy base userId toQueryString server log st with
       | Some data =>
           match readConversations data with
           | Some rows =>
               Rows (if showArchived st then rows else filter isActive rows)
           | None =>
               if showArchived st then Unchecked data else conversations st
           end
       | None => conversations st
       end.
Proof.
  cbv zeta. unfold listedBy, fetchConversations.
  destruct (server log (listRequest base userId toQueryString st))
    as [e | [[] sText tb [jb|]]]; cbn; try (repeat split; fail).
  destruct (showArchived st) eqn:Ea; destruct (readConversations jb);
    cbn; rewrite ?Ea; repeat split.
Qed.

(** X21: [fetchConversations] sends one request and always ends with the
    loading flag down, the search text and the filter untouched.  When
    the request fails, or the answer is not ok or does not parse, the
    list shown before stays.  On an ok answer that parses: with the
    archive filter off, an array of conversations is shown cut down to
    its active ones, in the answer's order, and anything else makes the
    filtering throw, which is caught, so the list shown before stays;
    with the filter on, the answer is stored as it comes, an array of
    conversations whole, anything else unchecked.  The search text is
    sent only when it is not empty, the user id only when it is known and
    not empty, the limit of 50 always. *)
Theorem fetchConversations_outcome (log : list Request) (st : State) :
  let r := fetchConversations base userId readConversations toQueryString
             server log st in
  let st' := fst r in
  let answer := listedBy base userId toQueryString server log st in
  snd r = log ++ [listRequest base userId toQueryString st]
  /\ loading st' = false
  /\ searchQuery st' = searchQuery st
  /\ showArchived st' = showArchived st
  /\ (answer = None -> conversations st' = conversations st)
  /\ (forall data, answer = Some data ->
      (showArchived st = false ->
          (readConversations data = None ->
           conversations st' = conversations st)
          /\ (forall rows, readConversations data = Some rows ->
              conversations st' = Rows (filter isActive rows)
              /\ (forall conv, In conv (filter isActive rows) ->
                    status conv = active /\ In conv rows)
              /\ (forall conv, In conv rows -> status conv = active ->
                    In conv (filter isActive rows))))
      /\ (showArchived st = true ->
          (readConversations data = None ->
           conversations st' = Unchecked data)
          /\ (forall rows, readConversations data = Some rows ->
              conversations st' = Rows rows)))
  /\ (In ("limit", "50")%string (listParams userId st)
      /\ (In "search"%string (map fst (listParams userId st))
          <-> searchQuery st <> EmptyString)
      /\ (In "user_id"%string (map fst (listParams userId st))
          <-> exists u, userId = Some u /\ u <> EmptyString)).
Proof.
  intros r st' answer. subst r st' answer.
  destruct (fetchConversations_cases log st) as (H1 & H2 & H3 & H4 & H5).
  cbv zeta in *.
  split; [exact H1|]. split; [exact H2|]. split; [exact H3|].
  split; [exact H4|]. split; [|split].
  - intros Hn. now rewrite Hn in H5.
  - intros data Hd. rewrite Hd in H5. split.
    + intros Ha. rewrite Ha in H5. split.
      * intros Hr. now rewrite Hr in H5.
      * intros rows Hr. rewrite Hr in H5. split; [exact H5|]. split.
        -- intros conv Hin. apply filter_In in Hin as [Hin Hact].
           split; [|exact Hin]. unfold isActive in Hact.
           destruct (status conv); congruence.
        -- intros conv Hin Hact. apply filter_In. split; [exact Hin|].
           unfold isActive. now rewrite Hact.
    + intros Ha. rewrite Ha in H5. split.
      * intros Hr. now rewrite Hr in H5.
      * intros rows Hr. now rewrite Hr in H5.
  - unfold listParams, ChatHistoryRest.truthy.
    destruct userId as [[|c u]|]; destruct (searchQuery st) as [|d q];
      cbn; repeat split;
      try (intros; tauto);
      try (intros [H | H]; (discriminate H || tauto));
      try (intros [H | [H | H]]; (discriminate H || tauto));
      try (intros [H | [H | [H | H]]]; (discriminate H || tauto));
      try (intros H; congruence);
      try (intros _; eexists; split; [reflexivity | discriminate]);
      try (intros (u' & H & H'); congruence).
Qed.

(** X22: without the user's confirmation [deleteConversation] sends
    nothing and changes nothing.  With it, one DELETE is sent for the
    conversation; if the server refuses it nothing else happens; if it
    accepts, the list is fetched again, from the server as it is after the
    deletion, and a new conversation is asked for exactly when the deleted
    one was the current one.  [archiveConversation] sends the DELETE with
    [archive_only=true] without asking, and fetches the list again exactly
    when the server accepts. *)
Theorem delete_and_archive_outcome (confirmed : bool) (cid : string)
    (log : list Request) (st : State) :
  let delete := deleteRequest base cid false in
  let archive := deleteRequest base cid true in
  let d := deleteConversation base userId currentId readConversations
             toQueryString server confirmed cid log st in
  let a := archiveConversation base userId readConversations toQueryString
             server cid log st in
  (confirmed = false -> d = (st, log, false))
  /\ (confirmed = true -> accepted server log delete = false ->
      d = (st, log ++ [delete], false))
  /\ (confirmed = true -> accepted server log delete = true ->
      fst d = fetchConversations base userId readConversations
                toQueryString server (log ++ [delete]) st
      /\ snd (fst d)
         = log ++ [delete; listRequest base userId toQueryString st]
      /\ (snd d = true <-> currentId = Some cid))
  /\ (accepted server log archive = false -> a = (st, log ++ [archive]))
  /\ (accepted server log archive = true ->
      a = fetchConversations base userId readConversations toQueryString
            server (log ++ [archive]) st
      /\ snd a = log ++ [archive; listRequest base userId toQueryString st])
  /\ req_url archive = (req_url delete ++ "?archive_only=true")%string
  /\ req_method delete = "DELETE"%string
  /\ req_method archive = "DELETE"%string.
Proof.
  cbv zeta. unfold deleteConversation, archiveConversation.
  split; [intros ->; reflexivity|].
  split; [intros -> ->; reflexivity|].
  split.
  { intros -> ->. cbn.
    destruct (fetchConversations_cases (log ++ [deleteRequest base cid false])
                st) as (H1 & _).
    cbv zeta in H1.
    split; [reflexivity|]. split.
    - rewrite H1, <- app_assoc. reflexivity.
    - destruct currentId as [current|]; split; intros H;
        try discriminate H.
      + apply String.eqb_eq in H. now subst.
      + inversion H. apply String.eqb_refl. }
  split; [intros ->; reflexivity|].
  split.
  { intros ->.
    destruct (fetchConversations_cases (log ++ [deleteRequest base cid true])
                st) as (H1 & _).
    cbv zeta in H1.
    split; [reflexivity|]. rewrite H1, <- app_assoc. reflexivity. }
  unfold deleteRequest. cbn. rewrite append_empty_r. repeat split.
Qed.

End ConversationListFacts.

Lemma fetchConversations_outcome_witness :
  let r := ConversationList.fetchConversations Samples.base
             (Some "u1"%string) FrontSamples.readConversations
             FrontSamples.plainQueryString FrontSamples.steady []
             ConversationList.initial in
  let odd := ConversationList.fetchConversations Samples.base
               (Some "u1"%string) FrontSamples.readConversations
               FrontSamples.plainQueryString FrontSamples.confused []
               ConversationList.initial in
  (ConversationList.conversations (fst r)
   = ConversationList.Rows [FrontSamples.stored]
   /\ ConversationList.loading (fst r) = false)
  /\ ConversationList.conversations (fst odd) = ConversationList.Rows [].
Proof.
  cbv zeta. split.
  - pose proof (fetchConversations_outcome Samples.base (Some "u1"%string)
                  FrontSamples.readConversations
                  FrontSamples.plainQueryString FrontSamples.steady []
                  ConversationList.initial) as H.
    cbv zeta in H. destruct H as (_ & H2 & _ & _ & _ & H6 & _).
    destruct (H6 FrontSamples.listBody eq_refl) as (H7 & _).
    destruct (H7 eq_refl) as (_ & H8).
    destruct (H8 [FrontSamples.stored; FrontSamples.shelved] eq_refl)
      as (H9 & _).
    split; [exact H9 | exact H2].
  - pose proof (fetchConversations_outcome Samples.base (Some "u1"%string)
                  FrontSamples.readConversations
                  FrontSamples.plainQueryString FrontSamples.confused []
                  ConversationList.initial) as H.
    cbv zeta in H. destruct H as (_ & _ & _ & _ & _ & H6 & _).
    destruct (H6 "{}"%string eq_refl) as (H7 & _).
    destruct (H7 eq_refl) as (H8 & _).
    exact (H8 eq_refl).
Defined.

Lemma delete_and_archive_outcome_witness :
  let d := ConversationList.deleteConversation Samples.base
             (Some "u1"%string) (Some "c7"%string)
             FrontSamples.readConversations FrontSamples.plainQueryString
             FrontSamples.steady true "c7" [] ConversationList.initial in
  snd d = true
  /\ map ChatHistory.req_method (snd (fst d)) = ["DELETE"; "GET"]%string.
Proof.
  cbv zeta.
  pose proof (delete_and_archive_outcome Samples.base (Some "u1"%string)
                (Some "c7"%string) FrontSamples.readConversations
                FrontSamples.plainQueryString FrontSamples.steady
                true "c7" [] ConversationList.initial) as H.
  cbv zeta in H. destruct H as (_ & _ & H & _).
  destruct (H eq_refl eq_refl) as (_ & Hlog & Hiff).
  split; [exact (proj2 Hiff eq_refl)|].
  rewrite Hlog. reflexivity.
Defined.

(** ** The Save button *)

Section SaveButtonFacts.
Import JsString Chat ChatHistory ChatHistoryRest SaveButton.

(** X23: the Save button does nothing without a save callback or without
    a non-empty conversation id.  Otherwise it runs the callback once and
    ends with the saving flag down, whether the callback resolves or
    rejects.  With the hook's [saveConversation] as the callback: a
    failed save is not thrown further but is recorded in the hook's error
    state; a successful one whose answer carries the saved conversation
    moves [updated_at] of the conversation in the hook's state, when the
    callback's conversation has the saved id; and when the answer carries
    no conversation, the handler ends normally with nothing recorded, and
    the render that follows fails on the queued update, which the
    handler's [catch] does not see. *)
Theorem handleSaveConversation_outcome
    (onSave : option (string -> Rendered unit)) (cid : option string)
    (st : InputForm.State) (w : World) :
  let r := handleSaveConversation onSave cid st w in
  (onSave = None \/ cid = None \/ cid = Some EmptyString ->
   r = (st, w, false))
  /\ (forall save c,
      onSave = Some save -> cid = Some c -> c <> EmptyString ->
      InputForm.isSaving (fst (fst r)) = false
      /\ InputForm.internalInputValue (fst (fst r))
         = InputForm.internalInputValue st
      /\ InputForm.effort (fst (fst r)) = InputForm.effort st
      /\ snd (fst r) = snd (fst (save c w))
      /\ snd r = snd (save c w)
      /\ InputForm.isSaving (saving st) = true)
  /\ (forall base captured readSavedAt c,
      onSave = Some (saveConversation base captured readSavedAt) ->
      cid = Some c -> c <> EmptyString ->
      let request := mkRequest "POST" (saveUrl base c) NoBody in
      sent (snd (fst r)) = sent w ++ [request]
      /\ (okBody w request = None ->
          (exists m, error (hook (snd (fst r))) = Some m)
          /\ snd r = false)
      /\ (forall body, okBody w request = Some body ->
          isCaptured captured c = true ->
          forall conv, currentConversation (hook w) = Some conv ->
          (forall savedAt, readSavedAt body = Some savedAt ->
              currentConversation (hook (snd (fst r)))
              = Some (withUpdatedAt savedAt conv)
              /\ snd r = false)
          /\ (readSavedAt body = None ->
              currentConversation (hook (snd (fst r))) = Some conv
              /\ error (hook (snd (fst r))) = error (hook w)
              /\ snd r = true))).
Proof.
  intros r. subst r. unfold handleSaveConversation.
  split; [|split].
  - intros [-> | [-> | ->]]; try reflexivity; now destruct onSave.
  - intros save c -> -> Hc. destruct c as [|ch c]; [congruence|].
    cbn [truthy]. destruct (save (String ch c) w) as [[o w1] t]. cbn.
    repeat split.
  - intros base captured readSavedAt c -> -> Hc.
    destruct c as [|ch c]; [congruence|]. cbn [truthy].
    pose proof (@saveConversation_cases base captured readSavedAt
                  (String ch c) w) as Hboth.
    cbv zeta in Hboth. destruct Hboth as (Hs & _ & Hcase).
    destruct (saveConversation base captured readSavedAt (String ch c) w)
      as [[o w1] t].
    cbn [fst snd] in *.
    split; [exact Hs|]. split.
    + intros Hn. rewrite Hn in Hcase. tauto.
    + intros body Hb Hcap conv Hcur. rewrite Hb, Hcap, Hcur in Hcase.
      cbn in Hcase. destruct Hcase as (_ & Herr & Hcase). split.
      * intros savedAt Hat. rewrite Hat in Hcase. exact Hcase.
      * intros Hat. rewrite Hat in Hcase. tauto.
Qed.

Lemma handleSaveConversation_outcome_witness :
  let down := handleSaveConversation
                (Some (saveConversation Samples.base
                         (Some Samples.freshConversation)
                         FrontSamples.readSavedAt))
                (Some "c1"%string) InputForm.initial
                (Samples.worldWith (Responds Samples.serverDown)) in
  let saved := handleSaveConversation
                 (Some (saveConversation Samples.base
                          (Some FrontSamples.stored)
                          FrontSamples.readSavedAt))
                 (Some "c7"%string) InputForm.initial
                 (FrontSamples.worldOn (Some FrontSamples.stored)
                    FrontSamples.library) in
  (InputForm.isSaving (fst (fst down)) = false
   /\ exists m, error (hook (snd (fst down))) = Some m)
  /\ (option_map updated_at (currentConversation (hook (snd (fst saved))))
      = Some "2025-03-01T08:00:00.000Z"%string
      /\ snd saved = false).
Proof.
  cbv zeta. split.
  - pose proof (handleSaveConversation_outcome
                  (Some (saveConversation Samples.base
                           (Some Samples.freshConversation)
                           FrontSamples.readSavedAt))
                  (Some "c1"%string) InputForm.initial
                  (Samples.worldWith (Responds Samples.serverDown))) as H.
    cbv zeta in H. destruct H as (_ & H2 & H3).
    assert (Hid : "c1"%string <> EmptyString) by discriminate.
    destruct (H2 _ "c1"%string eq_refl eq_refl Hid) as (Hs & _).
    destruct (H3 Samples.base (Some Samples.freshConversation)
                FrontSamples.readSavedAt "c1"%string
                eq_refl eq_refl Hid) as (_ & H4 & _).
    split; [exact Hs | exact (proj1 (H4 eq_refl))].
  - pose proof (handleSaveConversation_outcome
                  (Some (saveConversation Samples.base
                           (Some FrontSamples.stored)
                           FrontSamples.readSavedAt))
                  (Some "c7"%string) InputForm.initial
                  (FrontSamples.worldOn (Some FrontSamples.stored)
                     FrontSamples.library)) as H.
    cbv zeta in H. destruct H as (_ & _ & H3).
    assert (Hid : "c7"%string <> EmptyString) by discriminate.
    destruct (H3 Samples.base (Some FrontSamples.stored)
                FrontSamples.readSavedAt "c7"%string
                eq_refl eq_refl Hid) as (_ & _ & H5).
    destruct (H5 FrontSamples.savedBody eq_refl eq_refl FrontSamples.stored
                eq_refl) as (H6 & _).
    destruct (H6 "2025-03-01T08:00:00.000Z"%string eq_refl) as (H7 & H8).
    split; [|exact H8]. rewrite H7. reflexivity.
Defined.

End SaveButtonFacts.
